(** * Orbidder and Vidazoo bid adapters: a shallow embedding and its properties

    The development follows [modules/orbidderBidAdapter.js] and
    [libraries/vidazooUtils/bidderUtils.js].  JavaScript values are an
    inductive type with the coercions the two files rely on; code that reads
    the clock or local storage runs in a state monad over a [World], and code
    that can raise runs in [Result]. *)

From Stdlib Require Import ZArith Lia List DecimalString.
From stdpp Require Import base option list strings gmap.

Set Warnings "-register-all".
Local Open Scope string_scope.
Local Open Scope Z_scope.

(** ** JavaScript values *)

(** Numbers.  Every Number the two files compute with is an integer (counters,
    millisecond timestamps, 32-bit hashes), so finite numbers are integers,
    taken in the range where JavaScript computes with them exactly and prints
    them in decimal; [NaN] is kept because the code tests for it. *)
Inductive JsNum : Type :=
| NaN
| Num (z : Z).

(** Function values are opaque: a function is known by an identifier and the
    runtime says what calling it returns (see [Runtime]). *)
Definition FnId : Type := string.

Inductive JsVal : Type :=
| VUndef
| VNull
| VBool (b : bool)
| VNum (n : JsNum)
| VStr (s : string)
| VArr (elems : list JsVal)
| VObj (props : list (string * JsVal))
| VFun (f : FnId).

Inductive Exn : Type :=
| TypeError
| SyntaxError
| Raised (tag : string).

(** Completion of a computation that may raise. *)
Inductive Result (A : Type) : Type :=
| Ok (a : A)
| Throw (e : Exn).
Arguments Ok {A} a.
Arguments Throw {A} e.

Definition rbind {A B} (r : Result A) (k : A -> Result B) : Result B :=
  match r with
  | Ok a => k a
  | Throw e => Throw e
  end.

Notation "x <- c ; k" := (rbind c (fun x => k))
  (at level 20, c at level 100, k at level 200, only parsing).

(** What the host supplies and the two files only call. *)
Class Runtime : Type := {
  (** [Number(s)] on a string *)
  StringToNumber : string -> JsNum;
  encodeURIComponent : string -> string;
  (** the text [JSON.stringify] produces *)
  JSON_text : JsVal -> string;
  (** calling a function value as a method of [this] on its arguments *)
  callFn : FnId -> JsVal -> list JsVal -> Result JsVal;
  (** [String(f)] on a function value *)
  fnSource : FnId -> string
}.

(** *** Objects as ordered property lists *)

Fixpoint obj_get (k : string) (ps : list (string * JsVal)) : option JsVal :=
  match ps with
  | [] => None
  | (k', v) :: r => if String.eqb k k' then Some v else obj_get k r
  end.

Fixpoint obj_set (k : string) (v : JsVal) (ps : list (string * JsVal))
  : list (string * JsVal) :=
  match ps with
  | [] => [(k, v)]
  | (k', v') :: r =>
      if String.eqb k k' then (k, v) :: r else (k', v') :: obj_set k v r
  end.

Fixpoint obj_del (k : string) (ps : list (string * JsVal))
  : list (string * JsVal) :=
  match ps with
  | [] => []
  | (k', v') :: r =>
      if String.eqb k k' then obj_del k r else (k', v') :: obj_del k r
  end.

(** Decimal rendering of an integer, with a leading minus sign when negative. *)
Definition decimal (z : Z) : string := NilZero.string_of_int (Z.to_int z).

(** The canonical array index a property key denotes, if any, below [n]. *)
Definition array_index (k : string) (n : nat) : option nat :=
  find (fun i => String.eqb (decimal (Z.of_nat i)) k) (seq 0 n).

Definition str_length (s : string) : Z := Z.of_nat (String.length s).

Definition char_at (s : string) (i : nat) : JsVal :=
  match String.get i s with
  | Some c => VStr (String c EmptyString)
  | None => VUndef
  end.

(** [v.k] and [v[k]].  Reading a property of [undefined] or [null] raises;
    a missing property reads as [undefined].  Inherited methods are not data
    and are modelled where they are called. *)
Definition getProp (v : JsVal) (k : string) : Result JsVal :=
  match v with
  | VUndef | VNull => Throw TypeError
  | VObj ps => Ok (default VUndef (obj_get k ps))
  | VArr l =>
      if String.eqb k "length" then Ok (VNum (Num (Z.of_nat (length l))))
      else Ok (default VUndef (i ← array_index k (length l); l !! i))
  | VStr s =>
      if String.eqb k "length" then Ok (VNum (Num (str_length s)))
      else Ok (default VUndef (char_at s <$> array_index k (String.length s)))
  | VBool _ | VNum _ | VFun _ => Ok VUndef
  end.

(** [v?.k] *)
Definition getOpt (v : JsVal) (k : string) : JsVal :=
  match getProp v k with
  | Ok x => x
  | Throw _ => VUndef
  end.

(** [Object.prototype.hasOwnProperty.call(v, k)] *)
Definition ownProperty (v : JsVal) (k : string) : bool :=
  match v with
  | VObj ps => bool_decide (is_Some (obj_get k ps))
  | VArr l =>
      String.eqb k "length" || bool_decide (is_Some (array_index k (length l)))
  | VStr s =>
      String.eqb k "length"
      || bool_decide (is_Some (array_index k (String.length s)))
  | VFun _ => String.eqb k "length" || String.eqb k "name"
  | VUndef | VNull | VBool _ | VNum _ => false
  end.

(** *** Coercions *)

Definition truthy (v : JsVal) : bool :=
  match v with
  | VUndef | VNull => false
  | VBool b => b
  | VNum NaN => false
  | VNum (Num z) => negb (z =? 0)
  | VStr s => negb (String.eqb s "")
  | VArr _ | VObj _ | VFun _ => true
  end.

Definition typeof (v : JsVal) : string :=
  match v with
  | VUndef => "undefined"
  | VNull => "object"
  | VBool _ => "boolean"
  | VNum _ => "number"
  | VStr _ => "string"
  | VArr _ | VObj _ => "object"
  | VFun _ => "function"
  end.

Definition num_to_string (n : JsNum) : string :=
  match n with
  | NaN => "NaN"
  | Num z => decimal z
  end.

Fixpoint join_strings (sep : string) (l : list string) : string :=
  match l with
  | [] => ""
  | [s] => s
  | s :: r => s +:+ sep +:+ join_strings sep r
  end.

Section Coercions.
Context `{Runtime}.

Fixpoint ToString (v : JsVal) : string :=
  match v with
  | VUndef => "undefined"
  | VNull => "null"
  | VBool true => "true"
  | VBool false => "false"
  | VNum n => num_to_string n
  | VStr s => s
  | VArr l =>
      join_strings ","
        (map (fun x => match x with
                       | VUndef | VNull => ""
                       | _ => ToString x
                       end) l)
  | VObj _ => "[object Object]"
  | VFun f => fnSource f
  end.

(** [Array.prototype.join] *)
Definition array_join (sep : string) (l : list JsVal) : string :=
  join_strings sep
    (map (fun x => match x with
                   | VUndef | VNull => ""
                   | _ => ToString x
                   end) l).

Definition ToNumber (v : JsVal) : JsNum :=
  match v with
  | VUndef => NaN
  | VNull => Num 0
  | VBool b => Num (if b then 1 else 0)
  | VNum n => n
  | VStr s => StringToNumber s
  | VArr _ => StringToNumber (ToString v)
  | VObj _ | VFun _ => NaN
  end.

(** the global [isNaN] *)
Definition isNaN (v : JsVal) : bool :=
  match ToNumber v with
  | NaN => true
  | Num _ => false
  end.

(** [a - b] *)
Definition js_sub (a b : JsVal) : JsNum :=
  match ToNumber a, ToNumber b with
  | Num x, Num y => Num (x - y)
  | _, _ => NaN
  end.

(** [a + b]: concatenation as soon as one side is not a number-like
    primitive, addition otherwise. *)
Definition stringish (v : JsVal) : bool :=
  match v with
  | VStr _ | VArr _ | VObj _ | VFun _ => true
  | VUndef | VNull | VBool _ | VNum _ => false
  end.

Definition js_add (a b : JsVal) : JsVal :=
  if stringish a || stringish b then VStr (ToString a +:+ ToString b)
  else match ToNumber a, ToNumber b with
       | Num x, Num y => VNum (Num (x + y))
       | _, _ => VNum NaN
       end.
End Coercions.

(** [n < e] and [n > e] on numbers: false as soon as one side is [NaN]. *)
Definition num_lt (n : JsNum) (e : Z) : bool :=
  match n with
  | NaN => false
  | Num z => z <? e
  end.

Definition num_gt (n : JsNum) (e : Z) : bool :=
  match n with
  | NaN => false
  | Num z => e <? z
  end.

(** [a === b].  Objects and arrays are equal in JavaScript only when they are
    the same object; values carry no identity here and are compared by
    content, which is exact for the primitives. *)
Definition num_eqb (a b : JsNum) : bool :=
  match a, b with
  | Num x, Num y => x =? y
  | _, _ => false
  end.

Fixpoint strict_eq (a b : JsVal) : bool :=
  match a, b with
  | VUndef, VUndef => true
  | VNull, VNull => true
  | VBool x, VBool y => Bool.eqb x y
  | VNum x, VNum y => num_eqb x y
  | VStr x, VStr y => String.eqb x y
  | VFun x, VFun y => String.eqb x y
  | VArr x, VArr y =>
      (fix go (x y : list JsVal) : bool :=
         match x, y with
         | [], [] => true
         | u :: x', v :: y' => strict_eq u v && go x' y'
         | _, _ => false
         end) x y
  | VObj x, VObj y =>
      (fix go (x y : list (string * JsVal)) : bool :=
         match x, y with
         | [], [] => true
         | (k, u) :: x', (k', v) :: y' =>
             String.eqb k k' && strict_eq u v && go x' y'
         | _, _ => false
         end) x y
  | _, _ => false
  end.

Definition isArray (v : JsVal) : bool :=
  match v with
  | VArr _ => true
  | _ => false
  end.

(** [v.k = x] in strict mode.  Named properties put on an array or a function
    are not tracked by the value model. *)
Definition setProp (v : JsVal) (k : string) (x : JsVal) : Result JsVal :=
  match v with
  | VObj ps => Ok (VObj (obj_set k x ps))
  | VArr _ | VFun _ => Ok v
  | VUndef | VNull | VBool _ | VNum _ | VStr _ => Throw TypeError
  end.

(** [delete v.k] *)
Definition deleteProp (v : JsVal) (k : string) : JsVal :=
  match v with
  | VObj ps => VObj (obj_del k ps)
  | _ => v
  end.

(** The own enumerable properties an object spread [{...v}] copies. *)
Definition own_entries (v : JsVal) : list (string * JsVal) :=
  match v with
  | VObj ps => ps
  | VArr l => imap (fun i x => (decimal (Z.of_nat i), x)) l
  | VStr s =>
      imap (fun i c => (decimal (Z.of_nat i), VStr (String c EmptyString)))
        (String.list_ascii_of_string s)
  | VUndef | VNull | VBool _ | VNum _ | VFun _ => []
  end.

Definition spread_into (base : list (string * JsVal)) (v : JsVal)
  : list (string * JsVal) :=
  fold_left (fun acc kv => obj_set kv.1 kv.2 acc) (own_entries v) base.

(** ** The world: local storage and the clock *)

(** A storage cell holds text.  The two files look at stored text either as
    it is or through [JSON.parse], and write it through [JSON.stringify]: a
    cell is represented by the JSON document its text denotes, or by the text
    itself when it is not JSON. *)
Inductive Cell : Type :=
| Raw (text : string)
| Doc (v : JsVal).

(** The storage manager: its cells, and for which keys a read or a write
    raises. *)
Record Storage : Type := {
  cells : gmap string Cell;
  readThrows : string -> bool;
  writeThrows : string -> bool
}.

(** [Date.now()] is read off [clock] at position [ticks], which every read
    advances. *)
Record World : Type := {
  storage : Storage;
  clock : nat -> Z;
  ticks : nat
}.

Definition M (A : Type) : Type := World -> Result A * World.

Definition ret {A} (a : A) : M A := fun w => (Ok a, w).

Definition bind {A B} (c : M A) (k : A -> M B) : M B := fun w =>
  match c w with
  | (Ok a, w') => k a w'
  | (Throw e, w') => (Throw e, w')
  end.

Notation "x <~ c ; k" := (bind c (fun x => k))
  (at level 20, c at level 100, k at level 200, only parsing).

(** [try { c } catch (e) { h }] *)
Definition try_catch {A} (c : M A) (h : M A) : M A := fun w =>
  match c w with
  | (Ok a, w') => (Ok a, w')
  | (Throw _, w') => h w'
  end.

Definition lift {A} (r : Result A) : M A := fun w => (r, w).

Definition Date_now : M Z := fun w =>
  (Ok (clock w (ticks w)),
   {| storage := storage w; clock := clock w; ticks := S (ticks w) |}).

Definition getDataFromLocalStorage (key : string) : M (option Cell) := fun w =>
  if readThrows (storage w) key then (Throw (Raised "storage"), w)
  else (Ok (cells (storage w) !! key), w).

Definition setDataInLocalStorage (key : string) (data : Cell) : M unit :=
  fun w =>
  if writeThrows (storage w) key then (Throw (Raised "storage"), w)
  else (Ok tt,
        {| storage := {| cells := <[key := data]> (cells (storage w));
                         readThrows := readThrows (storage w);
                         writeThrows := writeThrows (storage w) |};
           clock := clock w; ticks := ticks w |}).

(** The text of a cell, as a JavaScript value ([null] when there is none). *)
Definition cell_text `{Runtime} (c : option Cell) : JsVal :=
  match c with
  | None => VNull
  | Some (Raw s) => VStr s
  | Some (Doc v) => VStr (JSON_text v)
  end.

(** [a || b] and [a && b] on values already computed. *)
Definition js_or (a b : JsVal) : JsVal := if truthy a then a else b.
Definition js_and (a b : JsVal) : JsVal := if truthy a then b else a.

Fixpoint mapR {A B} (f : A -> Result B) (l : list A) : Result (list B) :=
  match l with
  | [] => Ok []
  | x :: r => y <- f x; ys <- mapR f r; Ok (y :: ys)
  end.

(** What the bidding framework supplies to an adapter. *)
Class Prebid : Type := {
  (** the framework's conversion of native ORTB requests, applied to the
      array of bid requests before the adapter looks at them *)
  convertOrtbRequestToProprietaryNative : list JsVal -> list JsVal;
  (** the value substituted for the version placeholder at build time *)
  prebid_version : string;
  (** [bidderSettings.get(bidderCode, 'storageAllowed')] *)
  storageAllowed : string -> JsVal
}.

(** Modelled from the spec: [isFn] and [isPlainObject] of the framework's
    [src/utils.js], which is not among the sources.  The spec speaks of a bid
    that carries a floor-retrieval capability and of a floor result that is an
    object: [isFn] holds of function values, [isPlainObject] of plain objects
    (not of arrays, [null] or functions). *)
Definition isFn (v : JsVal) : bool :=
  match v with
  | VFun _ => true
  | _ => false
  end.

Definition isPlainObject (v : JsVal) : bool :=
  match v with
  | VObj _ => true
  | _ => false
  end.

(** [f.call(this, args)]; calling what is not a function raises. *)
Definition call `{Runtime} (f : JsVal) (this : JsVal) (args : list JsVal)
  : Result JsVal :=
  match f with
  | VFun id => callFn id this args
  | _ => Throw TypeError
  end.

(** [v.hasOwnProperty(k)]: the inherited method, unless [v] has a property of
    that name of its own. *)
Definition hasOwnProperty `{Runtime} (v : JsVal) (k : string) : Result bool :=
  match v with
  | VUndef | VNull => Throw TypeError
  | VObj ps =>
      match obj_get "hasOwnProperty" ps with
      | None => Ok (ownProperty v k)
      | Some m => r <- call m v [VStr k]; Ok (truthy r)
      end
  | _ => Ok (ownProperty v k)
  end.

(** The floor query both adapters pass to [getFloor]. *)
Definition floorQuery (currency : string) : JsVal :=
  VObj [("currency", VStr currency); ("mediaType", VStr "*");
        ("size", VStr "*")].

(** ** modules/orbidderBidAdapter.js *)
Module Orbidder.
Section Adapter.
Context `{Runtime} `{Prebid}.

(** Modelled from the spec: the media-type names [BANNER] and [NATIVE] of
    [src/mediaTypes.js], which is not among the sources; the spec's records
    declare them as ['banner'] and ['native']. *)
Definition BANNER : string := "banner".
Definition NATIVE : string := "native".

Definition baseKeys : list string :=
  ["requestId"; "cpm"; "ttl"; "creativeId"; "netRevenue"; "currency"].

(** the [for (const key of requiredKeys)] loop *)
Fixpoint hasAllKeys (bidResponse : JsVal) (requiredKeys : list string)
  : Result bool :=
  match requiredKeys with
  | [] => Ok true
  | key :: rest =>
      present <- hasOwnProperty bidResponse key;
      if present then hasAllKeys bidResponse rest else Ok false
  end.

Definition isBidResponseValid (bidResponse : JsVal) : Result bool :=
  mediaType <- getProp bidResponse "mediaType";
  if strict_eq mediaType (VStr BANNER) then
    hasAllKeys bidResponse (baseKeys ++ ["width"; "height"; "ad"])%list
  else if strict_eq mediaType (VStr NATIVE) then
    native <- getProp bidResponse "native";
    tracked <- hasOwnProperty native "impressionTrackers";
    if tracked then hasAllKeys bidResponse baseKeys else Ok false
  else Ok false.

Definition hostname : string := "https://orbidder.otto.de".

Definition getHostname : M JsVal :=
  let hostname := VStr hostname in
  try_catch
    (stored <~ getDataFromLocalStorage "ov_orbidder_host";
     ret (js_or (cell_text stored) hostname))
    (ret hostname).

(** The conjunction is written out on the three properties read off [bid]
    (only reading them can raise, and only when [bid] is [undefined] or
    [null]); the parameters are read with [?.], which is what the guard
    [bid.params &&] amounts to. *)
Definition isBidRequestValid (bid : JsVal) : Result bool :=
  sizes <- getProp bid "sizes";
  bidId <- getProp bid "bidId";
  params <- getProp bid "params";
  let accountId := getOpt params "accountId" in
  let placementId := getOpt params "placementId" in
  let keyValues := getOpt params "keyValues" in
  Ok (truthy sizes && truthy bidId && truthy params
      && (truthy accountId && String.eqb (typeof accountId) "string")
      && (truthy placementId && String.eqb (typeof placementId) "string")
      && (String.eqb (typeof keyValues) "undefined"
          || String.eqb (typeof keyValues) "object")).

Definition getBidFloor (bid : JsVal) : Result JsVal :=
  getFloor <- getProp bid "getFloor";
  if negb (isFn getFloor) then
    params <- getProp bid "params";
    getProp params "bidfloor"
  else
    floor <- call getFloor bid [floorQuery "EUR"];
    if isPlainObject floor
       && negb (isNaN (getOpt floor "floor"))
       && strict_eq (getOpt floor "currency") (VStr "EUR")
    then Ok (getOpt floor "floor")
    else Ok VUndef.

(** The callback of [validBidRequests.map].  It changes the bid request it is
    given, so it returns that object as it leaves it, next to the request
    it builds. *)
Definition buildRequest (hostname bidderRequest bidRequest : JsVal)
  : Result (JsVal * JsVal) :=
  let referer :=
    if truthy (js_and bidderRequest (getOpt bidderRequest "refererInfo"))
    then js_or (getOpt (getOpt bidderRequest "refererInfo") "page") (VStr "")
    else VStr "" in
  bidRequest <-
    (if truthy (getOpt (getOpt bidRequest "mediaTypes") "video") then
       mediaTypes <- getProp bidRequest "mediaTypes";
       setProp bidRequest "mediaTypes" (deleteProp mediaTypes "video")
     else Ok bidRequest);
  bidfloor <- getBidFloor bidRequest;
  params <- getProp bidRequest "params";
  params <- setProp params "bidfloor" bidfloor;
  bidRequest <- setProp bidRequest "params" params;
  let data :=
    spread_into [("v", VStr ("v" +:+ prebid_version)); ("pageUrl", referer)]
      bidRequest in
  let data :=
    if truthy (js_and bidderRequest (getOpt bidderRequest "gdprConsent"))
    then
      let gdprConsent := getOpt bidderRequest "gdprConsent" in
      let gdprApplies := getOpt gdprConsent "gdprApplies" in
      obj_set "gdprConsent"
        (VObj [("consentString", getOpt gdprConsent "consentString");
               ("consentRequired",
                if String.eqb (typeof gdprApplies) "boolean"
                then gdprApplies else VBool false)])
        data
    else data in
  Ok (bidRequest,
      VObj [("url", VStr (ToString hostname +:+ "/bid"));
            ("method", VStr "POST");
            ("options", VObj [("withCredentials", VBool true)]);
            ("data", VObj data)]).

(** Returns the bid request objects as the call leaves them, and the
    requests built. *)
Definition buildRequests (validBidRequests : list JsVal)
    (bidderRequest : JsVal) : M (list JsVal * list JsVal) :=
  let validBidRequests :=
    convertOrtbRequestToProprietaryNative validBidRequests in
  hostname <~ getHostname;
  built <~ lift (mapR (buildRequest hostname bidderRequest) validBidRequests);
  ret (map fst built, map snd built).

(** The callback of [serverResponse.forEach], on the accumulator
    [bidResponses]. *)
Definition interpretOne (bidResponses : list JsVal) (bidResponse : JsVal)
  : Result (list JsVal) :=
  valid <- isBidResponseValid bidResponse;
  if valid then
    bidResponse <-
      (if isArray (getOpt bidResponse "advertiserDomains") then
         setProp bidResponse "meta"
           (VObj [("advertiserDomains",
                   getOpt bidResponse "advertiserDomains")])
       else Ok bidResponse);
    Ok (bidResponses ++ [bidResponse])%list
  else Ok bidResponses.

Fixpoint forEach (bidResponses : list JsVal) (records : list JsVal)
  : Result (list JsVal) :=
  match records with
  | [] => Ok bidResponses
  | bidResponse :: rest =>
      bidResponses <- interpretOne bidResponses bidResponse;
      forEach bidResponses rest
  end.

(** A body that is not an array has no [forEach] to call. *)
Definition interpretResponse (serverResponse : JsVal)
  : Result (list JsVal) :=
  let bidResponses := [] in
  serverResponse <- getProp serverResponse "body";
  if truthy serverResponse
     && num_gt (ToNumber (getOpt serverResponse "length")) 0
  then
    match serverResponse with
    | VArr records => forEach bidResponses records
    | _ => Throw TypeError
    end
  else Ok bidResponses.
End Adapter.
End Orbidder.

(** ** libraries/vidazooUtils/bidderUtils.js

    The functions follow the source in its order; the [storage] object they
    are passed is the storage of the world.  [createSessionId] is left out: it
    draws a random number, and none of the others calls it. *)

(** The constants of [libraries/vidazooUtils/constants.js]. *)
Class Constants : Type := {
  DEAL_ID_EXPIRY : Z;
  SESSION_ID_KEY : string;
  UNIQUE_DEAL_ID_EXPIRY : Z
}.

(** What the page offers: the query string of the top window's URL (reading
    it may raise) and the screen's dimensions. *)
Class Browser : Type := {
  topWindowSearch : Result JsVal;
  screen_width : JsVal;
  screen_height : JsVal
}.

(** The framework's [formatQS], which renders an object as a query string;
    [src/utils.js] is not among the sources, and [onBidWon] only hands it the
    fields of the bid it has picked. *)
Class QueryStrings : Type := {
  formatQS : JsVal -> string
}.

(** Modelled from the spec: [deepAccess] of the framework's [src/utils.js],
    which is not among the sources.  The spec has the adapters extract nested
    signals and the campaign ids observed in the responses: the path is
    followed property by property, and a missing link or a missing end yields
    the default. *)
Fixpoint deepAccess_from (obj : JsVal) (path : list string) : JsVal :=
  match path with
  | [] => obj
  | key :: rest =>
      deepAccess_from (if truthy obj then getOpt obj key else VUndef) rest
  end.

Definition deepAccess (obj : JsVal) (path : list string) (def : JsVal)
  : JsVal :=
  match deepAccess_from obj path with
  | VUndef => def
  | v => v
  end.

(** [arr.indexOf(value)] *)
Fixpoint indexOf_from (i : nat) (value : JsVal) (arr : list JsVal)
  : option nat :=
  match arr with
  | [] => None
  | x :: rest =>
      if strict_eq x value then Some i else indexOf_from (S i) value rest
  end.

Definition indexOf (arr : list JsVal) (value : JsVal) : option nat :=
  indexOf_from 0 value arr.

(** Modelled from the spec: [uniques] of the framework's [src/utils.js], which
    is not among the sources.  The spec has the campaign ids deduplicated: as
    a [filter] callback, [uniques] keeps a value where it occurs first. *)
Definition uniques (value : JsVal) (index : nat) (arr : list JsVal) : bool :=
  bool_decide (indexOf arr value = Some index).

(** [arr.filter(f)], with the callback given the value, its index and the
    array. *)
Fixpoint filter_from {A} (f : A -> nat -> bool) (i : nat) (l : list A)
  : list A :=
  match l with
  | [] => []
  | x :: rest =>
      if f x i then x :: filter_from f (S i) rest
      else filter_from f (S i) rest
  end.

Definition array_filter (f : JsVal -> nat -> list JsVal -> bool)
    (arr : list JsVal) : list JsVal :=
  filter_from (fun x i => f x i arr) 0%nat arr.

(** [JSON.stringify]: what the text written denotes.  Properties holding
    [undefined] or a function are left out, such array elements and [NaN]
    become [null]. *)
Fixpoint to_json (v : JsVal) : JsVal :=
  match v with
  | VNum NaN => VNull
  | VArr l =>
      VArr (map (fun x => match x with
                          | VUndef | VFun _ => VNull
                          | _ => to_json x
                          end) l)
  | VObj ps =>
      VObj (flat_map (fun kx => match kx with
                                | (_, VUndef) | (_, VFun _) => []
                                | (k, x) => [(k, to_json x)]
                                end) ps)
  | _ => v
  end.

Definition JSON_stringify (v : JsVal) : Cell := Doc (to_json v).

(** [JSON.parse]; the absent text [null] reads as the document [null]. *)
Definition JSON_parse (text : option Cell) : Result JsVal :=
  match text with
  | None => Ok VNull
  | Some (Doc v) => Ok v
  | Some (Raw _) => Throw SyntaxError
  end.

(** Bitwise operators work on 32-bit signed integers. *)
Definition ToInt32 (x : Z) : Z := (x + 2 ^ 31) mod 2 ^ 32 - 2 ^ 31.

(** [x << n] *)
Definition shl32 (x : Z) (n : Z) : Z := ToInt32 (Z.shiftl (ToInt32 x) n).

(** [x | y] *)
Definition or32 (x y : Z) : Z := Z.lor (ToInt32 x) (ToInt32 y).

(** [s.charCodeAt(i)] for every [i] below [s.length], in order. *)
Definition charCodes (s : string) : list Z :=
  map (fun c => Z.of_nat (Ascii.nat_of_ascii c))
    (String.list_ascii_of_string s).

Module Vidazoo.
Section Utils.
Context `{Runtime} `{Prebid} `{Constants} `{Browser} `{QueryStrings}.

(** [params.a || params.b || ...], from left to right *)
Definition any_spelling (params : JsVal) (spellings : list string)
  : Result JsVal :=
  match spellings with
  | [] => Ok VUndef
  | first :: others =>
      v <- getProp params first;
      Ok (fold_left (fun acc key => js_or acc (getOpt params key)) others v)
  end.

Definition cidSpellings : list string :=
  ["cId"; "CID"; "cID"; "CId"; "cid"; "ciD"; "Cid"; "CiD"].

Definition pidSpellings : list string :=
  ["pId"; "PID"; "pID"; "PId"; "pid"; "piD"; "Pid"; "PiD"].

Definition extractCID (params : JsVal) : Result JsVal :=
  any_spelling params cidSpellings.

Definition extractPID (params : JsVal) : Result JsVal :=
  any_spelling params pidSpellings.

Definition extractSubDomain (params : JsVal) : Result JsVal :=
  any_spelling params
    ["subDomain"; "SubDomain"; "Subdomain"; "subdomain"; "SUBDOMAIN";
     "subDOMAIN"].

Definition isBidRequestValid (bid : JsVal) : Result bool :=
  params <- getProp bid "params";
  let params := js_or params (VObj []) in
  cid <- extractCID params;
  if truthy cid then
    pid <- extractPID params;
    Ok (truthy pid)
  else Ok false.

Definition tryParseJSON (value : option Cell) : JsVal :=
  match JSON_parse value with
  | Ok v => v
  | Throw _ => cell_text value
  end.

Definition setStorageItem (key : string) (value timestamp : JsVal)
  : M unit :=
  try_catch
    (created <~ (if truthy timestamp then ret timestamp
                 else now <~ Date_now; ret (VNum (Num now)));
     let data :=
       JSON_stringify (VObj [("value", value); ("created", created)]) in
     setDataInLocalStorage key data)
    (ret tt).

Definition getStorageItem (key : string) : M JsVal :=
  try_catch
    (stored <~ getDataFromLocalStorage key;
     ret (tryParseJSON stored))
    (ret VNull).

(** The text written, [String(Date.now())], is the text of a JSON number: the
    cell it goes to holds the document of that number. *)
Definition getCacheOpt (useKey : string) : M JsVal :=
  stored <~ getDataFromLocalStorage useKey;
  let data := cell_text stored in
  if negb (truthy data) then
    now <~ Date_now;
    let data := VStr (decimal now) in
    _ <~ setDataInLocalStorage useKey (Doc (VNum (Num now)));
    ret data
  else ret data.

Definition getUniqueDealId (key : string) (expiry : Z) : M JsVal :=
  let storageKey := "u_" +:+ key in
  now <~ Date_now;
  data <~ getStorageItem storageKey;
  if negb (truthy data) || negb (truthy (getOpt data "value"))
     || num_gt (js_sub (VNum (Num now)) (getOpt data "created")) expiry
  then
    let uniqueId := VStr (key +:+ "_" +:+ decimal now) in
    _ <~ setStorageItem storageKey uniqueId VUndef;
    ret uniqueId
  else ret (getOpt data "value").

Definition getNextDealId (key : string) (expiry : Z) : M JsVal :=
  try_catch
    (data <~ getStorageItem key;
     live <~ (if truthy data && truthy (getOpt data "value") then
                now <~ Date_now;
                ret (num_lt (js_sub (VNum (Num now)) (getOpt data "created"))
                       expiry)
              else ret false);
     let currentValue := if live then getOpt data "value" else VNum (Num 0) in
     let timestamp := if live then getOpt data "created" else VUndef in
     let nextValue := js_add currentValue (VNum (Num 1)) in
     _ <~ setStorageItem key nextValue timestamp;
     ret nextValue)
    (ret (VNum (Num 0))).

(** the [while] loop, on the code units still to read *)
Fixpoint hash_loop (h : Z) (codes : list Z) : Z :=
  match codes with
  | [] => h
  | c :: rest => hash_loop (or32 (shl32 h 5 - h + c) 0) rest
  end.

Definition hashCode (s : string) (prefix : string) : string :=
  let h := hash_loop 0 (charCodes s) in
  prefix +:+ decimal h.

(** the fields of the bid that go into the win notification, in order *)
Definition wonFields : list string :=
  ["adId"; "creativeId"; "auctionId"; "transactionId"; "adUnitCode"; "cpm";
   "currency"; "originalCpm"; "originalCurrency"; "netRevenue"; "mediaType";
   "timeToRespond"; "status"].

(** [nurl.indexOf('?') === -1]: strings and arrays have the method, an object
    may have one of its own, and calling what is not there raises. *)
Definition lacksQuestionMark (nurl : JsVal) : Result bool :=
  match nurl with
  | VStr s => Ok (bool_decide (String.index 0 "?" s = None))
  | VArr l => Ok (bool_decide (indexOf l (VStr "?") = None))
  | VObj ps =>
      r <- call (default VUndef (obj_get "indexOf" ps)) nurl [VStr "?"];
      Ok (strict_eq r (VNum (Num (-1))))
  | _ => Throw TypeError
  end.

(** Returns the URL handed to [triggerPixel], if the pixel is fired. *)
Definition onBidWon (bid : JsVal) : Result (option JsVal) :=
  nurl <- getProp bid "nurl";
  if negb (truthy nurl) then Ok None
  else
    let wonBid := VObj (map (fun k => (k, getOpt bid k)) wonFields) in
    let qs := formatQS wonBid in
    bare <- lacksQuestionMark nurl;
    let url :=
      js_add (js_add nurl (VStr (if bare then "?" else "&"))) (VStr qs) in
    Ok (Some url).

(** a parameter default: it applies when the argument is [undefined] *)
Definition or_default (v def : JsVal) : JsVal :=
  match v with
  | VUndef => def
  | _ => v
  end.

(** [v.join(sep)]: only arrays have the method *)
Definition method_join (v : JsVal) (sep : string) : Result string :=
  match v with
  | VArr l => Ok (array_join sep l)
  | _ => Throw TypeError
  end.

(** the campaign ids of the responses: [filter], [map], [filter(uniques)] *)
Definition campaignIds (responses : JsVal) : Result (list JsVal) :=
  match responses with
  | VArr l =>
      let withCid :=
        List.filter
          (fun resp => truthy (deepAccess resp ["body"; "cid"] VUndef)) l in
      let cids := map (fun resp => getOpt (getOpt resp "body") "cid") withCid in
      Ok (array_filter uniques cids)
  | _ => Throw TypeError
  end.

(** one [syncs.push] under its guard *)
Definition pushSync (syncs : list JsVal) (enabled options : JsVal)
    (urlKey type params : string) : Result (list JsVal) :=
  if truthy enabled then
    syncUrl <- getProp options urlKey;
    if truthy syncUrl then
      Ok (syncs ++ [VObj [("type", VStr type);
                          ("url",
                           VStr (ToString syncUrl +:+ "/" +:+ params))]])%list
    else Ok syncs
  else Ok syncs.

(** [createUserSyncGetter(options)] is the function [getUserSyncs] of the
    remaining arguments. *)
Definition createUserSyncGetter (options : JsVal)
    (syncOptions responses gdprConsent uspConsent gppConsent : JsVal)
  : Result (list JsVal) :=
  let options :=
    or_default options
      (VObj [("iframeSyncUrl", VStr ""); ("imageSyncUrl", VStr "")]) in
  let gdprConsent := or_default gdprConsent (VObj []) in
  let uspConsent := or_default uspConsent (VStr "") in
  let gppConsent := or_default gppConsent (VObj []) in
  let syncs := [] in
  iframeEnabled <- getProp syncOptions "iframeEnabled";
  pixelEnabled <- getProp syncOptions "pixelEnabled";
  gdprApplies <- getProp gdprConsent "gdprApplies";
  consentString <- getProp gdprConsent "consentString";
  let consentString := or_default consentString (VStr "") in
  gppString <- getProp gppConsent "gppString";
  applicableSections <- getProp gppConsent "applicableSections";
  cidArr <- campaignIds responses;
  let params :=
    "?cid=" +:+ encodeURIComponent (array_join "," cidArr)
    +:+ "&gdpr=" +:+ (if truthy gdprApplies then "1" else "0")
    +:+ "&gdpr_consent="
    +:+ encodeURIComponent (ToString (js_or consentString (VStr "")))
    +:+ "&us_privacy="
    +:+ encodeURIComponent (ToString (js_or uspConsent (VStr ""))) in
  params <-
    (if truthy gppString && truthy (getOpt applicableSections "length") then
       let params :=
         params +:+ "&gpp=" +:+ encodeURIComponent (ToString gppString) in
       sections <- method_join applicableSections ",";
       Ok (params +:+ "&gpp_sid=" +:+ encodeURIComponent sections)
     else Ok params);
  syncs <- pushSync syncs iframeEnabled options "iframeSyncUrl" "iframe" params;
  syncs <- pushSync syncs pixelEnabled options "imageSyncUrl" "image" params;
  Ok syncs.

(** Modelled from the spec: [_each] of the framework's [src/utils.js], which
    is not among the sources.  The spec has the payload carry the user-id
    bundle and the pass-through extension fields: the callback is applied to
    every entry of an object, and to every element of an array with its
    index, in order; nothing is visited when there is no object. *)
Fixpoint each_entry (f : list (string * JsVal) -> JsVal -> string ->
                         Result (list (string * JsVal)))
    (entries : list (string * JsVal)) (acc : list (string * JsVal))
  : Result (list (string * JsVal)) :=
  match entries with
  | [] => Ok acc
  | (k, v) :: rest => acc <- f acc v k; each_entry f rest acc
  end.

Definition appendUserIdsToRequestPayload (payloadRef : list (string * JsVal))
    (userIds : JsVal) : Result (list (string * JsVal)) :=
  each_entry
    (fun payloadRef userId idSystemProviderName =>
       let key := "uid." +:+ idSystemProviderName in
       if String.eqb idSystemProviderName "lipb" then
         lipbid <- getProp userId "lipbid"; Ok (obj_set key lipbid payloadRef)
       else if String.eqb idSystemProviderName "id5id" then
         uid <- getProp userId "uid"; Ok (obj_set key uid payloadRef)
       else Ok (obj_set key userId payloadRef))
    (own_entries userIds) payloadRef.

Definition getVidazooSessionId : M JsVal :=
  item <~ getStorageItem SESSION_ID_KEY;
  ret (js_or item (VStr "")).

Definition getTopWindowQueryParams : JsVal :=
  match topWindowSearch with
  | Ok search => search
  | Throw _ => VStr ""
  end.

(** The floor block of [buildRequestData]: [bidFloor] comes in as it was
    read off [params] and goes out as the payload gets it. *)
Definition floorBlock (bid bidFloor : JsVal) : Result JsVal :=
  getFloor <- getProp bid "getFloor";
  if isFn getFloor then
    floorInfo <- call getFloor bid [floorQuery "USD"];
    currency <- getProp floorInfo "currency";
    if strict_eq currency (VStr "USD") then getProp floorInfo "floor"
    else Ok bidFloor
  else Ok bidFloor.

(** the consent fields set on the payload after it is built *)
Definition consentFields (bidderRequest : JsVal)
    (data : list (string * JsVal)) : list (string * JsVal) :=
  let gdprConsent := getOpt bidderRequest "gdprConsent" in
  let data :=
    if truthy gdprConsent then
      let data :=
        if truthy (getOpt gdprConsent "consentString")
        then obj_set "gdprConsent" (getOpt gdprConsent "consentString") data
        else data in
      if negb (strict_eq (getOpt gdprConsent "gdprApplies") VUndef)
      then obj_set "gdpr"
             (VNum (Num (if truthy (getOpt gdprConsent "gdprApplies")
                         then 1 else 0))) data
      else data
    else data in
  let data :=
    if truthy (getOpt bidderRequest "uspConsent")
    then obj_set "usPrivacy" (getOpt bidderRequest "uspConsent") data
    else data in
  let gppConsent := getOpt bidderRequest "gppConsent" in
  let regs := getOpt (getOpt bidderRequest "ortb2") "regs" in
  if truthy gppConsent then
    obj_set "gppSid" (getOpt gppConsent "applicableSections")
      (obj_set "gppString" (getOpt gppConsent "gppString") data)
  else if truthy (getOpt regs "gpp") then
    obj_set "gppSid" (getOpt regs "gpp_sid")
      (obj_set "gppString" (getOpt regs "gpp") data)
  else data.

Definition buildRequestData (bid : JsVal) (topWindowUrl : string)
    (sizes bidderRequest bidderTimeout webSessionId bidderVersion : JsVal)
    (bidderCode : string) (getUniqueRequestData : JsVal) : M JsVal :=
  params <~ lift (getProp bid "params");
  let own k := getOpt bid k in
  ext <~ lift (getProp params "ext");
  let bidFloor := getOpt params "bidFloor" in
  let hashUrl := hashCode topWindowUrl "_" in
  uniqueRequestData <~
    lift (if isFn getUniqueRequestData
          then call getUniqueRequestData VUndef [VStr hashUrl]
          else Ok (VObj []));
  uniqueDealId <~ getUniqueDealId hashUrl UNIQUE_DEAL_ID_EXPIRY;
  pId <~ lift (extractPID params);
  let isStorageAllowed := storageAllowed bidderCode in
  let gpid :=
    js_or (deepAccess bid ["ortb2Imp"; "ext"; "gpid"] VUndef)
      (deepAccess bid ["ortb2Imp"; "ext"; "data"; "pbadslot"] (VStr "")) in
  let cat := deepAccess bidderRequest ["ortb2"; "site"; "cat"] (VArr []) in
  let pagecat :=
    deepAccess bidderRequest ["ortb2"; "site"; "pagecat"] (VArr []) in
  let contentData :=
    deepAccess bidderRequest ["ortb2"; "site"; "content"; "data"] (VArr []) in
  let userData :=
    deepAccess bidderRequest ["ortb2"; "user"; "data"] (VArr []) in
  bidFloor <~ lift (floorBlock bid bidFloor);
  let url := VStr (encodeURIComponent topWindowUrl) in
  let uqs := getTopWindowQueryParams in
  cb <~ Date_now;
  refererInfo <~ lift (getProp bidderRequest "refererInfo");
  referrer <~ lift (getProp refererInfo "ref");
  let data :=
    spread_into
      [("url", url); ("uqs", uqs); ("cb", VNum (Num cb));
       ("bidFloor", bidFloor); ("bidId", own "bidId");
       ("referrer", referrer); ("adUnitCode", own "adUnitCode");
       ("publisherId", pId); ("sizes", sizes);
       ("uniqueDealId", uniqueDealId); ("bidderVersion", bidderVersion);
       ("prebidVersion", VStr prebid_version);
       ("res", VStr (ToString screen_width +:+ "x" +:+ ToString screen_height));
       ("schain", own "schain"); ("mediaTypes", own "mediaTypes");
       ("isStorageAllowed", isStorageAllowed); ("gpid", gpid); ("cat", cat);
       ("contentData", contentData); ("userData", userData);
       ("pagecat", pagecat);
       ("transactionId", getOpt (getOpt (own "ortb2Imp") "ext") "tid");
       ("bidderRequestId", own "bidderRequestId");
       ("bidRequestsCount", own "bidRequestsCount");
       ("bidderRequestsCount", own "bidderRequestsCount");
       ("bidderWinsCount", own "bidderWinsCount");
       ("bidderTimeout", bidderTimeout); ("webSessionId", webSessionId)]
      uniqueRequestData in
  data <~ lift (appendUserIdsToRequestPayload data (own "userId"));
  let sua := deepAccess bidderRequest ["ortb2"; "device"; "sua"] VUndef in
  let data := if truthy sua then obj_set "sua" sua data else data in
  let data := consentFields bidderRequest data in
  let fledge := deepAccess bidderRequest ["ortb2Imp"; "ext"; "ae"] VUndef in
  let data :=
    if truthy (getOpt (getOpt bidderRequest "paapi") "enabled")
       && truthy fledge
    then obj_set "fledge" fledge data else data in
  data <~ lift (each_entry
                  (fun data value key =>
                     Ok (obj_set ("ext." +:+ key) value data))
                  (own_entries ext) data);
  ret (VObj data).
End Utils.
End Vidazoo.

(** ** A sample host

    Used to run the adapters on concrete inputs.  Its strings are made of
    characters [encodeURIComponent] leaves alone, [Number] reads decimal
    integers, the text of a stored document is never looked at, and two floor
    providers are installed: ["floorUSD"] answers in US dollars and
    ["floorEUR"] in euros. *)
Module Sample.
Definition stringToNumber (s : string) : JsNum :=
  match NilZero.int_of_string s with
  | Some d => Num (Z.of_int d)
  | None => NaN
  end.

Definition callProvider (f : FnId) (this : JsVal) (args : list JsVal)
  : Result JsVal :=
  if String.eqb f "floorUSD" then
    Ok (VObj [("currency", VStr "USD"); ("floor", VNum (Num 2))])
  else if String.eqb f "floorEUR" then
    Ok (VObj [("currency", VStr "EUR"); ("floor", VNum (Num 3))])
  else Ok VUndef.

Definition runtime : Runtime :=
  {| StringToNumber := stringToNumber;
     encodeURIComponent := fun s => s;
     JSON_text := fun _ => "null";
     callFn := callProvider;
     fnSource := fun _ => "function () { [native code] }" |}.

Definition prebid : Prebid :=
  {| convertOrtbRequestToProprietaryNative := fun bids => bids;
     prebid_version := "9.0.0";
     storageAllowed := fun _ => VBool true |}.

(** local storage with the given cells, whose reads and writes succeed *)
Definition storageOf (cs : gmap string Cell) : Storage :=
  {| cells := cs;
     readThrows := fun _ => false;
     writeThrows := fun _ => false |}.

(** a clock that starts at 1000 and advances by one at every reading *)
Definition world (st : Storage) : World :=
  {| storage := st; clock := fun n => 1000 + Z.of_nat n; ticks := 0 |}.

Definition bannerResponse : JsVal :=
  VObj [("requestId", VStr "1"); ("cpm", VNum (Num 1)); ("ttl", VNum (Num 60));
        ("creativeId", VStr "c"); ("netRevenue", VBool true);
        ("currency", VStr "EUR"); ("mediaType", VStr "banner");
        ("width", VNum (Num 300)); ("height", VNum (Num 250));
        ("ad", VStr "<div/>")].

(** a record that declares itself native and carries no [native] object *)
Definition nativeWithoutObject : JsVal :=
  VObj [("requestId", VStr "2"); ("cpm", VNum (Num 1)); ("ttl", VNum (Num 60));
        ("creativeId", VStr "n"); ("netRevenue", VBool true);
        ("currency", VStr "EUR"); ("mediaType", VStr "native")].

Definition orbidderParams (bidfloor : JsVal) : JsVal :=
  VObj [("accountId", VStr "a"); ("placementId", VStr "p");
        ("bidfloor", bidfloor)].

(** an orbidder bid with a static floor of 1 and the given extra
    properties *)
Definition orbidderBid (sizes : JsVal) (more : list (string * JsVal))
  : JsVal :=
  VObj ([("sizes", sizes); ("bidId", VStr "1");
         ("params", orbidderParams (VNum (Num 1)))] ++ more)%list.
End Sample.

(** ** The vocabulary of the properties

    What the statements below speak of: readings of values, the claims'
    own wording of a computation where one is compared with the code, the
    world before and after a call, and the inputs the sample host is run
    on. *)
Section Vocabulary.
Context `{Runtime} `{Prebid} `{Constants} `{Browser}.

(** Reading a property raises exactly on [undefined] and [null]. *)
Definition nullish (v : JsVal) : bool :=
  match v with
  | VUndef | VNull => true
  | _ => false
  end.

(** A string other than the empty one. *)
Definition nonEmptyString (v : JsVal) : bool :=
  match v with
  | VStr s => negb (String.eqb s "")
  | _ => false
  end.

(** what [typeof v === 'undefined' || typeof v === 'object'] accepts *)
Definition undefinedOrObject (v : JsVal) : bool :=
  match v with
  | VUndef | VNull | VArr _ | VObj _ => true
  | _ => false
  end.

(** The claim's reading of the hash: wrap-around to a signed 32-bit integer,
    and the rolling hash [h := h*31 + code] wrapped at every step. *)
Definition wrap_int32 (x : Z) : Z :=
  let r := x mod 2 ^ 32 in
  if r <? 2 ^ 31 then r else r - 2 ^ 32.

Definition rolling_hash (codes : list Z) : Z :=
  fold_left (fun h c => wrap_int32 (h * 31 + c)) codes 0.

Definition is_digit (c : Ascii.ascii) : bool :=
  let n := Ascii.nat_of_ascii c in (48 <=? n)%nat && (n <=? 57)%nat.

(** the first character of a property key is not a digit *)
Definition named_key (k : string) : bool :=
  match k with
  | EmptyString => true
  | String c _ => negb (is_digit c)
  end.

(** validating the record yields a verdict *)
Definition validates (r : JsVal) : bool :=
  match Orbidder.isBidResponseValid r with
  | Ok _ => true
  | Throw _ => false
  end.

(** the record passes validation *)
Definition passes (r : JsVal) : bool :=
  match Orbidder.isBidResponseValid r with
  | Ok true => true
  | _ => false
  end.

(** The record as [interpretResponse] hands it on: when its list of
    advertiser domains is an array, [meta] is a new object that holds it. *)
Definition withMeta (r : JsVal) : JsVal :=
  match r with
  | VObj ps =>
      if isArray (getOpt r "advertiserDomains") then
        VObj (obj_set "meta"
                (VObj [("advertiserDomains", getOpt r "advertiserDomains")])
                ps)
      else r
  | _ => r
  end.

(** the banner record with a list of advertiser domains and a [meta] object
    of its own *)
Definition bannerWithMeta : JsVal :=
  match Sample.bannerResponse with
  | VObj ps =>
      VObj (ps ++ [("advertiserDomains", VArr [VStr "example.com"]);
                   ("meta", VObj [("networkId", VNum (Num 7))])])%list
  | v => v
  end.

(** an Orbidder bid with a static floor of 1 whose floor provider answers in
    US dollars, and one whose provider answers in euros *)
Definition bidWithDollarFloor : JsVal :=
  Sample.orbidderBid (VArr [VArr [VNum (Num 300); VNum (Num 250)]])
    [("getFloor", VFun "floorUSD")].

Definition bidWithEuroFloor : JsVal :=
  Sample.orbidderBid (VArr [VArr [VNum (Num 300); VNum (Num 250)]])
    [("getFloor", VFun "floorEUR")].

(** The bid request once [mediaTypes.video] is deleted from it. *)
Definition withoutVideo (bid : JsVal) : JsVal :=
  match bid with
  | VObj ps =>
      if truthy (getOpt (getOpt bid "mediaTypes") "video")
      then VObj (obj_set "mediaTypes"
                   (deleteProp (getOpt bid "mediaTypes") "video") ps)
      else bid
  | _ => bid
  end.

(** What [buildRequests] has done to a bid request [bid] when it leaves it
    as [bid']: the floor resolved is attached to the parameters, a truthy
    [mediaTypes.video] is gone, and nothing else has changed. *)
Definition leftAs (bid bid' : JsVal) : Prop :=
  Orbidder.getBidFloor (withoutVideo bid)
  = Ok (getOpt (getOpt bid' "params") "bidfloor")
  /\ (forall k, k <> "bidfloor" ->
        getOpt (getOpt bid' "params") k = getOpt (getOpt bid "params") k)
  /\ getOpt (getOpt bid' "mediaTypes") "video"
     = (if truthy (getOpt (getOpt bid "mediaTypes") "video") then VUndef
        else getOpt (getOpt bid "mediaTypes") "video")
  /\ (forall k, k <> "video" ->
        getOpt (getOpt bid' "mediaTypes") k
        = getOpt (getOpt bid "mediaTypes") k)
  /\ (forall k, k <> "params" -> k <> "mediaTypes" ->
        getOpt bid' k = getOpt bid k).

(** an Orbidder bid that also asks for video *)
Definition bidWithVideo : JsVal :=
  Sample.orbidderBid (VArr [VArr [VNum (Num 300); VNum (Num 250)]])
    [("mediaTypes", VObj [("banner", VObj []); ("video", VObj [])])].

(** The reading [Date.now()] is about to give, the world after a reading, and
    the world after a cell is written. *)
Definition now (w : World) : Z := clock w (ticks w).

Definition tick (w : World) : World :=
  {| storage := storage w; clock := clock w; ticks := S (ticks w) |}.

Definition store (key : string) (c : Cell) (w : World) : World :=
  {| storage := {| cells := <[key := c]> (cells (storage w));
                   readThrows := readThrows (storage w);
                   writeThrows := writeThrows (storage w) |};
     clock := clock w; ticks := ticks w |}.

(** the document [{value, created}] *)
Definition storedPair (value created : JsVal) : Cell :=
  JSON_stringify (VObj [("value", value); ("created", created)]).

(** a counter and its creation time, as [getNextDealId] stores them *)
Definition counterCell (value created : Z) : Cell :=
  Doc (VObj [("value", VNum (Num value)); ("created", VNum (Num created))]).

(** the world after [n] readings of the clock *)
Definition advance (n : nat) (w : World) : World :=
  {| storage := storage w; clock := clock w; ticks := (ticks w + n)%nat |}.

(** [n] calls of [getNextDealId] in a row; the clock decides how much time
    passes between them. *)
Fixpoint dealIds (n : nat) (key : string) (expiry : Z) (w : World)
  : list (Result JsVal) * World :=
  match n with
  | O => ([], w)
  | S n' =>
      let (r, w1) := Vidazoo.getNextDealId key expiry w in
      let (rs, w2) := dealIds n' key expiry w1 in
      (r :: rs, w2)
  end.

(** the same world with storage whose writes succeed *)
Definition writable (w : World) : World :=
  {| storage := {| cells := cells (storage w);
                   readThrows := readThrows (storage w);
                   writeThrows := fun _ => false |};
     clock := clock w; ticks := ticks w |}.

(** storage that can be neither read nor written *)
Definition brokenStorage : Storage :=
  {| cells := ∅; readThrows := fun _ => true; writeThrows := fun _ => true |}.

(** the stored counter, if it is live at the reading [t] *)
Definition liveCounter (data : JsVal) (t expiry : Z) : bool :=
  num_lt (js_sub (VNum (Num t)) (getOpt data "created")) expiry.

(** the stored identifier has to be made anew at the reading [t] *)
Definition staleId (data : JsVal) (t expiry : Z) : bool :=
  negb (truthy data) || negb (truthy (getOpt data "value"))
  || num_gt (js_sub (VNum (Num t)) (getOpt data "created")) expiry.

(** Values [===] compares by content: booleans, numbers and strings. *)
Definition primitive (v : JsVal) : bool :=
  match v with
  | VArr _ | VObj _ | VFun _ => false
  | _ => true
  end.

(** a campaign id that counts: a truthy primitive *)
Definition countedId (v : JsVal) : bool := truthy v && primitive v.

(** a list of applicable sections, or none *)
Definition sectionList (v : JsVal) : bool :=
  match v with
  | VUndef | VNull | VArr _ => true
  | _ => false
  end.

(** the campaign id a response carries *)
Definition cidOf (resp : JsVal) : JsVal := getOpt (getOpt resp "body") "cid".

(** The query string every sync URL carries: the campaign ids, the GDPR flag
    and consent string, the US-privacy string and, when there is a GPP
    string and a section applies, the GPP string and the sections. *)
Definition syncQuery (cidArr : list JsVal)
    (gdprApplies consentString uspConsent gppString applicableSections
       : JsVal) : string :=
  "?cid=" +:+ encodeURIComponent (array_join "," cidArr)
  +:+ "&gdpr=" +:+ (if truthy gdprApplies then "1" else "0")
  +:+ "&gdpr_consent="
  +:+ encodeURIComponent
        (if truthy consentString then ToString consentString else "")
  +:+ "&us_privacy="
  +:+ encodeURIComponent
        (if truthy uspConsent then ToString uspConsent else "")
  +:+ match applicableSections with
      | VArr (section :: others) =>
          if truthy gppString then
            "&gpp=" +:+ encodeURIComponent (ToString gppString)
            +:+ "&gpp_sid="
            +:+ encodeURIComponent (array_join "," (section :: others))
          else ""
      | _ => ""
      end.

(** the sync descriptor of one type, if that type is enabled and has a URL *)
Definition syncOf (type : string) (enabled syncUrl : JsVal) (query : string)
  : list JsVal :=
  if truthy enabled && truthy syncUrl then
    [VObj [("type", VStr type);
           ("url", VStr (ToString syncUrl +:+ "/" +:+ query))]]
  else [].

(** empty storage, read at time 1000 *)
Definition emptyWorld : World := Sample.world (Sample.storageOf ∅).

(** the sync options, consent objects and responses of the spec's example:
    only pixels enabled, one pixel URL configured, no applicable section *)
Definition pixelOnly : list (string * JsVal) :=
  [("iframeEnabled", VBool false); ("pixelEnabled", VBool true)].

Definition pixelUrl : list (string * JsVal) :=
  [("iframeSyncUrl", VStr ""); ("imageSyncUrl", VStr "https://sync.example")].

Definition gdprGiven : list (string * JsVal) :=
  [("gdprApplies", VBool true); ("consentString", VStr "abc")].

Definition gppWithoutSections : list (string * JsVal) :=
  [("gppString", VStr "gpp"); ("applicableSections", VArr [])].

Definition responsesWithCids : list JsVal :=
  [VObj [("body", VObj [("cid", VStr "c1")])];
   VObj [("body", VObj [("cid", VStr "c2")])];
   VObj [("body", VObj [("cid", VStr "c1")])];
   VObj [("body", VObj [])]].

End Vocabulary.

(** A host like the sample host that renders the document of a number as
    its decimal text; the text of other documents is not looked at. *)
Definition numberTexts : Runtime :=
  {| StringToNumber := Sample.stringToNumber;
     encodeURIComponent := fun s => s;
     JSON_text := fun v => match v with
                           | VNum (Num z) => decimal z
                           | _ => "null"
                           end;
     callFn := Sample.callProvider;
     fnSource := fun _ => "function () { [native code] }" |}.

(** Constants and a page to run [buildRequestData] with, a bid request with
    an extension field, and a bidder request that carries a GPP consent next
    to the GPP string of its first-party data. *)
Definition sampleConstants : Constants :=
  {| DEAL_ID_EXPIRY := 900000;
     SESSION_ID_KEY := "webSessionId";
     UNIQUE_DEAL_ID_EXPIRY := 3600000 |}.

Definition samplePage : Browser :=
  {| topWindowSearch := Ok (VStr "");
     screen_width := VNum (Num 800);
     screen_height := VNum (Num 600) |}.

Definition vidazooBid : JsVal :=
  VObj [("bidId", VStr "1");
        ("params", VObj [("cId", VStr "c"); ("pId", VStr "p");
                         ("bidFloor", VNum (Num 1));
                         ("ext", VObj [("param1", VStr "x")])])].

Definition vidazooBidderRequest : JsVal :=
  VObj [("refererInfo", VObj [("ref", VStr "https://ref.example")]);
        ("gppConsent",
         VObj [("gppString", VStr "consent");
               ("applicableSections", VArr [VNum (Num 7)])]);
        ("ortb2", VObj [("regs", VObj [("gpp", VStr "regs");
                                        ("gpp_sid", VArr [VNum (Num 2)])])])].

(** A rendering of query strings to run [onBidWon] with: the properties of
    the object as [name=value], joined by [&]. *)
Definition sampleQueryStrings : QueryStrings :=
  {| formatQS := fun v =>
       join_strings "&"
         (map (fun kx => kx.1 +:+ "=" +:+ ToString (H := Sample.runtime) kx.2)
            (own_entries v)) |}.

(** ** The vocabulary of the further properties *)
Section MoreVocabulary.
Context `{Runtime} `{Prebid} `{Constants} `{Browser} `{QueryStrings}.

(** the names of the properties of an object, in order *)
Definition keysOf (ps : list (string * JsVal)) : list string := map fst ps.

(** the record has no property named [hasOwnProperty] of its own *)
Definition unshadowed (r : JsVal) : bool :=
  match r with
  | VObj ps => negb (bool_decide (is_Some (obj_get "hasOwnProperty" ps)))
  | _ => true
  end.

(** the request [buildRequests] describes for one bid request *)
Definition httpRequest (hostname : JsVal) (data : list (string * JsVal))
  : JsVal :=
  VObj [("url", VStr (ToString hostname +:+ "/bid"));
        ("method", VStr "POST");
        ("options", VObj [("withCredentials", VBool true)]);
        ("data", VObj data)].

(** the value is not an object, or its property list names no key twice (as
    the property list of an object does) *)
Definition properObject (v : JsVal) : Prop :=
  match v with
  | VObj ps => NoDup (keysOf ps)
  | _ => True
  end.

(** the consent object of the request, when the bidder request has one: the
    consent is required exactly when [gdprApplies] is the boolean [true] *)
Definition consentOf (bidderRequest : JsVal) : option JsVal :=
  let gdprConsent := getOpt bidderRequest "gdprConsent" in
  if truthy gdprConsent then
    Some (VObj [("consentString", getOpt gdprConsent "consentString");
                ("consentRequired",
                 VBool (strict_eq (getOpt gdprConsent "gdprApplies")
                          (VBool true)))])
  else None.

(** the referring page [buildRequests] reports *)
Definition refererOf (bidderRequest : JsVal) : JsVal :=
  let page := getOpt (getOpt bidderRequest "refererInfo") "page" in
  if truthy page then page else VStr "".
(** the request [buildRequests] builds for a bid request, [bid] being the
    bid request as the call leaves it: a POST with credentials to the bid
    endpoint, whose data carry the properties of the bid request over the
    defaults [v] and [pageUrl] *)
Definition carries (hostname bidderRequest bid request : JsVal) : Prop :=
  getOpt request "url" = VStr (ToString hostname +:+ "/bid")
  /\ getOpt request "method" = VStr "POST"
  /\ getOpt request "options" = VObj [("withCredentials", VBool true)]
  /\ (forall k,
        k <> "gdprConsent" -> ownProperty bid k = true ->
        getOpt (getOpt request "data") k = getOpt bid k)
  /\ (ownProperty bid "v" = false ->
      getOpt (getOpt request "data") "v" = VStr ("v" +:+ prebid_version))
  /\ (ownProperty bid "pageUrl" = false ->
      getOpt (getOpt request "data") "pageUrl" = refererOf bidderRequest).

(** the consent the request reports: the consent object of the bidder
    request when it has one, and otherwise whatever the bid request carries
    under that name *)
Definition reportsConsent (bidderRequest bid request : JsVal) : Prop :=
  getOpt (getOpt request "data") "gdprConsent"
  = match consentOf bidderRequest with
    | Some consent => consent
    | None => getOpt bid "gdprConsent"
    end.


(** [w'] differs from [w] in the cell [key] at most, and in how far the clock
    has been read; a write to [key] that raises leaves every cell as it was *)
Definition sameBut (key : string) (w w' : World) : Prop :=
  (forall k, k <> key -> cells (storage w') !! k = cells (storage w) !! k)
  /\ (writeThrows (storage w) key = true ->
      cells (storage w') = cells (storage w))
  /\ readThrows (storage w') = readThrows (storage w)
  /\ writeThrows (storage w') = writeThrows (storage w)
  /\ clock w' = clock w
  /\ (ticks w <= ticks w')%nat.

(** an identifier and its creation time, as [getUniqueDealId] stores them *)
Definition idCell (id : string) (created : Z) : Cell :=
  Doc (VObj [("value", VStr id); ("created", VNum (Num created))]).

(** a counter whose value is text *)
Definition textCounter (value : string) (created : Z) : Cell :=
  Doc (VObj [("value", VStr value); ("created", VNum (Num created))]).

(** every character of the text is a decimal digit *)
Definition all_digits (s : string) : bool :=
  forallb is_digit (String.list_ascii_of_string s).

(** [params.a || params.b || ...] read as a choice: the value under the first
    spelling whose value is truthy and, when there is none, the value under
    the last spelling *)
Definition firstTruthy (params : JsVal) (spellings : list string) : JsVal :=
  match find (fun k => truthy (getOpt params k)) spellings with
  | Some k => getOpt params k
  | None =>
      match spellings with
      | [] => VUndef
      | _ => getOpt params (List.last spellings "")
      end
  end.

(** what [appendUserIdsToRequestPayload] stores for an id system *)
Definition userIdOf (idSystemProviderName : string) (userId : JsVal) : JsVal :=
  if String.eqb idSystemProviderName "lipb" then getOpt userId "lipbid"
  else if String.eqb idSystemProviderName "id5id" then getOpt userId "uid"
  else userId.

(** The object literal of [buildRequestData], given the floor, the unique
    deal id and the reading of the clock that go into it. *)
Definition corePayload (bid : JsVal) (topWindowUrl : string)
    (sizes bidderRequest bidderTimeout webSessionId bidderVersion : JsVal)
    (bidderCode : string) (bidFloor uniqueDealId : JsVal) (cb : Z)
  : list (string * JsVal) :=
  let own k := getOpt bid k in
  [("url", VStr (encodeURIComponent topWindowUrl));
   ("uqs", Vidazoo.getTopWindowQueryParams); ("cb", VNum (Num cb));
   ("bidFloor", bidFloor); ("bidId", own "bidId");
   ("referrer", getOpt (getOpt bidderRequest "refererInfo") "ref");
   ("adUnitCode", own "adUnitCode");
   ("publisherId", firstTruthy (own "params") Vidazoo.pidSpellings);
   ("sizes", sizes); ("uniqueDealId", uniqueDealId);
   ("bidderVersion", bidderVersion);
   ("prebidVersion", VStr prebid_version);
   ("res", VStr (ToString screen_width +:+ "x" +:+ ToString screen_height));
   ("schain", own "schain"); ("mediaTypes", own "mediaTypes");
   ("isStorageAllowed", storageAllowed bidderCode);
   ("gpid",
    js_or (deepAccess bid ["ortb2Imp"; "ext"; "gpid"] VUndef)
      (deepAccess bid ["ortb2Imp"; "ext"; "data"; "pbadslot"] (VStr "")));
   ("cat", deepAccess bidderRequest ["ortb2"; "site"; "cat"] (VArr []));
   ("contentData",
    deepAccess bidderRequest ["ortb2"; "site"; "content"; "data"] (VArr []));
   ("userData", deepAccess bidderRequest ["ortb2"; "user"; "data"] (VArr []));
   ("pagecat",
    deepAccess bidderRequest ["ortb2"; "site"; "pagecat"] (VArr []));
   ("transactionId", getOpt (getOpt (own "ortb2Imp") "ext") "tid");
   ("bidderRequestId", own "bidderRequestId");
   ("bidRequestsCount", own "bidRequestsCount");
   ("bidderRequestsCount", own "bidderRequestsCount");
   ("bidderWinsCount", own "bidderWinsCount");
   ("bidderTimeout", bidderTimeout); ("webSessionId", webSessionId)].

(** What [buildRequestData] does to the payload once the user ids are in:
    the user agent hints, the consent fields, the fledge flag and the
    extension fields of the parameters. *)
Definition laterFields (bidderRequest ext : JsVal)
    (data : list (string * JsVal)) : list (string * JsVal) :=
  let sua := deepAccess bidderRequest ["ortb2"; "device"; "sua"] VUndef in
  let data := if truthy sua then obj_set "sua" sua data else data in
  let data := Vidazoo.consentFields bidderRequest data in
  let fledge := deepAccess bidderRequest ["ortb2Imp"; "ext"; "ae"] VUndef in
  let data :=
    if truthy (getOpt (getOpt bidderRequest "paapi") "enabled")
       && truthy fledge
    then obj_set "fledge" fledge data else data in
  fold_left (fun data kv => obj_set ("ext." +:+ kv.1) kv.2 data)
    (own_entries ext) data.

(** the entries of the bundle for [lipb] and [id5id] are objects to read *)
Definition userIdsOk (userIds : JsVal) : Prop :=
  forall name userId,
    In (name, userId) (own_entries userIds) ->
    name = "lipb" \/ name = "id5id" -> nullish userId = false.

(** a property [buildRequestData] sets after the object literal, or may set:
    one whose name starts with [uid.] or [ext.], and the fields of the
    consents, the user agent hints and fledge *)
Definition setLater (k : string) : bool :=
  String.prefix "uid." k || String.prefix "ext." k
  || bool_decide (k ∈ ["sua"; "gdprConsent"; "gdpr"; "usPrivacy";
                       "gppString"; "gppSid"; "fledge"]).

(** The consent fields of the payload of [buildRequestData]: the consent
    string when there is one, the GDPR flag when [gdprApplies] is not
    [undefined], the US privacy string, and the GPP string and sections of
    the GPP consent or, when there is no GPP consent, of the first-party
    data; a field not set is absent. *)
Definition carriesConsents (bidderRequest data : JsVal) : Prop :=
  let gdprConsent := getOpt bidderRequest "gdprConsent" in
  let gppConsent := getOpt bidderRequest "gppConsent" in
  let regs := getOpt (getOpt bidderRequest "ortb2") "regs" in
  getOpt data "gdprConsent"
  = (if truthy gdprConsent && truthy (getOpt gdprConsent "consentString")
     then getOpt gdprConsent "consentString" else VUndef)
  /\ getOpt data "gdpr"
     = (if truthy gdprConsent
           && negb (strict_eq (getOpt gdprConsent "gdprApplies") VUndef)
        then VNum (Num (if truthy (getOpt gdprConsent "gdprApplies")
                        then 1 else 0))
        else VUndef)
  /\ getOpt data "usPrivacy"
     = (if truthy (getOpt bidderRequest "uspConsent")
        then getOpt bidderRequest "uspConsent" else VUndef)
  /\ getOpt data "gppString"
     = (if truthy gppConsent then getOpt gppConsent "gppString"
        else if truthy (getOpt regs "gpp") then getOpt regs "gpp"
        else VUndef)
  /\ getOpt data "gppSid"
     = (if truthy gppConsent then getOpt gppConsent "applicableSections"
        else if truthy (getOpt regs "gpp") then getOpt regs "gpp_sid"
        else VUndef).

End MoreVocabulary.

(** ** Properties *)

(** *** Property lists *)

Lemma obj_get_set_eq k v ps : obj_get k (obj_set k v ps) = Some v.
Proof.
  induction ps as [|[k' v'] ps IH]; simpl.
  - by rewrite String.eqb_refl.
  - destruct (String.eqb k k') eqn:E; simpl.
    + by rewrite String.eqb_refl.
    + by rewrite E.
Qed.

Lemma obj_get_set_ne k k' v ps :
  k <> k' -> obj_get k' (obj_set k v ps) = obj_get k' ps.
Proof.
  intros Hne. induction ps as [|[k0 v0] ps IH]; simpl.
  - apply String.eqb_neq in Hne. rewrite String.eqb_sym in Hne. by rewrite Hne.
  - destruct (String.eqb k k0) eqn:E; simpl.
    + apply String.eqb_eq in E. subst k0.
      assert (String.eqb k' k = false) as ->; [|done].
      apply String.eqb_neq. congruence.
    + by rewrite IH.
Qed.

Lemma obj_get_del_eq k ps : obj_get k (obj_del k ps) = None.
Proof.
  induction ps as [|[k' v'] ps IH]; simpl; [done|].
  destruct (String.eqb k k') eqn:E; simpl; [done|]. by rewrite E.
Qed.

Lemma obj_get_del_ne k k' ps :
  k <> k' -> obj_get k' (obj_del k ps) = obj_get k' ps.
Proof.
  intros Hne. induction ps as [|[k0 v0] ps IH]; simpl; [done|].
  destruct (String.eqb k k0) eqn:E; simpl.
  - apply String.eqb_eq in E. subst k0.
    assert (String.eqb k' k = false) as ->; [|done].
    apply String.eqb_neq. congruence.
  - by rewrite IH.
Qed.

Lemma getProp_nullish v k : nullish v = true -> getProp v k = Throw TypeError.
Proof. by destruct v. Qed.

Lemma getProp_getOpt v k : nullish v = false -> getProp v k = Ok (getOpt v k).
Proof.
  unfold getOpt. destruct v; simpl; try done;
    by destruct (String.eqb k "length").
Qed.

Lemma getOpt_nullish v k : nullish v = true -> getOpt v k = VUndef.
Proof. by destruct v. Qed.

Lemma truthy_not_nullish v : truthy v = true -> nullish v = false.
Proof. by destruct v. Qed.

Lemma truthy_js_or a b : truthy (js_or a b) = truthy a || truthy b.
Proof. unfold js_or. destruct (truthy a) eqn:E; simpl; [by rewrite E|done]. Qed.

Lemma strict_eq_string v s : strict_eq v (VStr s) = true <-> v = VStr s.
Proof.
  destruct v; simpl; try (split; [done|by intros [=]]).
  split.
  - intros E. apply String.eqb_eq in E. by subst.
  - intros [= ->]. apply String.eqb_refl.
Qed.

Lemma strict_eq_not_string v s : strict_eq v (VStr s) = false <-> v <> VStr s.
Proof.
  rewrite <- strict_eq_string. by destruct (strict_eq v (VStr s)).
Qed.

(** *** Bid request validity *)

Lemma fold_spellings_truthy params keys v :
  truthy (fold_left (fun acc key => js_or acc (getOpt params key)) keys v)
  = truthy v || existsb (fun k => truthy (getOpt params k)) keys.
Proof.
  revert v. induction keys as [|k keys IH]; intros v; simpl.
  - by rewrite orb_false_r.
  - by rewrite IH, truthy_js_or, orb_assoc.
Qed.

Lemma any_spelling_found params keys :
  nullish params = false ->
  exists v, Vidazoo.any_spelling params keys = Ok v
            /\ truthy v = existsb (fun k => truthy (getOpt params k)) keys.
Proof.
  intros Hp. destruct keys as [|k keys]; simpl.
  - by exists VUndef.
  - rewrite (getProp_getOpt _ _ Hp). simpl. eexists. split; [done|].
    apply fold_spellings_truthy.
Qed.

Lemma truthy_string v :
  truthy v && String.eqb (typeof v) "string" = nonEmptyString v.
Proof.
  destruct v as [| |[]|[]| | | |]; simpl; try done;
    by rewrite ?andb_true_r, ?andb_false_r.
Qed.

Lemma nonEmptyString_spec v :
  nonEmptyString v = true <-> exists s, v = VStr s /\ s <> "".
Proof.
  split.
  - destruct v; simpl; try done. intros Hs. eexists. split; [done|].
    apply negb_true_iff, String.eqb_neq in Hs. done.
  - intros (s & -> & Hs). simpl. by apply negb_true_iff, String.eqb_neq.
Qed.

Lemma typeof_undefinedOrObject v :
  String.eqb (typeof v) "undefined" || String.eqb (typeof v) "object"
  = undefinedOrObject v.
Proof. by destruct v. Qed.

Lemma orbidder_valid_bool bid :
  Orbidder.isBidRequestValid bid =
  if nullish bid then Throw TypeError
  else
    let params := getOpt bid "params" in
    Ok (truthy (getOpt bid "sizes") && truthy (getOpt bid "bidId")
        && truthy params
        && nonEmptyString (getOpt params "accountId")
        && nonEmptyString (getOpt params "placementId")
        && undefinedOrObject (getOpt params "keyValues")).
Proof.
  unfold Orbidder.isBidRequestValid.
  destruct (nullish bid) eqn:Hn.
  - by rewrite (getProp_nullish _ _ Hn).
  - rewrite !(getProp_getOpt _ _ Hn). simpl.
    by rewrite !truthy_string, typeof_undefinedOrObject.
Qed.

Lemma string_property_of_truthy v k s : getOpt v k = VStr s -> truthy v = true.
Proof.
  destruct v as [| |[]|[|z]|s0| | |]; simpl; try done; unfold getOpt; simpl;
    try done.
  destruct (String.eqb s0 "") eqn:E; [|done].
  apply String.eqb_eq in E. subst s0. simpl.
  by destruct (String.eqb k "length").
Qed.

Lemma vidazoo_valid_bool bid :
  Vidazoo.isBidRequestValid bid =
  if nullish bid then Throw TypeError
  else
    let params := getOpt bid "params" in
    Ok (existsb (fun k => truthy (getOpt params k)) Vidazoo.cidSpellings
        && existsb (fun k => truthy (getOpt params k)) Vidazoo.pidSpellings).
Proof.
  unfold Vidazoo.isBidRequestValid.
  destruct (nullish bid) eqn:Hn.
  - by rewrite (getProp_nullish _ _ Hn).
  - rewrite (getProp_getOpt _ _ Hn). cbn [rbind].
    set (params := getOpt bid "params").
    assert (nullish (js_or params (VObj [])) = false) as Hp.
    { unfold js_or. destruct (truthy params) eqn:E; [|done].
      by apply truthy_not_nullish. }
    assert (forall keys,
      (forallb (fun k => negb (String.eqb k "length")) keys) = true ->
      existsb (fun k => truthy (getOpt (js_or params (VObj [])) k)) keys
      = existsb (fun k => truthy (getOpt params k)) keys) as Hsame.
    { intros keys Hk. unfold js_or. destruct (truthy params) eqn:E; [done|].
      induction keys as [|k keys IH]; [done|]. simpl in Hk |- *.
      apply andb_true_iff in Hk as [Hk1 Hk2]. rewrite <- (IH Hk2).
      assert (truthy (getOpt params k) = false) as ->; [|done].
      destruct params as [| |[]|[|z]|s| | |]; simpl in E; try done.
      apply negb_false_iff, String.eqb_eq in E. subst s.
        unfold getOpt. simpl. apply negb_true_iff in Hk1. by rewrite Hk1. }
    unfold Vidazoo.extractCID, Vidazoo.extractPID.
    destruct (any_spelling_found _ Vidazoo.cidSpellings Hp) as (c & -> & Hc).
    destruct (any_spelling_found _ Vidazoo.pidSpellings Hp) as (q & -> & Hq).
    cbn [rbind]. rewrite Hc, Hq, !Hsame by done.
    match goal with |- (if ?b then _ else _) = _ => by destruct b end.
Qed.

(** C3, as amended.  Orbidder accepts a bid exactly when [sizes] and [bidId]
    are truthy (an empty array of sizes is), [accountId] and [placementId] are
    non-empty strings and [keyValues] is absent or of type object; Vidazoo
    accepts a bid exactly when its parameters hold a truthy campaign id and a
    truthy publisher id under one of the accepted spellings, whatever its sizes
    and bid id. *)
Theorem isBidRequestValid_characterised (bid : JsVal) :
  (Orbidder.isBidRequestValid bid = Ok true <->
     truthy (getOpt bid "sizes") = true
     /\ truthy (getOpt bid "bidId") = true
     /\ (exists a, getOpt (getOpt bid "params") "accountId" = VStr a /\ a <> "")
     /\ (exists p,
           getOpt (getOpt bid "params") "placementId" = VStr p /\ p <> "")
     /\ undefinedOrObject (getOpt (getOpt bid "params") "keyValues") = true)
  /\ (Vidazoo.isBidRequestValid bid = Ok true <->
        (exists k, In k Vidazoo.cidSpellings
                   /\ truthy (getOpt (getOpt bid "params") k) = true)
        /\ (exists k, In k Vidazoo.pidSpellings
                      /\ truthy (getOpt (getOpt bid "params") k) = true)).
Proof.
  split.
  - rewrite orbidder_valid_bool. destruct (nullish bid) eqn:Hn.
    + split; [done|]. intros (Hs & _). by rewrite (getOpt_nullish _ _ Hn) in Hs.
    + simpl. rewrite <- !nonEmptyString_spec. split.
      * intros [= Hb]. repeat (apply andb_true_iff in Hb as [Hb ?]). done.
      * intros (Hs & Hb & Ha & Hp & Hk). rewrite Hs, Hb, Ha, Hp, Hk.
        apply nonEmptyString_spec in Ha as (a & Ha & _).
        by rewrite (string_property_of_truthy _ _ _ Ha).
  - rewrite vidazoo_valid_bool. destruct (nullish bid) eqn:Hn.
    + split; [done|]. intros ((k & _ & Hk) & _).
      rewrite (getOpt_nullish _ _ Hn) in Hk. by destruct k.
    + cbv zeta.
      pose proof (existsb_exists
                    (fun k => truthy (getOpt (getOpt bid "params") k))
                    Vidazoo.cidSpellings) as Ec.
      pose proof (existsb_exists
                    (fun k => truthy (getOpt (getOpt bid "params") k))
                    Vidazoo.pidSpellings) as Ep.
      cbv beta in Ec, Ep. rewrite <- Ec, <- Ep. clear Ec Ep.
      generalize (existsb (fun k => truthy (getOpt (getOpt bid "params") k))
                    Vidazoo.cidSpellings).
      generalize (existsb (fun k => truthy (getOpt (getOpt bid "params") k))
                    Vidazoo.pidSpellings).
      intros [] []; simpl; split; try done; intros []; done.
Qed.

(** C3 as stated fails: Orbidder accepts a bid whose array of sizes is empty,
    and Vidazoo accepts a bid that has neither sizes nor a bid id. *)
Lemma empty_sizes_accepted :
  getProp (Sample.orbidderBid (VArr []) []) "sizes" = Ok (VArr [])
  /\ Orbidder.isBidRequestValid (Sample.orbidderBid (VArr []) []) = Ok true
  /\ Vidazoo.isBidRequestValid
       (VObj [("params", VObj [("cId", VStr "c"); ("pId", VStr "p")])])
     = Ok true.
Proof. by vm_compute. Qed.

(** *** The string hash *)

Lemma ToInt32_wrap x : ToInt32 x = wrap_int32 x.
Proof.
  unfold ToInt32, wrap_int32.
  change (2 ^ 32) with 4294967296. change (2 ^ 31) with 2147483648.
  cbv zeta. destruct (Z.ltb_spec (x mod 4294967296) 2147483648);
    Z.div_mod_to_equations; lia.
Qed.

Lemma ToInt32_range x : - 2 ^ 31 <= ToInt32 x < 2 ^ 31.
Proof.
  unfold ToInt32. change (2 ^ 32) with 4294967296.
  change (2 ^ 31) with 2147483648. Z.div_mod_to_equations. lia.
Qed.

Lemma ToInt32_periodic x q : ToInt32 (x + q * 2 ^ 32) = ToInt32 x.
Proof.
  unfold ToInt32. replace (x + q * 2 ^ 32 + 2 ^ 31)
    with (x + 2 ^ 31 + q * 2 ^ 32) by lia.
  by rewrite Z_mod_plus_full.
Qed.

Lemma ToInt32_residue x : exists q, ToInt32 x = x + q * 2 ^ 32.
Proof.
  exists (- ((x + 2 ^ 31) / 2 ^ 32)). unfold ToInt32.
  change (2 ^ 32) with 4294967296. change (2 ^ 31) with 2147483648.
  Z.div_mod_to_equations. lia.
Qed.

(** One turn of the loop, [(h << 5) - h + code | 0], is the claimed step. *)
Lemma hash_step h c : or32 (shl32 h 5 - h + c) 0 = wrap_int32 (h * 31 + c).
Proof.
  unfold or32, shl32. change (ToInt32 0) with 0. rewrite Z.lor_0_r.
  rewrite Z.shiftl_mul_pow2 by lia.
  destruct (ToInt32_residue h) as [q1 ->].
  destruct (ToInt32_residue ((h + q1 * 2 ^ 32) * 2 ^ 5)) as [q2 ->].
  rewrite <- ToInt32_wrap.
  replace ((h + q1 * 2 ^ 32) * 2 ^ 5 + q2 * 2 ^ 32 - h + c)
    with (h * 31 + c + (32 * q1 + q2) * 2 ^ 32) by lia.
  apply ToInt32_periodic.
Qed.

Lemma hash_loop_fold h codes :
  Vidazoo.hash_loop h codes
  = fold_left (fun h c => wrap_int32 (h * 31 + c)) codes h.
Proof.
  revert h. induction codes as [|c codes IH]; intros h; simpl; [done|].
  by rewrite hash_step, IH.
Qed.

Lemma rolling_hash_range codes :
  - 2 ^ 31 <= rolling_hash codes < 2 ^ 31.
Proof.
  unfold rolling_hash.
  assert (forall h, - 2 ^ 31 <= h < 2 ^ 31 ->
            - 2 ^ 31 <= fold_left (fun h c => wrap_int32 (h * 31 + c)) codes h
            < 2 ^ 31) as Hfold.
  { induction codes as [|c codes IH]; intros h Hh; simpl; [done|].
    apply IH. rewrite <- ToInt32_wrap. apply ToInt32_range. }
  apply Hfold. lia.
Qed.

Lemma decimal_negative z : z < 0 -> decimal z = "-" +:+ decimal (- z).
Proof. destruct z; try lia. intros _. reflexivity. Qed.

(** C6.  The loop computes, for any sequence of code units, the rolling hash
    [h := h*31 + charCode] wrapped to a signed 32-bit integer at every step,
    and the token is the prefix followed by the decimal rendering of that
    hash, with its sign when negative.  [hashCode] is a function of the string
    and the prefix alone (it does not read the world), so two calls on the
    same string give the same token. *)
Theorem hashCode_rolling_hash (s prefix : string) :
  let h := rolling_hash (charCodes s) in
  (forall codes, Vidazoo.hash_loop 0 codes = rolling_hash codes)
  /\ - 2 ^ 31 <= h < 2 ^ 31
  /\ Vidazoo.hashCode s prefix
     = prefix +:+ (if h <? 0 then "-" +:+ decimal (- h) else decimal h).
Proof.
  intros h. split; [intros codes; apply hash_loop_fold|].
  split; [apply rolling_hash_range|].
  unfold Vidazoo.hashCode. rewrite hash_loop_fold.
  fold (rolling_hash (charCodes s)). fold h.
  destruct (Z.ltb_spec h 0) as [Hneg|Hpos]; [|done].
  by rewrite (decimal_negative h Hneg).
Qed.

(** The hash of ["abc"] is 96354, and a negative hash keeps its sign. *)
Example hashCode_abc :
  Vidazoo.hashCode "abc" "_" = "_96354"
  /\ Vidazoo.hashCode "abcdefghijklmnop" "_" = "_-2093879032".
Proof. by vm_compute. Qed.

(** *** Interpreting the server's response *)

Lemma decimal_nat_head (i : nat) :
  exists c rest, decimal (Z.of_nat i) = String c rest /\ is_digit c = true.
Proof.
  unfold decimal. destruct (Z.of_nat i) as [|p|p] eqn:E; try lia.
  - simpl. eauto.
  - simpl. destruct (Pos.to_uint p); simpl; eauto.
Qed.

Lemma array_index_named k n : named_key k = true -> array_index k n = None.
Proof.
  intros Hk. unfold array_index.
  destruct (find _ (seq 0 n)) as [i|] eqn:E; [|done].
  apply find_some in E as [_ E]. apply String.eqb_eq in E. subst k.
  destruct (decimal_nat_head i) as (c & rest & Hd & Hc).
  rewrite Hd in Hk. simpl in Hk. by rewrite Hc in Hk.
Qed.

(** Only objects have properties with such names of their own. *)
Lemma ownProperty_object v k :
  named_key k = true -> k <> "length" -> k <> "name" ->
  ownProperty v k = true -> exists ps, v = VObj ps.
Proof.
  intros Hk Hl Hn. apply String.eqb_neq in Hl, Hn.
  destruct v; simpl; try done; rewrite ?Hl, ?Hn, ?array_index_named by done;
    simpl; try done; eauto.
Qed.

Section Interpret.
Context `{Runtime}.

Lemma hasOwnProperty_object v k :
  named_key k = true -> k <> "length" -> k <> "name" ->
  hasOwnProperty v k = Ok true -> exists ps, v = VObj ps.
Proof.
  intros Hk Hl Hn. destruct v; simpl; try done; eauto;
    intros [= Hv]; by eapply ownProperty_object.
Qed.

Lemma hasAllKeys_head r k ks :
  Orbidder.hasAllKeys r (k :: ks) = Ok true -> hasOwnProperty r k = Ok true.
Proof.
  cbn [Orbidder.hasAllKeys]. by destruct (hasOwnProperty r k) as [[]|].
Qed.

Lemma passes_object r : passes r = true -> exists ps, r = VObj ps.
Proof.
  unfold passes. destruct (Orbidder.isBidResponseValid r) as [[]|] eqn:E;
    try done.
  intros _. revert E. unfold Orbidder.isBidResponseValid.
  destruct (getProp r "mediaType") as [mediaType|]; cbn [rbind]; [|done].
  destruct (strict_eq mediaType (VStr Orbidder.BANNER)).
  { intros E. apply hasAllKeys_head in E.
    by apply hasOwnProperty_object in E. }
  destruct (strict_eq mediaType (VStr Orbidder.NATIVE)); [|done].
  destruct (getProp r "native") as [native|]; cbn [rbind]; [|done].
  destruct (hasOwnProperty native "impressionTrackers") as [[]|];
    cbn [rbind]; try done.
  intros E. apply hasAllKeys_head in E.
  by apply hasOwnProperty_object in E.
Qed.

Lemma interpretOne_ok acc r :
  validates r = true ->
  Orbidder.interpretOne acc r
  = Ok (acc ++ (if passes r then [withMeta r] else []))%list.
Proof.
  unfold validates, Orbidder.interpretOne. intros Hv.
  pose proof (passes_object r) as Hobj. unfold passes in *.
  destruct (Orbidder.isBidResponseValid r) as [[]|e]; try done; simpl.
  - destruct Hobj as [ps ->]; [done|]. simpl.
    by destruct (isArray (getOpt (VObj ps) "advertiserDomains")).
  - by rewrite app_nil_r.
Qed.

Lemma forEach_ok records : forall acc,
  Forall (fun r => validates r = true) records ->
  Orbidder.forEach acc records
  = Ok (acc ++ map withMeta (List.filter passes records))%list.
Proof.
  induction records as [|r records IH]; intros acc Hall; simpl.
  - by rewrite app_nil_r.
  - apply Forall_cons in Hall as [Hr Hall].
    rewrite (interpretOne_ok _ _ Hr). simpl. rewrite (IH _ Hall).
    destruct (passes r); simpl; [|by rewrite app_nil_r].
    by rewrite <- app_assoc.
Qed.

(** C10, as amended.  When every record of the body can be validated, the
    array returned holds the records that pass validation, in their order;
    each is the input record with every property but [meta] as it was, and,
    when its list of advertiser domains is an array, with [meta] replaced by
    an object that holds that list and nothing else. *)
Theorem interpretResponse_filters (serverResponse : JsVal)
    (records : list JsVal) :
  getProp serverResponse "body" = Ok (VArr records) ->
  Forall (fun r => validates r = true) records ->
  Orbidder.interpretResponse serverResponse
  = Ok (map withMeta (List.filter passes records))
  /\ (forall r, In r records -> passes r = true ->
        (forall k, k <> "meta" -> getOpt (withMeta r) k = getOpt r k)
        /\ (isArray (getOpt r "advertiserDomains") = true ->
              getOpt (withMeta r) "meta"
              = VObj [("advertiserDomains", getOpt r "advertiserDomains")])
        /\ (isArray (getOpt r "advertiserDomains") = false ->
              withMeta r = r)).
Proof.
  intros Hbody Hall. split.
  - unfold Orbidder.interpretResponse. rewrite Hbody. simpl.
    destruct records as [|r records]; [done|].
    replace (0 <? Z.of_nat (length (r :: records))) with true
      by (symmetry; apply Z.ltb_lt; simpl; lia).
    by rewrite (forEach_ok _ [] Hall).
  - intros r _ Hr. destruct (passes_object r Hr) as [ps ->].
    unfold withMeta.
    destruct (isArray (getOpt (VObj ps) "advertiserDomains")) eqn:Ha.
    + split; [|split; [|done]].
      * intros k Hk. unfold getOpt. simpl.
        by rewrite obj_get_set_ne by done.
      * intros _. unfold getOpt at 1. simpl. by rewrite obj_get_set_eq.
    + done.
Qed.

Lemma hasAllKeys_verdict ps keys :
  obj_get "hasOwnProperty" ps = None ->
  Orbidder.hasAllKeys (VObj ps) keys
  = Ok (forallb (fun k => bool_decide (is_Some (obj_get k ps))) keys).
Proof.
  intros Hown. induction keys as [|k keys IH]; simpl; [done|].
  rewrite Hown. simpl. destruct (bool_decide (is_Some (obj_get k ps))); [|done].
  exact IH.
Qed.

(** The records the validation turns down without raising: those of a media
    type other than banner and native, banner records that lack one of the
    required keys, and native records whose [native] object has no list of
    impression trackers.  By [interpretResponse_filters] they are left out of
    the result and the other records are returned. *)
Lemma invalid_records_are_dropped (ps : list (string * JsVal)) :
  obj_get "hasOwnProperty" ps = None ->
  (getOpt (VObj ps) "mediaType" <> VStr "banner" ->
   getOpt (VObj ps) "mediaType" <> VStr "native" ->
   Orbidder.isBidResponseValid (VObj ps) = Ok false)
  /\ (forall k,
        getOpt (VObj ps) "mediaType" = VStr "banner" ->
        In k (Orbidder.baseKeys ++ ["width"; "height"; "ad"]) ->
        obj_get k ps = None ->
        Orbidder.isBidResponseValid (VObj ps) = Ok false)
  /\ (forall native,
        getOpt (VObj ps) "mediaType" = VStr "native" ->
        getOpt (VObj ps) "native" = VObj native ->
        obj_get "hasOwnProperty" native = None ->
        obj_get "impressionTrackers" native = None ->
        Orbidder.isBidResponseValid (VObj ps) = Ok false).
Proof.
  intros Hown. unfold Orbidder.isBidResponseValid. cbn [getProp rbind].
  change (default VUndef (obj_get "mediaType" ps))
    with (getOpt (VObj ps) "mediaType").
  change (default VUndef (obj_get "native" ps))
    with (getOpt (VObj ps) "native").
  split; [|split].
  - intros Hb%strict_eq_not_string Hn%strict_eq_not_string.
    unfold Orbidder.BANNER, Orbidder.NATIVE. by rewrite Hb, Hn.
  - intros k -> Hk Hmissing. cbn [strict_eq]. unfold Orbidder.BANNER.
    rewrite String.eqb_refl, hasAllKeys_verdict by done. f_equal.
    apply not_true_is_false. intros Hall.
    rewrite forallb_forall in Hall. specialize (Hall k Hk).
    rewrite Hmissing in Hall.
    by apply bool_decide_eq_true, is_Some_None in Hall.
  - intros native -> -> Hown' Hmissing. cbn [strict_eq].
    unfold Orbidder.BANNER, Orbidder.NATIVE.
    cbn [String.eqb Ascii.eqb Bool.eqb].
    cbn [hasOwnProperty]. rewrite Hown'. cbn [ownProperty rbind].
    by rewrite Hmissing.
Qed.

(** C2: where the code departs from the claim.  A record that declares
    itself native and carries no [native] object makes [interpretResponse]
    raise, so the valid banner record next to it is not returned, although
    on its own it is. *)
Theorem native_without_object_raises (rest : list JsVal) :
  Orbidder.interpretResponse
    (VObj [("body",
            VArr (Sample.bannerResponse
                    :: Sample.nativeWithoutObject :: rest))])
  = Throw TypeError
  /\ Orbidder.interpretResponse (VObj [("body", VArr [Sample.bannerResponse])])
     = Ok [Sample.bannerResponse].
Proof. split; reflexivity. Qed.
End Interpret.

(** C10 as stated fails: the record comes back with more changed than an
    added [meta.advertiserDomains], for the [meta] it carried is gone. *)
Lemma meta_is_replaced :
  getOpt (getOpt bannerWithMeta "meta") "networkId" = VNum (Num 7)
  /\ exists r,
       Orbidder.interpretResponse (H := Sample.runtime)
         (VObj [("body", VArr [bannerWithMeta])]) = Ok [r]
       /\ getOpt (getOpt r "meta") "advertiserDomains"
          = VArr [VStr "example.com"]
       /\ getOpt (getOpt r "meta") "networkId" = VUndef.
Proof. split; [reflexivity|]. eexists. by vm_compute. Qed.

(** The filter at work: the banner record is handed on, a video record is
    dropped. *)
Lemma interpretResponse_filters_on_sample :
  Orbidder.interpretResponse (H := Sample.runtime)
    (VObj [("body", VArr [bannerWithMeta;
                          VObj [("mediaType", VStr "video")]])])
  = Ok (map withMeta
          (List.filter (passes (H := Sample.runtime))
             [bannerWithMeta; VObj [("mediaType", VStr "video")]])).
Proof.
  refine (proj1 (interpretResponse_filters (H := Sample.runtime)
                   (VObj [("body", VArr [bannerWithMeta;
                                         VObj [("mediaType", VStr "video")]])])
                   [bannerWithMeta; VObj [("mediaType", VStr "video")]] _ _)).
  - reflexivity.
  - repeat constructor.
Defined.

(** *** Floor resolution *)

Section Floor.
Context `{Runtime}.

(** C1, as amended.  Without a floor function both adapters take the static
    floor of the bid's parameters.  With one, Orbidder asks for euros and
    takes the returned floor when the result is a plain object whose floor
    is not [NaN] and whose currency is ['EUR'], and [undefined] (not the
    static floor) otherwise; Vidazoo asks for US dollars and, of a result
    that is not [undefined] or [null], takes the returned floor when its
    currency is ['USD'] and the static floor otherwise. *)
Theorem floor_resolution (bid getFloor params : JsVal) :
  getProp bid "getFloor" = Ok getFloor ->
  getProp bid "params" = Ok params ->
  nullish params = false ->
  (isFn getFloor = false ->
     Orbidder.getBidFloor bid = Ok (getOpt params "bidfloor")
     /\ Vidazoo.floorBlock bid (getOpt params "bidFloor")
        = Ok (getOpt params "bidFloor"))
  /\ (isFn getFloor = true ->
      forall floor, call getFloor bid [floorQuery "EUR"] = Ok floor ->
        (isPlainObject floor = true ->
         isNaN (getOpt floor "floor") = false ->
         getOpt floor "currency" = VStr "EUR" ->
         Orbidder.getBidFloor bid = Ok (getOpt floor "floor"))
        /\ (isPlainObject floor = false
            \/ isNaN (getOpt floor "floor") = true
            \/ getOpt floor "currency" <> VStr "EUR" ->
            Orbidder.getBidFloor bid = Ok VUndef))
  /\ (isFn getFloor = true ->
      forall floorInfo, call getFloor bid [floorQuery "USD"] = Ok floorInfo ->
        nullish floorInfo = false ->
        (getOpt floorInfo "currency" = VStr "USD" ->
         Vidazoo.floorBlock bid (getOpt params "bidFloor")
         = Ok (getOpt floorInfo "floor"))
        /\ (getOpt floorInfo "currency" <> VStr "USD" ->
            Vidazoo.floorBlock bid (getOpt params "bidFloor")
            = Ok (getOpt params "bidFloor"))).
Proof.
  intros Hg Hp Hparams.
  unfold Orbidder.getBidFloor, Vidazoo.floorBlock. rewrite Hg. cbn [rbind].
  split; [|split].
  - intros ->. cbn [negb]. rewrite Hp. cbn [rbind].
    by rewrite (getProp_getOpt _ _ Hparams).
  - intros -> floor ->. cbn [negb rbind]. split.
    + intros -> -> Hc. apply strict_eq_string in Hc. by rewrite Hc.
    + intros [-> | [-> | Hc]]; [done| |].
      * by rewrite andb_false_r.
      * apply strict_eq_not_string in Hc. by rewrite Hc, andb_false_r.
  - intros -> floorInfo -> Hn. cbn [rbind].
    rewrite !(getProp_getOpt _ _ Hn). cbn [rbind]. split.
    + intros Hc. apply strict_eq_string in Hc. by rewrite Hc.
    + intros Hc. apply strict_eq_not_string in Hc. by rewrite Hc.
Qed.
End Floor.

(** C1 as stated fails: the provider answers in US dollars, Orbidder asked for
    euros, and the bid's static floor of 1 is not what is resolved. *)
Lemma mismatch_drops_static_floor :
  getOpt (getOpt bidWithDollarFloor "params") "bidfloor" = VNum (Num 1)
  /\ call (H := Sample.runtime) (getOpt bidWithDollarFloor "getFloor")
       bidWithDollarFloor [floorQuery "EUR"]
     = Ok (VObj [("currency", VStr "USD"); ("floor", VNum (Num 2))])
  /\ Orbidder.getBidFloor (H := Sample.runtime) bidWithDollarFloor = Ok VUndef.
Proof. by vm_compute. Qed.

(** Floor resolution at work: the provider answers in euros and its floor of
    3 is taken. *)
Lemma floor_resolution_on_sample :
  Orbidder.getBidFloor (H := Sample.runtime) bidWithEuroFloor
  = Ok (VNum (Num 3)).
Proof.
  destruct (floor_resolution (H := Sample.runtime) bidWithEuroFloor
              (VFun "floorEUR") (Sample.orbidderParams (VNum (Num 1)))
              eq_refl eq_refl eq_refl) as (_ & Hfn & _).
  destruct (Hfn eq_refl _ eq_refl) as [Haccepted _].
  exact (Haccepted eq_refl eq_refl eq_refl).
Defined.

(** *** Building the requests *)

Lemma truthy_named_property v k :
  named_key k = true -> k <> "length" -> truthy (getOpt v k) = true ->
  exists ps, v = VObj ps.
Proof.
  intros Hk Hl. apply String.eqb_neq in Hl. unfold getOpt.
  destruct v; simpl; try done; rewrite ?Hl, ?array_index_named by done;
    simpl; try done; eauto.
Qed.

Lemma mapR_Forall {A B} (f : A -> Result B) (P : A -> B -> Prop) l :
  Forall (fun x => exists y, f x = Ok y /\ P x y) l ->
  exists ys, mapR f l = Ok ys /\ Forall2 P l ys.
Proof.
  induction 1 as [|x l (y & Hy & HP) _ (ys & Hys & HPs)]; simpl.
  - by exists [].
  - rewrite Hy, Hys. simpl. exists (y :: ys). by split; [|constructor].
Qed.

Section Build.
Context `{Runtime} `{Prebid}.

Lemma getHostname_reads w : exists h, Orbidder.getHostname w = (Ok h, w).
Proof.
  unfold Orbidder.getHostname, try_catch, bind, getDataFromLocalStorage, ret.
  destruct (readThrows (storage w) "ov_orbidder_host"); eauto.
Qed.

Lemma valid_bid_shape bid :
  Orbidder.isBidRequestValid bid = Ok true ->
  exists ps pps, bid = VObj ps /\ obj_get "params" ps = Some (VObj pps).
Proof.
  rewrite orbidder_valid_bool. destruct (nullish bid); [done|].
  cbv zeta. intros [= Hv].
  repeat (apply andb_true_iff in Hv as [Hv ?]).
  apply truthy_named_property in Hv as [ps ->]; [|done..].
  assert (truthy (getOpt (getOpt (VObj ps) "params") "accountId") = true)
    as Hp.
  { by destruct (getOpt (getOpt (VObj ps) "params") "accountId"). }
  apply truthy_named_property in Hp as [pps Hp]; [|done..].
  exists ps, pps. split; [done|]. revert Hp. unfold getOpt. simpl.
  destruct (obj_get "params" ps); simpl; congruence.
Qed.

Lemma getOpt_obj ps k : getOpt (VObj ps) k = default VUndef (obj_get k ps).
Proof. reflexivity. Qed.

(** the first step of the callback: [delete bidRequest.mediaTypes.video] *)
Lemma video_deleted ps :
  (if truthy (getOpt (getOpt (VObj ps) "mediaTypes") "video") then
     rbind (getProp (VObj ps) "mediaTypes")
       (fun mediaTypes =>
          setProp (VObj ps) "mediaTypes" (deleteProp mediaTypes "video"))
   else Ok (VObj ps))
  = Ok (withoutVideo (VObj ps)).
Proof.
  unfold withoutVideo.
  by destruct (truthy (getOpt (getOpt (VObj ps) "mediaTypes") "video")).
Qed.

Lemma withoutVideo_shape ps :
  exists ps1, withoutVideo (VObj ps) = VObj ps1
    /\ (forall k, k <> "mediaTypes" -> obj_get k ps1 = obj_get k ps)
    /\ getOpt (getOpt (VObj ps1) "mediaTypes") "video"
        = (if truthy (getOpt (getOpt (VObj ps) "mediaTypes") "video")
           then VUndef
           else getOpt (getOpt (VObj ps) "mediaTypes") "video")
    /\ (forall k, k <> "video" ->
          getOpt (getOpt (VObj ps1) "mediaTypes") k
          = getOpt (getOpt (VObj ps) "mediaTypes") k).
Proof.
  unfold withoutVideo.
  destruct (truthy (getOpt (getOpt (VObj ps) "mediaTypes") "video")) eqn:Hv.
  - apply truthy_named_property in Hv as [mps Hm]; [|done..].
    rewrite Hm. eexists. split; [done|]. split; [|split].
    + intros k Hk. by rewrite obj_get_set_ne.
    + rewrite (getOpt_obj _ "mediaTypes"), obj_get_set_eq. simpl.
      by rewrite getOpt_obj, obj_get_del_eq.
    + intros k Hk. rewrite (getOpt_obj _ "mediaTypes"), obj_get_set_eq.
      simpl. by rewrite !getOpt_obj, obj_get_del_ne.
  - exists ps. repeat split; done.
Qed.

Lemma getBidFloor_returns ps pps :
  (forall f this args, exists v, callFn f this args = Ok v) ->
  obj_get "params" ps = Some (VObj pps) ->
  exists floor, Orbidder.getBidFloor (VObj ps) = Ok floor.
Proof.
  intros Hcall Hp. unfold Orbidder.getBidFloor. simpl.
  destruct (default VUndef (obj_get "getFloor" ps)) as [| | | | | | |f];
    simpl; rewrite ?Hp; simpl; eauto.
  destruct (Hcall f (VObj ps) [floorQuery "EUR"]) as [v ->]. simpl.
  match goal with |- context [if ?b then _ else _] => destruct b end; eauto.
Qed.

Lemma buildRequest_frame hostname bidderRequest bid :
  (forall f this args, exists v, callFn f this args = Ok v) ->
  Orbidder.isBidRequestValid bid = Ok true ->
  exists built,
    Orbidder.buildRequest hostname bidderRequest bid = Ok built
    /\ leftAs bid built.1.
Proof.
  intros Hcall Hv. destruct (valid_bid_shape _ Hv) as (ps & pps & -> & Hp).
  unfold Orbidder.buildRequest. rewrite video_deleted. cbn [rbind].
  destruct (withoutVideo_shape ps) as (ps1 & E1 & Hsame & Hvideo & Hother).
  assert (obj_get "params" ps1 = Some (VObj pps)) as Hp1
    by (by rewrite Hsame).
  unfold leftAs. rewrite E1.
  destruct (getBidFloor_returns ps1 pps Hcall Hp1) as [floor ->].
  cbn [rbind getProp]. rewrite Hp1. cbn [default rbind setProp].
  eexists. split; [done|]. cbn [fst].
  assert (forall k, getOpt (getOpt (VObj (obj_set "params"
              (VObj (obj_set "bidfloor" floor pps)) ps1)) "params") k
            = default VUndef (obj_get k (obj_set "bidfloor" floor pps)))
    as Hpar.
  { intros k. by rewrite (getOpt_obj _ "params"), obj_get_set_eq. }
  assert (getOpt (VObj ps) "params" = VObj pps) as Hpar0
    by (by rewrite getOpt_obj, Hp).
  assert (getOpt (VObj (obj_set "params"
             (VObj (obj_set "bidfloor" floor pps)) ps1)) "mediaTypes"
          = getOpt (VObj ps1) "mediaTypes") as Hmt.
  { by rewrite !getOpt_obj, obj_get_set_ne. }
  split; [|split; [|split; [|split]]].
  - by rewrite Hpar, obj_get_set_eq.
  - intros k Hk. by rewrite Hpar, Hpar0, getOpt_obj, obj_get_set_ne.
  - by rewrite Hmt.
  - intros k Hk. rewrite Hmt. by apply Hother.
  - intros k Hk1 Hk2. rewrite !getOpt_obj, obj_get_set_ne by done.
    by rewrite Hsame.
Qed.

(** C9, as amended.  Given valid bid requests that the framework's native
    conversion hands back as they are, and floor providers that return,
    [buildRequests] builds one request per bid request and leaves the world
    as it was; to each bid request it attaches the floor resolved, it
    deletes a truthy [mediaTypes.video], and it changes nothing else. *)
Theorem buildRequests_frame (validBidRequests : list JsVal)
    (bidderRequest : JsVal) (w : World) :
  convertOrtbRequestToProprietaryNative validBidRequests = validBidRequests ->
  (forall f this args, exists v, callFn f this args = Ok v) ->
  Forall (fun bid => Orbidder.isBidRequestValid bid = Ok true)
    validBidRequests ->
  exists after requests,
    Orbidder.buildRequests validBidRequests bidderRequest w
    = (Ok (after, requests), w)
    /\ Forall2 leftAs validBidRequests after
    /\ length requests = length validBidRequests.
Proof.
  intros Hconv Hcall Hvalid.
  unfold Orbidder.buildRequests. rewrite Hconv. unfold bind at 1.
  destruct (getHostname_reads w) as [hostname ->].
  assert (exists built,
            mapR (Orbidder.buildRequest hostname bidderRequest)
              validBidRequests = Ok built
            /\ Forall2 (fun bid y => leftAs bid y.1) validBidRequests built)
    as (built & Hbuilt & Hall).
  { apply mapR_Forall. eapply Forall_impl; [exact Hvalid|].
    intros bid Hv. by apply buildRequest_frame. }
  unfold bind, lift, ret. rewrite Hbuilt.
  exists (map fst built), (map snd built). split; [done|]. split.
  - by apply Forall2_fmap_r.
  - rewrite length_map. symmetry. by eapply Forall2_length.
Qed.
End Build.

(** C9 as stated fails: after the call the bid request's media types are no
    longer what they were, the video media type is gone. *)
Lemma video_is_stripped :
  getOpt (getOpt bidWithVideo "mediaTypes") "video" = VObj []
  /\ exists after requests,
       Orbidder.buildRequests (H := Sample.runtime) (H0 := Sample.prebid)
         [bidWithVideo] VUndef (Sample.world (Sample.storageOf ∅))
       = (Ok ([after], requests), Sample.world (Sample.storageOf ∅))
       /\ getOpt (getOpt after "mediaTypes") "video" = VUndef
       /\ getOpt after "mediaTypes" <> getOpt bidWithVideo "mediaTypes".
Proof.
  split; [reflexivity|]. eexists _, _. split; [by vm_compute|].
  split; [reflexivity|]. by vm_compute.
Qed.

(** The providers of the sample host return. *)
Lemma sample_providers_return :
  forall f this args, exists v, Sample.callProvider f this args = Ok v.
Proof.
  intros f this args. unfold Sample.callProvider.
  destruct (String.eqb f "floorUSD"); [eauto|].
  destruct (String.eqb f "floorEUR"); eauto.
Qed.

(** The frame at work on two bid requests. *)
Lemma buildRequests_frame_on_sample :
  exists after requests,
    Orbidder.buildRequests (H := Sample.runtime) (H0 := Sample.prebid)
      [bidWithVideo; bidWithEuroFloor] VUndef
      (Sample.world (Sample.storageOf ∅))
    = (Ok (after, requests), Sample.world (Sample.storageOf ∅))
    /\ Forall2 (leftAs (H := Sample.runtime)) [bidWithVideo; bidWithEuroFloor]
         after
    /\ length requests = 2%nat.
Proof.
  apply (buildRequests_frame (H := Sample.runtime) (H0 := Sample.prebid)
           [bidWithVideo; bidWithEuroFloor] VUndef
           (Sample.world (Sample.storageOf ∅))).
  - reflexivity.
  - exact sample_providers_return.
  - repeat constructor.
Defined.

(** *** Stored identifiers *)

Section Stored.
Context `{Runtime} `{Prebid} `{Constants} `{Browser}.

Lemma getStorageItem_run key w :
  Vidazoo.getStorageItem key w
  = (Ok (if readThrows (storage w) key then VNull
         else Vidazoo.tryParseJSON (cells (storage w) !! key)), w).
Proof.
  unfold Vidazoo.getStorageItem, try_catch, bind, getDataFromLocalStorage, ret.
  by destruct (readThrows (storage w) key).
Qed.

Lemma setStorageItem_run key value timestamp w :
  Vidazoo.setStorageItem key value timestamp w
  = (Ok tt,
     let w1 := if truthy timestamp then w else tick w in
     let created :=
       if truthy timestamp then timestamp else VNum (Num (now w)) in
     if writeThrows (storage w) key then w1
     else store key (storedPair value created) w1).
Proof.
  unfold Vidazoo.setStorageItem, try_catch, bind, setDataInLocalStorage, ret,
    Date_now.
  destruct (truthy timestamp); simpl;
    by destruct (writeThrows (storage w) key).
Qed.

Lemma getNextDealId_run key expiry w :
  Vidazoo.getNextDealId key expiry w
  = let data :=
      if readThrows (storage w) key then VNull
      else Vidazoo.tryParseJSON (cells (storage w) !! key) in
    let read := truthy data && truthy (getOpt data "value") in
    let live := read && liveCounter data (now w) expiry in
    let w1 := if read then tick w else w in
    let currentValue := if live then getOpt data "value" else VNum (Num 0) in
    let timestamp := if live then getOpt data "created" else VUndef in
    let nextValue := js_add currentValue (VNum (Num 1)) in
    (Ok nextValue, (Vidazoo.setStorageItem key nextValue timestamp w1).2).
Proof.
  unfold Vidazoo.getNextDealId, try_catch. unfold bind at 1.
  rewrite getStorageItem_run. cbv zeta.
  set (data := if readThrows (storage w) key then VNull else _).
  unfold bind at 1.
  destruct (truthy data && truthy (getOpt data "value")) eqn:Hread.
  - unfold bind at 1. unfold Date_now, ret. simpl. unfold bind.
    fold (now w). fold (tick w). unfold liveCounter.
    by rewrite setStorageItem_run.
  - unfold ret. simpl. unfold bind. by rewrite setStorageItem_run.
Qed.

Lemma next_absent key expiry w :
  readThrows (storage w) key = false ->
  writeThrows (storage w) key = false ->
  cells (storage w) !! key = None ->
  Vidazoo.getNextDealId key expiry w
  = (Ok (VNum (Num 1)), store key (counterCell 1 (now w)) (tick w)).
Proof.
  intros Hr Hw Hc. rewrite getNextDealId_run, Hr, Hc. simpl.
  rewrite setStorageItem_run. simpl. by rewrite Hw.
Qed.

Lemma next_live key expiry w v c :
  readThrows (storage w) key = false ->
  writeThrows (storage w) key = false ->
  cells (storage w) !! key = Some (counterCell v c) ->
  v <> 0 -> c <> 0 -> now w - c < expiry ->
  Vidazoo.getNextDealId key expiry w
  = (Ok (VNum (Num (v + 1))), store key (counterCell (v + 1) c) (tick w)).
Proof.
  intros Hr Hw Hc Hv Hcr Hlive. rewrite getNextDealId_run, Hr, Hc.
  unfold liveCounter, counterCell. simpl.
  apply Z.eqb_neq in Hv, Hcr. apply Z.ltb_lt in Hlive.
  rewrite Hv, Hlive. simpl.
  rewrite setStorageItem_run. simpl. by rewrite Hw, Hcr.
Qed.

Lemma next_expired key expiry w v c :
  readThrows (storage w) key = false ->
  writeThrows (storage w) key = false ->
  cells (storage w) !! key = Some (counterCell v c) ->
  v <> 0 -> expiry <= now w - c ->
  Vidazoo.getNextDealId key expiry w
  = (Ok (VNum (Num 1)),
     store key (counterCell 1 (now (tick w))) (tick (tick w))).
Proof.
  intros Hr Hw Hc Hv Hdead. rewrite getNextDealId_run, Hr, Hc.
  unfold liveCounter, counterCell. simpl.
  apply Z.eqb_neq in Hv. apply Z.ltb_ge in Hdead.
  rewrite Hv, Hdead. simpl.
  rewrite setStorageItem_run. simpl. by rewrite Hw.
Qed.

Lemma store_same key c w :
  cells (storage w) !! key = Some c -> store key c (advance 0 w) = w.
Proof.
  destruct w as [[cs rt wt] cl t]. unfold store, advance. simpl.
  intros Hc. f_equal; [|lia]. f_equal. by apply insert_id.
Qed.

Lemma store_over key c1 c2 m w :
  store key c2 (advance m (store key c1 (tick w)))
  = store key c2 (advance (S m) w).
Proof.
  unfold advance, store, tick. simpl. f_equal; [|lia].
  f_equal. apply insert_insert_eq.
Qed.

Lemma dealIds_live key expiry : forall m w v c,
  readThrows (storage w) key = false ->
  writeThrows (storage w) key = false ->
  cells (storage w) !! key = Some (counterCell v c) ->
  0 < v -> c <> 0 ->
  (forall i, (i < m)%nat -> clock w (ticks w + i) - c < expiry) ->
  dealIds m key expiry w
  = (map (fun i => Ok (VNum (Num (v + Z.of_nat i)))) (seq 1 m),
     store key (counterCell (v + Z.of_nat m) c) (advance m w)).
Proof.
  induction m as [|m IH]; intros w v c Hr Hw Hc Hv Hcr Hlive.
  - cbn [dealIds seq map]. change (Z.of_nat 0) with 0.
    by rewrite Z.add_0_r, store_same.
  - cbn [dealIds]. rewrite (next_live key expiry w v c); try done; try lia.
    2:{ unfold now. specialize (Hlive 0%nat). rewrite Nat.add_0_r in Hlive.
        apply Hlive. lia. }
    rewrite (IH _ (v + 1) c); try done; try lia.
    + rewrite store_over. f_equal.
      * change (seq 1 (S m)) with (1%nat :: seq 2 m). cbn [map].
        f_equal. rewrite <- (seq_shift m 1), map_map. apply map_ext. intros i.
        do 3 f_equal. lia.
      * by replace (v + 1 + Z.of_nat m) with (v + Z.of_nat (S m)) by lia.
    + simpl. apply lookup_insert_eq.
    + intros i Hi. simpl. specialize (Hlive (S i)).
      replace (ticks w + S i)%nat with (S (ticks w + i)) in Hlive by lia.
      apply Hlive. lia.
Qed.

(** C4.  With storage that can be read and written: an absent counter
    counts as 0, so the call returns 1 and stores it with the time of the
    call; a stored counter created less than [expiry] before the call is
    incremented and keeps its creation time; an older one is reset, so the
    call returns 1 and stores it with a new creation time.  Hence, from
    empty storage, [n] calls whose readings of the clock stay within the
    window of the first return 1, 2, ..., [n], and the first call made
    [expiry] or more after the first returns 1 again. *)
Theorem getNextDealId_counts (key : string) (expiry : Z) (w : World) :
  readThrows (storage w) key = false ->
  writeThrows (storage w) key = false ->
  (cells (storage w) !! key = None ->
     Vidazoo.getNextDealId key expiry w
     = (Ok (VNum (Num 1)), store key (counterCell 1 (now w)) (tick w)))
  /\ (forall v c,
        cells (storage w) !! key = Some (counterCell v c) ->
        v <> 0 -> c <> 0 ->
        (now w - c < expiry ->
           Vidazoo.getNextDealId key expiry w
           = (Ok (VNum (Num (v + 1))),
              store key (counterCell (v + 1) c) (tick w)))
        /\ (expiry <= now w - c ->
              Vidazoo.getNextDealId key expiry w
              = (Ok (VNum (Num 1)),
                 store key (counterCell 1 (now (tick w))) (tick (tick w)))))
  /\ (forall n,
        cells (storage w) !! key = None ->
        now w <> 0 ->
        (forall i, (0 < i < n)%nat ->
                   clock w (ticks w + i) - now w < expiry) ->
        dealIds n key expiry w
        = (map (fun i => Ok (VNum (Num (Z.of_nat i)))) (seq 1 n),
           if n is O then w
           else store key (counterCell (Z.of_nat n) (now w)) (advance n w))
        /\ ((0 < n)%nat ->
             expiry <= clock w (ticks w + n) - now w ->
             (Vidazoo.getNextDealId key expiry
                (dealIds n key expiry w).2).1
             = Ok (VNum (Num 1)))).
Proof.
  intros Hr Hw. split; [by apply next_absent|]. split.
  { intros v c Hc Hv Hcr. split; intros Ht.
    - by apply next_live.
    - by apply (next_expired key expiry w v c). }
  intros n Hc Hnow Hwin.
  assert (dealIds n key expiry w
          = (map (fun i => Ok (VNum (Num (Z.of_nat i)))) (seq 1 n),
             if n is O then w
             else store key (counterCell (Z.of_nat n) (now w))
                    (advance n w))) as Hrun.
  { destruct n as [|m]; [done|].
    cbn [dealIds]. rewrite next_absent by done.
    rewrite (dealIds_live key expiry m _ 1 (now w)); try done.
    - rewrite store_over. f_equal.
      + change (seq 1 (S m)) with (1%nat :: seq 2 m). cbn [map].
        f_equal. rewrite <- (seq_shift m 1), map_map. apply map_ext. intros i.
        do 3 f_equal. lia.
      + by replace (1 + Z.of_nat m) with (Z.of_nat (S m)) by lia.
    - simpl. apply lookup_insert_eq.
    - intros i Hi. simpl. specialize (Hwin (S i)).
      replace (ticks w + S i)%nat with (S (ticks w + i)) in Hwin by lia.
      apply Hwin. lia. }
  split; [exact Hrun|]. intros Hn Hlate. rewrite Hrun.
  destruct n as [|m]; [lia|]. cbn [snd].
  rewrite (next_expired key expiry _ (Z.of_nat (S m)) (now w)); try done.
  simpl. apply lookup_insert_eq.
Qed.

(** C5, as amended.  [getNextDealId] never raises.  A read that fails counts
    as an absent counter, so the call returns 1 (not 0); a write that fails
    leaves storage as it was and does not change what the call returns. *)
Theorem getNextDealId_swallows (key : string) (expiry : Z) (w : World) :
  exists v w',
    Vidazoo.getNextDealId key expiry w = (Ok v, w')
    /\ (readThrows (storage w) key = true -> v = VNum (Num 1))
    /\ (writeThrows (storage w) key = true -> storage w' = storage w)
    /\ (Vidazoo.getNextDealId key expiry (writable w)).1 = Ok v.
Proof.
  rewrite !getNextDealId_run. cbv zeta. eexists _, _. split; [done|].
  split; [|split].
  - by intros ->.
  - intros Hw. rewrite setStorageItem_run. cbv zeta.
    match goal with |- context [writeThrows (storage ?w1) key] =>
      replace (writeThrows (storage w1) key) with true
        by (by destruct (truthy _ && truthy _))
    end.
    cbn [snd].
    by repeat match goal with |- context [if ?b then _ else _] =>
                destruct b end.
  - done.
Qed.

Lemma getUniqueDealId_run key expiry w :
  Vidazoo.getUniqueDealId key expiry w
  = let storageKey := "u_" +:+ key in
    let data :=
      if readThrows (storage w) storageKey then VNull
      else Vidazoo.tryParseJSON (cells (storage w) !! storageKey) in
    if staleId data (now w) expiry then
      let uniqueId := VStr (key +:+ "_" +:+ decimal (now w)) in
      (Ok uniqueId,
       (Vidazoo.setStorageItem storageKey uniqueId VUndef (tick w)).2)
    else (Ok (getOpt data "value"), tick w).
Proof.
  unfold Vidazoo.getUniqueDealId. cbv zeta. unfold bind at 1.
  unfold Date_now. fold (now w). fold (tick w). unfold bind at 1.
  rewrite getStorageItem_run. cbn [storage tick]. unfold staleId.
  match goal with |- context [if ?b then _ else _] => destruct b end.
  - unfold bind, ret. by rewrite setStorageItem_run.
  - done.
Qed.

Lemma identifier_truthy key t :
  truthy (VStr (key +:+ "_" +:+ decimal t)) = true.
Proof. by destruct key. Qed.

(** C7.  With storage that can be read and written, the first call leaves a
    document under the derived key; a second call for which that document
    is not older than [expiry] returns the identifier the first returned
    and leaves storage as it is.  In particular, when nothing was stored,
    the first call makes the identifier from the key and the time and
    stores it with its creation time [c], and a second call whose reading
    of the clock is at most [c + expiry] returns it again. *)
Theorem getUniqueDealId_stable (key : string) (expiry : Z) (w : World) :
  readThrows (storage w) ("u_" +:+ key) = false ->
  writeThrows (storage w) ("u_" +:+ key) = false ->
  exists id w1 data,
    Vidazoo.getUniqueDealId key expiry w = (Ok id, w1)
    /\ cells (storage w1) !! ("u_" +:+ key) = Some (Doc data)
    /\ (num_gt (js_sub (VNum (Num (now w1))) (getOpt data "created")) expiry
        = false ->
        Vidazoo.getUniqueDealId key expiry w1 = (Ok id, tick w1)
        /\ storage (tick w1) = storage w1)
    /\ (cells (storage w) !! ("u_" +:+ key) = None ->
        id = VStr (key +:+ "_" +:+ decimal (now w))
        /\ data = VObj [("value", id);
                        ("created", VNum (Num (now (tick w))))]
        /\ (now w1 - now (tick w) <= expiry ->
              Vidazoo.getUniqueDealId key expiry w1 = (Ok id, tick w1))).
Proof.
  intros Hr Hw. rewrite getUniqueDealId_run. cbv zeta. rewrite Hr.
  destruct (staleId (Vidazoo.tryParseJSON (cells (storage w) !! ("u_" +:+ key)))
              (now w) expiry) eqn:Hstale.
  - rewrite setStorageItem_run. cbn [truthy storage tick]. rewrite Hw.
    cbv zeta. cbn [snd].
    set (id := VStr (key +:+ "_" +:+ decimal (now w))).
    set (w1 := store _ _ _).
    assert (cells (storage w1) !! ("u_" +:+ key)
            = Some (Doc (VObj [("value", id);
                               ("created", VNum (Num (now (tick w))))])))
      as Hcell by apply lookup_insert_eq.
    assert (forall b,
              num_gt (js_sub (VNum (Num (now w1)))
                        (VNum (Num (now (tick w))))) expiry = b ->
              b = false ->
              Vidazoo.getUniqueDealId key expiry w1 = (Ok id, tick w1))
      as Hagain.
    { intros b Hb ->. rewrite getUniqueDealId_run. cbv zeta.
      replace (readThrows (storage w1) ("u_" +:+ key)) with false by done.
      rewrite Hcell. unfold staleId. cbn [Vidazoo.tryParseJSON JSON_parse].
      replace (getOpt _ "created") with (VNum (Num (now (tick w)))) by done.
      replace (getOpt _ "value") with id by done.
      assert (truthy id = true) as -> by apply identifier_truthy.
      by rewrite Hb. }
    eexists id, w1, _. split; [done|]. split; [exact Hcell|]. split.
    + intros Hwin. split; [|done]. by eapply Hagain.
    + intros _. split; [done|]. split; [done|]. intros Hwin.
      eapply Hagain; [done|]. simpl. apply Z.ltb_ge. done.
  - unfold staleId in Hstale.
    apply orb_false_iff in Hstale as [Hstale Hold].
    apply orb_false_iff in Hstale as [Hdata Hvalue].
    apply negb_false_iff in Hdata, Hvalue.
    destruct (cells (storage w) !! ("u_" +:+ key)) as [[s|data]|] eqn:Hcell;
      cbn [Vidazoo.tryParseJSON JSON_parse cell_text] in *; try done.
    { exfalso. revert Hvalue. unfold getOpt. simpl.
      by rewrite array_index_named. }
    exists (getOpt data "value"), (tick w), data.
    split; [done|]. split; [exact Hcell|]. split; [|done].
    intros Hwin. split; [|done].
    rewrite getUniqueDealId_run. cbv zeta. cbn [storage tick].
    rewrite Hr, Hcell.
    unfold staleId. cbn [Vidazoo.tryParseJSON JSON_parse].
    by rewrite Hdata, Hvalue, Hwin.
Qed.
End Stored.

(** *** User syncs *)

Lemma string_app_assoc (a b c : string) : (a +:+ b) +:+ c = a +:+ (b +:+ c).
Proof.
  induction a as [|x a IH]; [done|].
  change (String x ((a +:+ b) +:+ c) = String x (a +:+ (b +:+ c))).
  by rewrite IH.
Qed.

Lemma strict_eq_counted a b :
  countedId a = true -> countedId b = true ->
  strict_eq a b = true <-> a = b.
Proof.
  destruct a as [| |[]|[|x]|x| | |], b as [| |[]|[|y]|y| | |]; simpl;
    try done; intros _ _.
  - rewrite Z.eqb_eq. split; congruence.
  - rewrite String.eqb_eq. split; congruence.
Qed.

Lemma seen_before pre x :
  Forall (fun v => countedId v = true) pre -> countedId x = true ->
  existsb (fun p => strict_eq p x) pre = true <-> In x pre.
Proof.
  intros Hpre Hx. rewrite existsb_exists. split.
  - intros (p & Hp & E). apply strict_eq_counted in E; [by subst| |done].
    rewrite Forall_forall in Hpre. apply Hpre. by apply list_elem_of_In.
  - intros Hin. exists x. split; [done|]. by apply strict_eq_counted.
Qed.

Lemma indexOf_from_seen i x pre rest :
  existsb (fun p => strict_eq p x) pre = true ->
  exists j, (j < i + length pre)%nat
            /\ indexOf_from i x (pre ++ rest) = Some j.
Proof.
  revert i. induction pre as [|p pre IH]; intros i; simpl; [done|].
  destruct (strict_eq p x); simpl.
  - intros _. exists i. split; [lia|done].
  - intros Hpre. destruct (IH (S i) Hpre) as (j & Hj & ->).
    exists j. split; [lia|done].
Qed.

Lemma indexOf_from_unseen i x pre rest :
  existsb (fun p => strict_eq p x) pre = false ->
  indexOf_from i x (pre ++ rest) = indexOf_from (i + length pre) x rest.
Proof.
  revert i. induction pre as [|p pre IH]; intros i; simpl.
  - intros _. by rewrite Nat.add_0_r.
  - destruct (strict_eq p x); simpl; [done|]. intros Hpre.
    rewrite (IH _ Hpre). f_equal. lia.
Qed.

(** [uniques] holds of an element exactly where it occurs first. *)
Lemma uniques_first pre x rest :
  countedId x = true ->
  uniques x (length pre) (pre ++ x :: rest)
  = negb (existsb (fun p => strict_eq p x) pre).
Proof.
  intros Hx. unfold uniques, indexOf.
  destruct (existsb (fun p => strict_eq p x) pre) eqn:E.
  - destruct (indexOf_from_seen 0 x pre (x :: rest) E) as (j & Hj & ->).
    simpl. apply bool_decide_eq_false_2. intros [= ->]. lia.
  - rewrite (indexOf_from_unseen 0 x pre (x :: rest) E). simpl.
    assert (strict_eq x x = true) as -> by (by apply strict_eq_counted).
    by apply bool_decide_eq_true_2.
Qed.

(** Filtering with [uniques] keeps every value once. *)
Lemma uniques_filter suf : forall pre,
  Forall (fun v => countedId v = true) (pre ++ suf) ->
  let kept :=
    filter_from (fun x i => uniques x i (pre ++ suf)) (length pre) suf in
  NoDup kept /\ (forall y, In y kept <-> In y suf /\ ~ In y pre).
Proof.
  induction suf as [|x suf IH]; intros pre Hall; simpl.
  - split; [constructor|]. tauto.
  - pose proof Hall as Hall'. apply Forall_app in Hall' as [Hpre Hsuf].
    apply Forall_cons in Hsuf as [Hx Hsuf].
    rewrite uniques_first by done.
    specialize (IH (pre ++ [x])%list).
    rewrite <- app_assoc, length_app in IH. simpl in IH.
    rewrite Nat.add_1_r in IH. destruct (IH Hall) as [Hnd Hin]. clear IH.
    assert (forall y, In y (pre ++ [x]) <-> In y pre \/ y = x) as Hsnoc.
    { intros y. rewrite in_app_iff. simpl. intuition. }
    destruct (existsb (fun p => strict_eq p x) pre) eqn:Hseen; simpl.
    + apply seen_before in Hseen; [|done..]. split; [done|].
      intros y. rewrite Hin, Hsnoc. split.
      * intros [Hy Hn]. split; [by right|]. tauto.
      * intros [[<- | Hy] Hn]; [done|]. split; [done|].
        intros [Hp | ->]; done.
    + assert (~ In x pre) as Hnew.
      { intros Hp. apply seen_before in Hp; [|done..]. congruence. }
      clear Hseen. rename Hnew into Hseen. split.
      * apply NoDup_cons. split; [|done]. rewrite list_elem_of_In, Hin, Hsnoc.
        tauto.
      * intros y. simpl. rewrite Hin, Hsnoc. split.
        -- intros [<- | [Hy Hn]]; [tauto|]. split; [by right|]. tauto.
        -- intros [[<- | Hy] Hn]; [by left|].
           destruct (strict_eq y x) eqn:E.
           ++ apply strict_eq_counted in E; [by left| |done].
              rewrite Forall_forall in Hsuf. apply Hsuf.
              by apply list_elem_of_In.
           ++ right. split; [done|]. intros [Hp | ->]; [done|].
              rewrite (proj2 (strict_eq_counted x x Hx Hx)) in E; done.
Qed.

Lemma string_app_nil_r (a : string) : a +:+ "" = a.
Proof.
  induction a as [|x a IH]; [done|].
  change (String x (a +:+ "") = String x a). by rewrite IH.
Qed.

Lemma falsy_no_property v k :
  truthy v = false -> named_key k = true -> k <> "length" ->
  getOpt v k = VUndef.
Proof.
  intros Hv Hk Hl. apply String.eqb_neq in Hl. unfold getOpt.
  destruct v as [| |[]|[|z]|s| | |]; simpl in *; try done.
  by rewrite Hl, array_index_named.
Qed.

Lemma deepAccess_cid resp : deepAccess resp ["body"; "cid"] VUndef = cidOf resp.
Proof.
  unfold deepAccess, cidOf. simpl.
  assert ((if truthy resp then getOpt resp "body" else VUndef)
          = getOpt resp "body") as ->.
  { destruct (truthy resp) eqn:E; [done|].
    by rewrite (falsy_no_property resp "body"). }
  assert ((if truthy (getOpt resp "body")
           then getOpt (getOpt resp "body") "cid" else VUndef)
          = getOpt (getOpt resp "body") "cid") as ->.
  { destruct (truthy (getOpt resp "body")) eqn:E; [done|].
    by rewrite (falsy_no_property _ "cid"). }
  by destruct (getOpt (getOpt resp "body") "cid").
Qed.

Section Syncs.
Context `{Runtime} `{Prebid} `{Constants} `{Browser}.

Lemma campaignIds_deduplicated responses :
  Forall (fun resp => primitive (cidOf resp) = true) responses ->
  exists cidArr,
    Vidazoo.campaignIds (VArr responses) = Ok cidArr
    /\ NoDup cidArr
    /\ (forall x, In x cidArr <->
          truthy x = true
          /\ exists resp, In resp responses /\ cidOf resp = x).
Proof.
  intros Hprim. unfold Vidazoo.campaignIds. eexists. split; [done|].
  set (cids := map _ _).
  assert (forall x, In x cids <->
            truthy x = true
            /\ exists resp, In resp responses /\ cidOf resp = x) as Hcids.
  { intros x. unfold cids. rewrite in_map_iff. split.
    - intros (resp & <- & Hin). apply filter_In in Hin as [Hin Ht].
      rewrite deepAccess_cid in Ht. eauto.
    - intros (Ht & resp & Hin & <-). exists resp. split; [done|].
      apply filter_In. by rewrite deepAccess_cid. }
  assert (Forall (fun v => countedId v = true) cids) as Hcounted.
  { apply Forall_forall. intros x Hx%list_elem_of_In%Hcids.
    destruct Hx as (Ht & resp & Hin & <-). unfold countedId.
    rewrite Ht. rewrite Forall_forall in Hprim.
    by rewrite (Hprim resp) by (by apply list_elem_of_In). }
  destruct (uniques_filter cids [] Hcounted) as [Hnd Hin].
  split; [exact Hnd|]. intros x. unfold array_filter.
  rewrite (Hin x), Hcids. simpl. tauto.
Qed.

Lemma optional_string v :
  ToString (js_or (Vidazoo.or_default v (VStr "")) (VStr ""))
  = if truthy v then ToString v else "".
Proof. destruct v as [| |[]|[|z]|s| | |]; simpl; try done.
  - unfold js_or. simpl. by destruct (z =? 0).
  - unfold js_or. simpl. by destruct (String.eqb s "") eqn:E.
Qed.

Lemma pushSync_syncOf syncs enabled options urlKey type params :
  Vidazoo.pushSync syncs enabled (VObj options) urlKey type params
  = Ok (syncs
        ++ syncOf type enabled (getOpt (VObj options) urlKey) params)%list.
Proof.
  unfold Vidazoo.pushSync, syncOf. destruct (truthy enabled); simpl.
  - change (getOpt (VObj options) urlKey)
      with (default VUndef (obj_get urlKey options)).
    destruct (truthy (default VUndef (obj_get urlKey options)));
      by rewrite ?app_nil_r.
  - by rewrite app_nil_r.
Qed.

(** C8.  For sync options, consent objects and configured URLs given as
    objects, responses whose campaign ids are primitive values, and
    applicable sections that are an array or absent: an iframe descriptor
    is produced exactly when [iframeEnabled] is set and an iframe URL is
    configured, an image descriptor exactly when [pixelEnabled] is set and
    an image URL is configured, and every URL produced ends with the same
    query string, built from the campaign ids of the responses, each kept
    once, the GDPR flag, the consent string and the US-privacy string, with
    the GPP parameters exactly when there is a GPP string and at least one
    applicable section. *)
Theorem getUserSyncs_urls
    (options syncOptions gdprConsent gppConsent : list (string * JsVal))
    (responses : list JsVal) (uspConsent : JsVal) :
  let query cidArr :=
    syncQuery cidArr (getOpt (VObj gdprConsent) "gdprApplies")
      (getOpt (VObj gdprConsent) "consentString") uspConsent
      (getOpt (VObj gppConsent) "gppString")
      (getOpt (VObj gppConsent) "applicableSections") in
  Forall (fun resp => primitive (cidOf resp) = true) responses ->
  sectionList (getOpt (VObj gppConsent) "applicableSections") = true ->
  exists cidArr,
    Vidazoo.campaignIds (VArr responses) = Ok cidArr
    /\ NoDup cidArr
    /\ (forall x, In x cidArr <->
          truthy x = true
          /\ exists resp, In resp responses /\ cidOf resp = x)
    /\ Vidazoo.createUserSyncGetter (VObj options) (VObj syncOptions)
         (VArr responses) (VObj gdprConsent) uspConsent (VObj gppConsent)
       = Ok (syncOf "iframe" (getOpt (VObj syncOptions) "iframeEnabled")
               (getOpt (VObj options) "iframeSyncUrl") (query cidArr)
             ++ syncOf "image" (getOpt (VObj syncOptions) "pixelEnabled")
                  (getOpt (VObj options) "imageSyncUrl") (query cidArr))%list.
Proof.
  intros query Hprim Hsections.
  destruct (campaignIds_deduplicated responses Hprim)
    as (cidArr & Hids & Hnd & Hin).
  exists cidArr. split; [exact Hids|]. split; [exact Hnd|].
  split; [exact Hin|].
  unfold Vidazoo.createUserSyncGetter. cbv zeta.
  cbn [Vidazoo.or_default getProp rbind]. rewrite Hids. cbn [rbind].
  change (default VUndef (obj_get "gdprApplies" gdprConsent))
    with (getOpt (VObj gdprConsent) "gdprApplies").
  change (default VUndef (obj_get "consentString" gdprConsent))
    with (getOpt (VObj gdprConsent) "consentString").
  change (default VUndef (obj_get "gppString" gppConsent))
    with (getOpt (VObj gppConsent) "gppString").
  change (default VUndef (obj_get "applicableSections" gppConsent))
    with (getOpt (VObj gppConsent) "applicableSections").
  change (default VUndef (obj_get "iframeEnabled" syncOptions))
    with (getOpt (VObj syncOptions) "iframeEnabled").
  change (default VUndef (obj_get "pixelEnabled" syncOptions))
    with (getOpt (VObj syncOptions) "pixelEnabled").
  rewrite !optional_string.
  set (base := "?cid=" +:+ _).
  assert (exists params,
    (if truthy (getOpt (VObj gppConsent) "gppString")
        && truthy (getOpt (getOpt (VObj gppConsent) "applicableSections")
                     "length")
     then
       rbind (Vidazoo.method_join
                (getOpt (VObj gppConsent) "applicableSections") ",")
         (fun sections =>
            Ok ((base +:+ "&gpp="
                 +:+ encodeURIComponent
                       (ToString (getOpt (VObj gppConsent) "gppString")))
                +:+ "&gpp_sid=" +:+ encodeURIComponent sections))
     else Ok base) = Ok params /\ params = query cidArr)
    as (params & -> & ->).
  { set (gppPart :=
      match getOpt (VObj gppConsent) "applicableSections" with
      | VArr (section :: others) =>
          if truthy (getOpt (VObj gppConsent) "gppString") then
            "&gpp="
            +:+ encodeURIComponent
                  (ToString (getOpt (VObj gppConsent) "gppString"))
            +:+ "&gpp_sid="
            +:+ encodeURIComponent (array_join "," (section :: others))
          else ""
      | _ => ""
      end).
    assert (query cidArr = base +:+ gppPart) as ->.
    { unfold query, syncQuery, base. fold gppPart.
      by rewrite !string_app_assoc. }
    unfold gppPart. clearbody base. clear gppPart.
    destruct (getOpt (VObj gppConsent) "applicableSections")
      as [| | | | |[|section others]| |]; try done; simpl;
      rewrite ?andb_false_r; try (exists base; by rewrite string_app_nil_r).
    destruct (truthy (getOpt (VObj gppConsent) "gppString")); simpl.
    - eexists. split; [done|]. by rewrite !string_app_assoc.
    - exists base. by rewrite string_app_nil_r. }
  cbn [rbind]. rewrite !pushSync_syncOf. cbn [rbind].
  by rewrite pushSync_syncOf.
Qed.
End Syncs.

(** *** The properties on the sample host *)

(** The counter at work with an expiry of 2: two calls return 1 and 2, and the
    third, made after the window has closed, returns 1 again. *)
Lemma getNextDealId_counts_on_sample :
  (dealIds (H := Sample.runtime) 2 "deal" 2 emptyWorld).1
  = [Ok (VNum (Num 1)); Ok (VNum (Num 2))]
  /\ (Vidazoo.getNextDealId (H := Sample.runtime) "deal" 2
        (dealIds (H := Sample.runtime) 2 "deal" 2 emptyWorld).2).1
     = Ok (VNum (Num 1)).
Proof.
  destruct (getNextDealId_counts (H := Sample.runtime) "deal" 2 emptyWorld
              eq_refl eq_refl) as (_ & _ & Hrun).
  assert (forall i, (0 < i < 2)%nat ->
            clock emptyWorld (ticks emptyWorld + i) - now emptyWorld < 2)
    as Hwin.
  { intros i Hi. assert (i = 1%nat) as -> by lia. by vm_compute. }
  destruct (Hrun 2%nat eq_refl ltac:(by vm_compute) Hwin) as [Hids Hlate].
  split.
  - by rewrite Hids.
  - apply Hlate; [lia|]. by vm_compute.
Defined.

(** C5 as stated fails: storage that cannot be read makes the call return 1,
    not 0. *)
Lemma failed_read_returns_one :
  readThrows brokenStorage "deal" = true
  /\ (Vidazoo.getNextDealId (H := Sample.runtime) "deal" 1000
        (Sample.world brokenStorage)).1
     = Ok (VNum (Num 1)).
Proof. by vm_compute. Qed.

(** The identifier at work: made at time 1000 for the key ["page"], and
    returned again by the next call. *)
Lemma getUniqueDealId_stable_on_sample :
  exists id w1,
    Vidazoo.getUniqueDealId (H := Sample.runtime) "page" 1000 emptyWorld
    = (Ok id, w1)
    /\ id = VStr "page_1000"
    /\ Vidazoo.getUniqueDealId (H := Sample.runtime) "page" 1000 w1
       = (Ok id, tick w1).
Proof.
  destruct (getUniqueDealId_stable (H := Sample.runtime) "page" 1000
              emptyWorld eq_refl eq_refl)
    as (id & w1 & data & Hfirst & _ & _ & Hfresh).
  destruct (Hfresh eq_refl) as (Hid & _ & Hagain).
  exists id, w1. split; [exact Hfirst|]. split; [exact Hid|].
  apply Hagain. vm_compute in Hfirst. injection Hfirst as _ <-.
  by vm_compute.
Defined.

(** The sync getter at work: one image descriptor, the campaign ids once each,
    and no GPP parameters since no section applies. *)
Lemma getUserSyncs_urls_on_sample :
  Vidazoo.createUserSyncGetter (H := Sample.runtime) (VObj pixelUrl)
    (VObj pixelOnly) (VArr responsesWithCids) (VObj gdprGiven) (VStr "1YNN")
    (VObj gppWithoutSections)
  = Ok [VObj [("type", VStr "image");
              ("url",
               VStr ("https://sync.example/?cid=c1,c2&gdpr=1"
                     +:+ "&gdpr_consent=abc&us_privacy=1YNN"))]].
Proof.
  destruct (getUserSyncs_urls (H := Sample.runtime) pixelUrl pixelOnly
              gdprGiven gppWithoutSections responsesWithCids (VStr "1YNN"))
    as (cidArr & Hids & _ & _ & ->).
  - repeat constructor.
  - reflexivity.
  - vm_compute in Hids. injection Hids as <-. by vm_compute.
Defined.


(** ** Further properties *)

(** *** Orbidder: the host name and the requests built *)

Section MoreOrbidder.
Context `{Runtime} `{Prebid}.

(** X1.  [getHostname] never raises and never changes the world, whether the
    storage can be read or not, and the host name it returns is a string that
    is not empty: the text stored under ['ov_orbidder_host'] if there is one
    that is not empty, the adapter's own host name otherwise, and in
    particular when reading the storage raises. *)
Theorem getHostname_never_empty (w : World) :
  exists s,
    Orbidder.getHostname w = (Ok (VStr s), w)
    /\ s <> ""
    /\ (readThrows (storage w) "ov_orbidder_host" = true
        \/ cells (storage w) !! "ov_orbidder_host" = None
        \/ cells (storage w) !! "ov_orbidder_host" = Some (Raw "") ->
        s = Orbidder.hostname)
    /\ (forall text,
          readThrows (storage w) "ov_orbidder_host" = false ->
          cells (storage w) !! "ov_orbidder_host" = Some (Raw text) ->
          text <> "" -> s = text).
Proof.
  unfold Orbidder.getHostname, try_catch, bind, getDataFromLocalStorage, ret.
  destruct (readThrows (storage w) "ov_orbidder_host") eqn:Hr.
  { exists Orbidder.hostname. repeat split; try done. }
  destruct (cells (storage w) !! "ov_orbidder_host") as [[text|v]|] eqn:Hc;
    unfold js_or; cbn [cell_text truthy].
  - destruct (String.eqb text "") eqn:E; cbn [negb].
    + apply String.eqb_eq in E. subst text.
      exists Orbidder.hostname. repeat split; try done.
      intros text _ [= <-]. done.
    + apply String.eqb_neq in E. exists text. repeat split; try done.
      * intros [?|[?|?]]; congruence.
      * intros ? _ [= ->]. done.
  - destruct (String.eqb (JSON_text v) "") eqn:E; cbn [negb].
    + exists Orbidder.hostname. repeat split; try done.
    + apply String.eqb_neq in E. exists (JSON_text v).
      repeat split; try done. intros [?|[?|?]]; done.
  - exists Orbidder.hostname. repeat split; try done.
Qed.

Lemma obj_get_keys k ps : is_Some (obj_get k ps) <-> In k (keysOf ps).
Proof.
  induction ps as [|[k' v'] ps IH]; simpl.
  - split; [by intros [? ?]|done].
  - destruct (String.eqb k k') eqn:E.
    + apply String.eqb_eq in E. subst. split; [by left|by eexists].
    + apply String.eqb_neq in E. rewrite IH. split; [by right|].
      intros [?|?]; [congruence|done].
Qed.

Lemma keys_obj_set k v ps k' :
  In k' (keysOf (obj_set k v ps)) <-> k' = k \/ In k' (keysOf ps).
Proof.
  induction ps as [|[k0 v0] ps IH]; simpl.
  - intuition.
  - destruct (String.eqb k k0) eqn:E; simpl.
    + apply String.eqb_eq in E. subst. intuition.
    + rewrite IH. intuition.
Qed.

Lemma NoDup_obj_set k v ps :
  NoDup (keysOf ps) -> NoDup (keysOf (obj_set k v ps)).
Proof.
  induction ps as [|[k0 v0] ps IH]; simpl; intros Hnd.
  - apply NoDup_cons. split; [by intros ?%elem_of_nil|constructor].
  - apply NoDup_cons in Hnd as [Hk0 Hnd].
    destruct (String.eqb k k0) eqn:E; simpl.
    + apply String.eqb_eq in E. subst. by apply NoDup_cons.
    + apply String.eqb_neq in E. apply NoDup_cons. split; [|by apply IH].
      rewrite list_elem_of_In, keys_obj_set. rewrite list_elem_of_In in Hk0.
      intros [?|?]; [congruence|done].
Qed.

(** What an object spread copies into a property list. *)
Lemma spread_lookup k es : forall base,
  NoDup (keysOf es) ->
  obj_get k (fold_left (fun acc kv => obj_set kv.1 kv.2 acc) es base)
  = match obj_get k es with
    | Some v => Some v
    | None => obj_get k base
    end.
Proof.
  induction es as [|[k0 v0] es IH]; intros base Hnd; simpl; [done|].
  apply NoDup_cons in Hnd as [Hk0 Hnd]. rewrite (IH _ Hnd).
  destruct (String.eqb k k0) eqn:E.
  - apply String.eqb_eq in E. subst k0.
    assert (obj_get k es = None) as Hnone.
    { destruct (obj_get k es) eqn:Hg; [|done]. exfalso.
      apply Hk0, list_elem_of_In, obj_get_keys. simpl. rewrite Hg. eauto. }
    rewrite Hnone. apply obj_get_set_eq.
  - apply String.eqb_neq in E. destruct (obj_get k es); [done|].
    apply obj_get_set_ne. congruence.
Qed.

Lemma refererOf_referer bidderRequest :
  (if truthy (js_and bidderRequest (getOpt bidderRequest "refererInfo"))
   then js_or (getOpt (getOpt bidderRequest "refererInfo") "page") (VStr "")
   else VStr "")
  = refererOf bidderRequest.
Proof.
  unfold refererOf, js_and, js_or.
  destruct (truthy bidderRequest) eqn:Hb.
  - destruct (truthy (getOpt bidderRequest "refererInfo")) eqn:Hr; [done|].
    by rewrite (falsy_no_property _ "page" Hr).
  - rewrite Hb, (falsy_no_property _ "refererInfo" Hb) by done.
    by rewrite (falsy_no_property VUndef "page").
Qed.

(** What the callback returns for a valid bid request: the bid request as
    [leftAs] describes it, and a request whose data are the properties of
    that bid request spread over [v] and [pageUrl], with the consent object
    put last. *)
Lemma buildRequest_result hostname bidderRequest bid :
  (forall f this args, exists v, callFn f this args = Ok v) ->
  Orbidder.isBidRequestValid bid = Ok true ->
  properObject bid ->
  exists ps',
    properObject (VObj ps')
    /\ Orbidder.buildRequest hostname bidderRequest bid
       = Ok (VObj ps',
             httpRequest hostname
               (let data :=
                  fold_left (fun acc kv => obj_set kv.1 kv.2 acc) ps'
                    [("v", VStr ("v" +:+ prebid_version));
                     ("pageUrl", refererOf bidderRequest)] in
                match consentOf bidderRequest with
                | Some consent => obj_set "gdprConsent" consent data
                | None => data
                end)).
Proof.
  intros Hcall Hv Hproper.
  destruct (valid_bid_shape _ Hv) as (ps & pps & -> & Hp).
  unfold Orbidder.buildRequest. rewrite video_deleted. cbn [rbind].
  destruct (withoutVideo_shape ps) as (ps1 & E1 & Hsame & _ & _).
  assert (obj_get "params" ps1 = Some (VObj pps)) as Hp1
    by (by rewrite Hsame).
  assert (NoDup (keysOf ps1)) as Hnd1.
  { revert E1. unfold withoutVideo.
    destruct (truthy (getOpt (getOpt (VObj ps) "mediaTypes") "video"));
      intros [= <-]; [by apply NoDup_obj_set|done]. }
  rewrite E1. destruct (getBidFloor_returns ps1 pps Hcall Hp1) as [floor ->].
  cbn [rbind getProp]. rewrite Hp1. cbn [default rbind setProp].
  eexists. split; [apply NoDup_obj_set, Hnd1|].
  rewrite refererOf_referer. unfold httpRequest, spread_into, own_entries.
  do 6 f_equal. unfold consentOf, js_and.
  destruct (truthy bidderRequest) eqn:Hb.
  - destruct (truthy (getOpt bidderRequest "gdprConsent")); [|done].
    do 5 f_equal.
    by destruct (getOpt (getOpt bidderRequest "gdprConsent") "gdprApplies")
      as [| |[]| | | | |].
  - rewrite Hb, (falsy_no_property _ "gdprConsent" Hb) by done. done.
Qed.

Lemma request_data k ps' base bidderRequest :
  NoDup (keysOf ps') ->
  obj_get "gdprConsent" base = None ->
  getOpt
    (VObj (let data :=
             fold_left (fun acc kv => obj_set kv.1 kv.2 acc) ps' base in
           match consentOf bidderRequest with
           | Some consent => obj_set "gdprConsent" consent data
           | None => data
           end)) k
  = match consentOf bidderRequest with
    | Some consent =>
        if String.eqb k "gdprConsent" then consent
        else default (getOpt (VObj base) k) (obj_get k ps')
    | None => default (getOpt (VObj base) k) (obj_get k ps')
    end.
Proof.
  intros Hnd Hbase. cbv zeta.
  assert (getOpt
            (VObj (fold_left (fun acc kv => obj_set kv.1 kv.2 acc) ps' base)) k
          = default (getOpt (VObj base) k) (obj_get k ps')) as Hdata.
  { rewrite !getOpt_obj, spread_lookup by done.
    by destruct (obj_get k ps'). }
  destruct (consentOf bidderRequest) as [consent|]; [|done].
  destruct (String.eqb k "gdprConsent") eqn:E.
  - apply String.eqb_eq in E. subst. by rewrite getOpt_obj, obj_get_set_eq.
  - apply String.eqb_neq in E. rewrite <- Hdata, !getOpt_obj.
    rewrite obj_get_set_ne; [done|congruence].
Qed.

Lemma buildRequests_built (validBidRequests : list JsVal)
    (bidderRequest : JsVal) (w : World) (P : JsVal -> JsVal -> Prop) :
  convertOrtbRequestToProprietaryNative validBidRequests = validBidRequests ->
  (forall hostname,
     Orbidder.getHostname w = (Ok hostname, w) ->
     Forall (fun bid =>
               exists y,
                 Orbidder.buildRequest hostname bidderRequest bid = Ok y
                 /\ P y.1 y.2) validBidRequests) ->
  exists after requests,
    Orbidder.buildRequests validBidRequests bidderRequest w
    = (Ok (after, requests), w)
    /\ Forall2 P after requests.
Proof.
  intros Hconv Hall.
  unfold Orbidder.buildRequests. rewrite Hconv. unfold bind at 1.
  destruct (getHostname_reads w) as [hostname Hhost]. rewrite Hhost.
  destruct (mapR_Forall _ (fun _ y => P y.1 y.2) _ (Hall _ Hhost))
    as (built & Hbuilt & HP).
  unfold bind, lift, ret. rewrite Hbuilt.
  exists (map fst built), (map snd built). split; [done|].
  apply Forall2_fmap, Forall_Forall2_diag.
  by eapply Forall2_Forall_r; [exact HP|apply Forall_forall].
Qed.

(** X2.  What [buildRequests] sends for valid bid requests: one POST request
    with credentials to the bid endpoint of the host name per bid request,
    whose data carry every property of the bid request as the call leaves it
    (the consent object apart), with the version and the referring page as
    defaults that a property of the bid request of the same name overrides. *)
Theorem buildRequests_transmits (validBidRequests : list JsVal)
    (bidderRequest : JsVal) (w : World) :
  convertOrtbRequestToProprietaryNative validBidRequests = validBidRequests ->
  (forall f this args, exists v, callFn f this args = Ok v) ->
  Forall (fun bid => Orbidder.isBidRequestValid bid = Ok true)
    validBidRequests ->
  Forall properObject validBidRequests ->
  exists hostname after requests,
    Orbidder.getHostname w = (Ok hostname, w)
    /\ Orbidder.buildRequests validBidRequests bidderRequest w
       = (Ok (after, requests), w)
    /\ Forall2 (carries hostname bidderRequest) after requests.
Proof.
  intros Hconv Hcall Hvalid Hproper.
  destruct (getHostname_reads w) as [hostname Hhost]. exists hostname.
  destruct (buildRequests_built validBidRequests bidderRequest w
    (carries hostname bidderRequest) Hconv) as (after & requests & Hrun & Hall).
  { intros h Hh. assert (h = hostname) as -> by congruence.
    apply Forall_forall. intros bid Hin.
    rewrite Forall_forall in Hvalid, Hproper.
    destruct (buildRequest_result hostname bidderRequest bid Hcall
                (Hvalid _ Hin) (Hproper _ Hin)) as (ps' & Hnd & ->).
    eexists. split; [done|]. cbn [fst snd]. unfold carries.
    split; [done|]. split; [done|]. split; [done|].
    assert (forall k,
              k <> "gdprConsent" ->
              getOpt (getOpt (httpRequest hostname
                (let data :=
                   fold_left (fun acc kv => obj_set kv.1 kv.2 acc) ps'
                     [("v", VStr ("v" +:+ prebid_version));
                      ("pageUrl", refererOf bidderRequest)] in
                 match consentOf bidderRequest with
                 | Some consent => obj_set "gdprConsent" consent data
                 | None => data
                 end)) "data") k
              = default
                  (getOpt (VObj [("v", VStr ("v" +:+ prebid_version));
                                 ("pageUrl", refererOf bidderRequest)]) k)
                  (obj_get k ps')) as Hdata.
    { intros k Hk. apply String.eqb_neq in Hk.
      change (getOpt (httpRequest hostname ?d) "data") with (VObj d).
      rewrite request_data, Hk by done.
      by destruct (consentOf bidderRequest). }
    cbv zeta in Hdata. split; [|split].
    - intros k Hk Hown. rewrite (Hdata _ Hk), (getOpt_obj ps').
      simpl in Hown. apply bool_decide_eq_true in Hown as [v ->]. done.
    - intros Hown. rewrite Hdata by done.
      simpl in Hown. apply bool_decide_eq_false in Hown.
      destruct (obj_get "v" ps'); [by destruct Hown|done].
    - intros Hown. rewrite Hdata by done.
      simpl in Hown. apply bool_decide_eq_false in Hown.
      destruct (obj_get "pageUrl" ps'); [by destruct Hown|done]. }
  by exists after, requests.
Qed.

(** X3.  The consent [buildRequests] reports with every request: when the
    bidder request has a consent object, its consent string together with a
    boolean that is [true] exactly when [gdprApplies] is the boolean [true]
    (any other value, such as the number 1, gives [false]); the bid request's
    own [gdprConsent] is sent only when the bidder request has none. *)
Theorem buildRequests_consent (validBidRequests : list JsVal)
    (bidderRequest : JsVal) (w : World) :
  convertOrtbRequestToProprietaryNative validBidRequests = validBidRequests ->
  (forall f this args, exists v, callFn f this args = Ok v) ->
  Forall (fun bid => Orbidder.isBidRequestValid bid = Ok true)
    validBidRequests ->
  Forall properObject validBidRequests ->
  exists after requests,
    Orbidder.buildRequests validBidRequests bidderRequest w
    = (Ok (after, requests), w)
    /\ Forall2 (reportsConsent bidderRequest) after requests.
Proof.
  intros Hconv Hcall Hvalid Hproper.
  apply (buildRequests_built _ _ _ _ Hconv).
  intros hostname _. apply Forall_forall. intros bid Hin.
  rewrite Forall_forall in Hvalid, Hproper.
  destruct (buildRequest_result hostname bidderRequest bid Hcall
              (Hvalid _ Hin) (Hproper _ Hin)) as (ps' & Hnd & ->).
  eexists. split; [done|]. cbn [fst snd]. unfold reportsConsent.
  change (getOpt (httpRequest hostname ?d) "data") with (VObj d).
  rewrite request_data by done. rewrite (getOpt_obj ps').
  destruct (consentOf bidderRequest); [done|].
  by destruct (obj_get "gdprConsent" ps').
Qed.
End MoreOrbidder.

(** *** Orbidder: the responses interpreted *)

Section MoreInterpret.
Context `{Runtime} `{Prebid}.

Lemma obj_set_idem k v ps : obj_set k v (obj_set k v ps) = obj_set k v ps.
Proof.
  induction ps as [|[k0 v0] ps IH]; simpl.
  - by rewrite String.eqb_refl.
  - destruct (String.eqb k k0) eqn:E; simpl.
    + by rewrite String.eqb_refl.
    + by rewrite E, IH.
Qed.

Lemma hasAllKeys_same ps ps' keys :
  obj_get "hasOwnProperty" ps = None ->
  obj_get "hasOwnProperty" ps' = None ->
  (forall k, In k keys -> obj_get k ps' = obj_get k ps) ->
  Orbidder.hasAllKeys (VObj ps') keys = Orbidder.hasAllKeys (VObj ps) keys.
Proof.
  intros Hown Hown' Hsame. rewrite !hasAllKeys_verdict by done.
  f_equal. induction keys as [|k keys IH]; simpl; [done|].
  rewrite Hsame by (by left). f_equal. apply IH.
  intros k' Hk'. apply Hsame. by right.
Qed.

(** Validation does not look at [meta]. *)
Lemma valid_withMeta r :
  unshadowed r = true ->
  Orbidder.isBidResponseValid (withMeta r) = Orbidder.isBidResponseValid r.
Proof.
  destruct r as [| | | | | |ps|]; try done. unfold unshadowed, withMeta.
  intros Hown. apply negb_true_iff, bool_decide_eq_false in Hown.
  destruct (isArray (getOpt (VObj ps) "advertiserDomains")); [|done].
  assert (obj_get "hasOwnProperty" ps = None) as Hnone
    by (destruct (obj_get "hasOwnProperty" ps); [by destruct Hown|done]).
  set (m := VObj [("advertiserDomains", _)]).
  assert (forall k, k <> "meta" -> obj_get k (obj_set "meta" m ps)
                                   = obj_get k ps) as Hsame
    by (intros k Hk; apply obj_get_set_ne; congruence).
  unfold Orbidder.isBidResponseValid. cbn [getProp rbind].
  rewrite !Hsame by done.
  rewrite !(hasAllKeys_same ps (obj_set "meta" m ps)); try done.
  - by rewrite Hsame.
  - intros k Hk. apply Hsame. intros ->. simpl in Hk.
    by repeat (destruct Hk as [Hk|Hk]; [discriminate|]).
  - by rewrite Hsame.
  - intros k Hk. apply Hsame. intros ->. simpl in Hk.
    by repeat (destruct Hk as [Hk|Hk]; [discriminate|]).
Qed.

Lemma withMeta_idem r : withMeta (withMeta r) = withMeta r.
Proof.
  destruct r as [| | | | | |ps|]; try done. unfold withMeta at 2.
  destruct (isArray (getOpt (VObj ps) "advertiserDomains")) eqn:Ha.
  - unfold withMeta.
    assert (getOpt (VObj (obj_set "meta"
              (VObj [("advertiserDomains",
                      getOpt (VObj ps) "advertiserDomains")]) ps))
              "advertiserDomains"
            = getOpt (VObj ps) "advertiserDomains") as ->
      by (by rewrite !getOpt_obj, obj_get_set_ne).
    by rewrite Ha, obj_set_idem.
  - unfold withMeta. by rewrite Ha.
Qed.

Lemma interpret_array records :
  Forall (fun r => validates r = true) records ->
  Orbidder.interpretResponse (VObj [("body", VArr records)])
  = Ok (map withMeta (List.filter passes records)).
Proof.
  intros Hall. unfold Orbidder.interpretResponse. simpl.
  destruct records as [|r records]; [done|].
  replace (0 <? Z.of_nat (length (r :: records))) with true
    by (symmetry; apply Z.ltb_lt; simpl; lia).
  by rewrite (forEach_ok _ [] Hall).
Qed.

(** X4.  The verdict of [isBidResponseValid] on a record without a
    [hasOwnProperty] of its own.  A banner record is valid exactly when it
    has the six common keys and [width], [height] and [ad]; a native record
    whose [native] is an object exactly when that object has
    [impressionTrackers] and the record has the six common keys, and a
    native record whose [native] is [undefined] or [null] makes the check
    raise; a record of any other media type is invalid.  Only the presence
    of the keys counts, not their values. *)
Theorem isBidResponseValid_verdict (ps : list (string * JsVal)) :
  unshadowed (VObj ps) = true ->
  let present k := bool_decide (is_Some (obj_get k ps)) in
  (getOpt (VObj ps) "mediaType" = VStr "banner" ->
   Orbidder.isBidResponseValid (VObj ps)
   = Ok (forallb present
           ["requestId"; "cpm"; "ttl"; "creativeId"; "netRevenue"; "currency";
            "width"; "height"; "ad"]))
  /\ (forall native,
        getOpt (VObj ps) "mediaType" = VStr "native" ->
        getOpt (VObj ps) "native" = VObj native ->
        unshadowed (VObj native) = true ->
        Orbidder.isBidResponseValid (VObj ps)
        = Ok (bool_decide (is_Some (obj_get "impressionTrackers" native))
              && forallb present
                   ["requestId"; "cpm"; "ttl"; "creativeId"; "netRevenue";
                    "currency"]))
  /\ (getOpt (VObj ps) "mediaType" = VStr "native" ->
      nullish (getOpt (VObj ps) "native") = true ->
      Orbidder.isBidResponseValid (VObj ps) = Throw TypeError)
  /\ (getOpt (VObj ps) "mediaType" <> VStr "banner" ->
      getOpt (VObj ps) "mediaType" <> VStr "native" ->
      Orbidder.isBidResponseValid (VObj ps) = Ok false).
Proof.
  intros Hown present.
  assert (forall qs, unshadowed (VObj qs) = true ->
                     obj_get "hasOwnProperty" qs = None) as Hnone.
  { intros qs Hqs. apply negb_true_iff, bool_decide_eq_false in Hqs.
    destruct (obj_get "hasOwnProperty" qs); [by destruct Hqs|done]. }
  apply Hnone in Hown.
  unfold Orbidder.isBidResponseValid. cbn [getProp rbind].
  change (default VUndef (obj_get "mediaType" ps))
    with (getOpt (VObj ps) "mediaType").
  change (default VUndef (obj_get "native" ps))
    with (getOpt (VObj ps) "native").
  split; [|split; [|split]].
  - intros ->. cbn [strict_eq]. unfold Orbidder.BANNER.
    rewrite String.eqb_refl. by rewrite hasAllKeys_verdict.
  - intros native -> -> Hnative%Hnone. cbn [strict_eq].
    unfold Orbidder.BANNER, Orbidder.NATIVE.
    cbn [String.eqb Ascii.eqb Bool.eqb].
    cbn [hasOwnProperty]. rewrite Hnative. cbn [ownProperty rbind].
    destruct (bool_decide (is_Some (obj_get "impressionTrackers" native)));
      [|done].
    by rewrite hasAllKeys_verdict.
  - intros -> Hnull. cbn [strict_eq].
    unfold Orbidder.BANNER, Orbidder.NATIVE.
    cbn [String.eqb Ascii.eqb Bool.eqb].
    by destruct (getOpt (VObj ps) "native").
  - intros Hb%strict_eq_not_string Hn%strict_eq_not_string.
    unfold Orbidder.BANNER, Orbidder.NATIVE. by rewrite Hb, Hn.
Qed.

(** X5.  [interpretResponse] at its edges: a response that is [undefined] or
    [null] makes it raise; a falsy body (absent, [null], the empty string, 0)
    and an empty array give no bids; a body that is a non-empty string makes
    it raise, a string having no [forEach]. *)
Theorem interpretResponse_edges (serverResponse : JsVal) :
  (nullish serverResponse = true ->
   Orbidder.interpretResponse serverResponse = Throw TypeError)
  /\ (nullish serverResponse = false ->
      truthy (getOpt serverResponse "body") = false ->
      Orbidder.interpretResponse serverResponse = Ok [])
  /\ (getOpt serverResponse "body" = VArr [] ->
      Orbidder.interpretResponse serverResponse = Ok [])
  /\ (forall s,
        getOpt serverResponse "body" = VStr s -> s <> "" ->
        Orbidder.interpretResponse serverResponse = Throw TypeError).
Proof.
  unfold Orbidder.interpretResponse. split; [|split; [|split]].
  - intros Hn. by rewrite getProp_nullish.
  - intros Hn Hb. rewrite getProp_getOpt by done. cbn [rbind].
    by rewrite Hb.
  - intros Hb. assert (nullish serverResponse = false) as Hn
      by (by destruct serverResponse).
    rewrite getProp_getOpt by done. cbn [rbind]. by rewrite Hb.
  - intros s Hb Hs. assert (nullish serverResponse = false) as Hn
      by (by destruct serverResponse).
    rewrite getProp_getOpt by done. cbn [rbind]. rewrite Hb.
    by destruct s.
Qed.

(** X6.  What [interpretResponse] returns is valid and stable: given records
    that can all be validated and that do not define a [hasOwnProperty] of
    their own, every bid returned passes validation, and interpreting the
    array returned gives that array again. *)
Theorem interpretResponse_idempotent (records : list JsVal) :
  Forall (fun r => validates r = true) records ->
  Forall (fun r => unshadowed r = true) records ->
  exists bids,
    Orbidder.interpretResponse (VObj [("body", VArr records)]) = Ok bids
    /\ Forall (fun bid => passes bid = true) bids
    /\ Orbidder.interpretResponse (VObj [("body", VArr bids)]) = Ok bids.
Proof.
  intros Hall Hun. eexists. split; [by apply interpret_array|].
  assert (Forall (fun bid => passes bid = true)
            (map withMeta (List.filter passes records))) as Hpass.
  { apply Forall_fmap, Forall_forall. intros r Hr.
    apply list_elem_of_In, filter_In in Hr as [Hin Hr].
    rewrite Forall_forall in Hun. simpl. unfold passes in *.
    rewrite valid_withMeta; [done|]. by apply Hun, list_elem_of_In. }
  split; [done|]. rewrite interpret_array.
  - replace (List.filter passes (map withMeta (List.filter passes records)))
      with (map withMeta (List.filter passes records)).
    + rewrite map_map. f_equal. apply map_ext. intros r.
      apply withMeta_idem.
    + symmetry. apply forallb_filter_id. apply forallb_forall.
      intros b Hb. rewrite Forall_forall in Hpass.
      by apply Hpass, list_elem_of_In.
  - eapply Forall_impl; [exact Hpass|]. intros b. unfold passes, validates.
    by destruct (Orbidder.isBidResponseValid b) as [[]|].
Qed.
End MoreInterpret.

(** X4 at work: the banner response of the sample has all nine keys. *)
Lemma isBidResponseValid_verdict_on_sample :
  Orbidder.isBidResponseValid (H := Sample.runtime) Sample.bannerResponse
  = Ok true.
Proof.
  apply (isBidResponseValid_verdict (H := Sample.runtime)
           [("requestId", VStr "1"); ("cpm", VNum (Num 1));
            ("ttl", VNum (Num 60)); ("creativeId", VStr "c");
            ("netRevenue", VBool true); ("currency", VStr "EUR");
            ("mediaType", VStr "banner"); ("width", VNum (Num 300));
            ("height", VNum (Num 250)); ("ad", VStr "<div/>")]);
    reflexivity.
Defined.

(** X6 at work on the banner response of the sample. *)
Lemma interpretResponse_idempotent_on_sample :
  exists bids,
    Orbidder.interpretResponse (H := Sample.runtime)
      (VObj [("body", VArr [bannerWithMeta; VObj []])]) = Ok bids
    /\ Forall (fun bid => passes (H := Sample.runtime) bid = true) bids
    /\ Orbidder.interpretResponse (H := Sample.runtime)
         (VObj [("body", VArr bids)]) = Ok bids.
Proof.
  apply (interpretResponse_idempotent (H := Sample.runtime)
           [bannerWithMeta; VObj []]); by repeat constructor.
Defined.

(** *** Vidazoo: what is kept in storage *)

Section MoreStored.
Context `{Runtime} `{Prebid} `{Constants} `{Browser}.


Lemma sameBut_refl key w : sameBut key w w.
Proof. by repeat split. Qed.

Lemma sameBut_tick key w w' : sameBut key w w' -> sameBut key w (tick w').
Proof.
  intros (Hc & Hw & Hrt & Hwt & Hcl & Ht). repeat split; try done.
  simpl. lia.
Qed.

Lemma sameBut_store key c w w' :
  sameBut key w w' -> writeThrows (storage w) key = false ->
  sameBut key w (store key c w').
Proof.
  intros (Hc & Hw & Hrt & Hwt & Hcl & Ht) Hfree. repeat split; try done.
  - intros k Hk. simpl. rewrite lookup_insert_ne by done. by apply Hc.
  - intros Hthrows. congruence.
Qed.

Lemma sameBut_set key value timestamp w w' :
  sameBut key w w' ->
  sameBut key w (Vidazoo.setStorageItem key value timestamp w').2.
Proof.
  intros Hsame. rewrite setStorageItem_run. cbv zeta. cbn [snd].
  assert (writeThrows (storage w') key = writeThrows (storage w) key) as Hwt.
  { destruct Hsame as (_ & _ & _ & -> & _). done. }
  rewrite Hwt. destruct (writeThrows (storage w) key) eqn:Hfree.
  - destruct (truthy timestamp); [done|by apply sameBut_tick].
  - apply sameBut_store; [|done].
    destruct (truthy timestamp); [done|by apply sameBut_tick].
Qed.


(** X8.  [getStorageItem] never raises and never changes the world: it
    returns [null] when the read raises or nothing is stored, the document
    when the stored text is JSON, and the stored text itself when it is
    not. *)
Theorem getStorageItem_reads (key : string) (w : World) :
  exists v,
    Vidazoo.getStorageItem key w = (Ok v, w)
    /\ (readThrows (storage w) key = true
        \/ cells (storage w) !! key = None -> v = VNull)
    /\ (readThrows (storage w) key = false ->
        (forall d, cells (storage w) !! key = Some (Doc d) -> v = d)
        /\ (forall text,
              cells (storage w) !! key = Some (Raw text) -> v = VStr text)).
Proof.
  rewrite getStorageItem_run. eexists. split; [done|]. split.
  - intros [-> | Hc]; [done|]. rewrite Hc.
    by destruct (readThrows (storage w) key).
  - intros ->. by split; intros ? ->.
Qed.

(** X9.  The functions that write to storage never raise and touch the cell
    they are given only: [setStorageItem] and [getNextDealId] the cell of
    the key, [getUniqueDealId] the cell of the key prefixed with [u_].
    Every other cell, the clock and the behaviour of storage are as before,
    and a write that raises leaves all cells as they were. *)
Theorem writers_touch_one_cell (key : string) (value timestamp : JsVal)
    (expiry : Z) (w : World) :
  (exists w',
     Vidazoo.setStorageItem key value timestamp w = (Ok tt, w')
     /\ sameBut key w w')
  /\ (exists v w',
        Vidazoo.getNextDealId key expiry w = (Ok v, w')
        /\ sameBut key w w')
  /\ (exists v w',
        Vidazoo.getUniqueDealId key expiry w = (Ok v, w')
        /\ sameBut ("u_" +:+ key) w w').
Proof.
  split; [|split].
  - pose proof (sameBut_set key value timestamp w w (sameBut_refl _ _))
      as Hsame.
    revert Hsame. rewrite setStorageItem_run. cbn [snd]. eauto.
  - rewrite getNextDealId_run. cbv zeta. eexists _, _. split; [done|].
    apply sameBut_set.
    match goal with |- context [if ?b then tick w else w] => destruct b end;
      [apply sameBut_tick|]; apply sameBut_refl.
  - rewrite getUniqueDealId_run. cbv zeta.
    match goal with |- context [if ?b then _ else _] => destruct b end.
    + eexists _, _. split; [done|].
      apply sameBut_set, sameBut_tick, sameBut_refl.
    + eexists _, _. split; [done|]. apply sameBut_tick, sameBut_refl.
Qed.

(** X10.  The age at which [getUniqueDealId] gives up a stored identifier: one
    no older than [expiry] is returned and storage is left as it is, an age
    of exactly [expiry] included; an older one is replaced by an identifier
    made of the key and the time of the call, stored with the time of the
    write. *)
Theorem getUniqueDealId_expiry (key : string) (expiry : Z) (w : World)
    (id : string) (c : Z) :
  readThrows (storage w) ("u_" +:+ key) = false ->
  writeThrows (storage w) ("u_" +:+ key) = false ->
  cells (storage w) !! ("u_" +:+ key) = Some (idCell id c) ->
  id <> "" ->
  (now w - c <= expiry ->
   Vidazoo.getUniqueDealId key expiry w = (Ok (VStr id), tick w))
  /\ (expiry < now w - c ->
      Vidazoo.getUniqueDealId key expiry w
      = (Ok (VStr (key +:+ "_" +:+ decimal (now w))),
         store ("u_" +:+ key)
           (idCell (key +:+ "_" +:+ decimal (now w)) (now (tick w)))
           (tick (tick w)))).
Proof.
  intros Hr Hw Hc Hid. rewrite getUniqueDealId_run. cbv zeta.
  rewrite Hr, Hc. unfold staleId, idCell.
  cbn [Vidazoo.tryParseJSON JSON_parse].
  assert (truthy (VStr id) = true) as Hid'
    by (simpl; apply negb_true_iff, String.eqb_neq, Hid).
  change (getOpt (VObj [("value", VStr id); ("created", VNum (Num c))])
            "value") with (VStr id).
  change (getOpt (VObj [("value", VStr id); ("created", VNum (Num c))])
            "created") with (VNum (Num c)).
  rewrite Hid'. cbn [truthy negb orb js_sub ToNumber num_gt]. split.
  - intros Hage. by replace (expiry <? now w - c) with false
      by (symmetry; apply Z.ltb_ge; lia).
  - intros Hage. replace (expiry <? now w - c) with true
      by (symmetry; apply Z.ltb_lt; lia).
    rewrite setStorageItem_run. cbn [truthy storage tick]. by rewrite Hw.
Qed.

(** X11.  Without working storage [getUniqueDealId] does not remember: when
    the read raises, and when nothing is stored and the write raises, it
    returns an identifier made of the key and the time of the call, and the
    cells are as before, so the next call makes another one. *)
Theorem getUniqueDealId_unremembered (key : string) (expiry : Z) (w : World) :
  (readThrows (storage w) ("u_" +:+ key) = true
   \/ (cells (storage w) !! ("u_" +:+ key) = None
       /\ writeThrows (storage w) ("u_" +:+ key) = true) ->
   exists w',
     Vidazoo.getUniqueDealId key expiry w
     = (Ok (VStr (key +:+ "_" +:+ decimal (now w))), w')
     /\ (writeThrows (storage w) ("u_" +:+ key) = true ->
         storage w' = storage w)
     /\ readThrows (storage w') ("u_" +:+ key)
        = readThrows (storage w) ("u_" +:+ key)).
Proof.
  intros Hbroken. rewrite getUniqueDealId_run. cbv zeta.
  assert (staleId
            (if readThrows (storage w) ("u_" +:+ key) then VNull
             else Vidazoo.tryParseJSON (cells (storage w) !! ("u_" +:+ key)))
            (now w) expiry = true) as ->.
  { destruct Hbroken as [-> | [-> _]]; [done|].
    by destruct (readThrows (storage w) ("u_" +:+ key)). }
  rewrite setStorageItem_run. cbn [truthy storage tick snd]. cbv zeta.
  eexists. split; [done|]. split.
  - by intros ->.
  - by destruct (writeThrows (storage w) ("u_" +:+ key)).
Qed.

(** X12.  A stored counter whose value is text is not counted up: the call
    appends the character 1 to it, returns that text and stores it. *)
Theorem getNextDealId_appends_to_text (key : string) (expiry : Z) (w : World)
    (value : string) (c : Z) :
  readThrows (storage w) key = false ->
  writeThrows (storage w) key = false ->
  cells (storage w) !! key = Some (textCounter value c) ->
  value <> "" -> c <> 0 -> now w - c < expiry ->
  Vidazoo.getNextDealId key expiry w
  = (Ok (VStr (value +:+ "1")),
     store key (textCounter (value +:+ "1") c) (tick w)).
Proof.
  intros Hr Hw Hc Hv Hcr Hlive. rewrite getNextDealId_run, Hr, Hc.
  unfold liveCounter, textCounter. simpl.
  apply String.eqb_neq in Hv. apply Z.eqb_neq in Hcr.
  apply Z.ltb_lt in Hlive. rewrite Hv, Hlive. simpl.
  rewrite setStorageItem_run. simpl. by rewrite Hw, Hcr.
Qed.

(** X13.  [getVidazooSessionId] never raises and never changes the world;
    what it returns is truthy or the empty string: the empty string when
    the read raises or nothing is stored, the stored document when that is
    truthy. *)
Theorem getVidazooSessionId_reads (w : World) :
  exists v,
    Vidazoo.getVidazooSessionId w = (Ok v, w)
    /\ (truthy v = true \/ v = VStr "")
    /\ (readThrows (storage w) SESSION_ID_KEY = true
        \/ cells (storage w) !! SESSION_ID_KEY = None -> v = VStr "")
    /\ (forall d,
          readThrows (storage w) SESSION_ID_KEY = false ->
          cells (storage w) !! SESSION_ID_KEY = Some (Doc d) ->
          truthy d = true -> v = d).
Proof.
  unfold Vidazoo.getVidazooSessionId, bind. rewrite getStorageItem_run.
  unfold ret. eexists. split; [done|]. split; [|split].
  - unfold js_or.
    destruct (truthy (if readThrows (storage w) SESSION_ID_KEY then VNull
                      else Vidazoo.tryParseJSON
                             (cells (storage w) !! SESSION_ID_KEY))) eqn:E;
      [by left|by right].
  - intros [-> | Hc]; [done|]. rewrite Hc.
    by destruct (readThrows (storage w) SESSION_ID_KEY).
  - intros d -> -> Hd. cbn [Vidazoo.tryParseJSON JSON_parse]. unfold js_or.
    by rewrite Hd.
Qed.

Lemma decimal_truthy z : truthy (VStr (decimal z)) = true.
Proof.
  unfold decimal. destruct (Z.to_int z) as [d|d]; simpl.
  - by destruct d.
  - done.
Qed.

(** X14.  [getCacheOpt] has no handler of its own, so a read that raises
    reaches the caller.  With a key that can be read and written, and text
    for a stored number that is its decimal rendering, it returns a truthy
    text, and a second call returns that text again and changes nothing. *)
Theorem getCacheOpt_remembers (useKey : string) (w : World) :
  (forall z, JSON_text (VNum (Num z)) = decimal z) ->
  (readThrows (storage w) useKey = true ->
   Vidazoo.getCacheOpt useKey w = (Throw (Raised "storage"), w))
  /\ (readThrows (storage w) useKey = false ->
      writeThrows (storage w) useKey = false ->
      exists v w1,
        Vidazoo.getCacheOpt useKey w = (Ok v, w1)
        /\ truthy v = true
        /\ (cells (storage w) !! useKey = None ->
            v = VStr (decimal (now w)))
        /\ Vidazoo.getCacheOpt useKey w1 = (Ok v, w1)).
Proof.
  intros Htext. unfold Vidazoo.getCacheOpt. split.
  - intros Hr. unfold bind at 1. unfold getDataFromLocalStorage.
    by rewrite Hr.
  - intros Hr Hw. unfold bind at 1. unfold getDataFromLocalStorage at 1.
    rewrite Hr. cbv zeta.
    destruct (truthy (cell_text (cells (storage w) !! useKey))) eqn:Hhit;
      cbn [negb].
    + unfold ret. eexists _, _. split; [done|]. split; [done|]. split.
      * intros Hc. by rewrite Hc in Hhit.
      * unfold bind, getDataFromLocalStorage. by rewrite Hr, Hhit.
    + unfold bind at 1. unfold Date_now. unfold bind at 1.
      unfold setDataInLocalStorage. cbn [storage]. rewrite Hw. unfold ret.
      eexists _, _. split; [done|]. split; [apply decimal_truthy|].
      split; [done|].
      unfold bind at 1. unfold getDataFromLocalStorage. cbn [storage cells
        readThrows]. rewrite Hr, lookup_insert_eq. cbn [cell_text].
      by rewrite Htext, decimal_truthy.
Qed.
End MoreStored.

(** X11 at work: storage that can be neither read nor written. *)
Lemma getUniqueDealId_unremembered_on_sample :
  exists w',
    Vidazoo.getUniqueDealId (H := Sample.runtime) "k" 10
      (Sample.world brokenStorage)
    = (Ok (VStr "k_1000"), w')
    /\ storage w' = brokenStorage.
Proof.
  destruct (getUniqueDealId_unremembered (H := Sample.runtime) "k" 10
              (Sample.world brokenStorage) (or_introl eq_refl))
    as (w' & Hrun & Hsame & _).
  exists w'. split; [exact Hrun|exact (Hsame eq_refl)].
Defined.


(** *** Vidazoo: the hash, the spellings and the user ids *)

Section MoreUtils.
Context `{Runtime}.

Lemma wrap_int32_id y : - 2 ^ 31 <= y < 2 ^ 31 -> wrap_int32 y = y.
Proof.
  unfold wrap_int32. change (2 ^ 32) with 4294967296.
  change (2 ^ 31) with 2147483648. cbv zeta. intros Hy.
  destruct (Z.ltb_spec (y mod 4294967296) 2147483648);
    Z.div_mod_to_equations; lia.
Qed.

Lemma wrap_int32_residue x : exists q, wrap_int32 x = x + q * 2 ^ 32.
Proof. rewrite <- ToInt32_wrap. apply ToInt32_residue. Qed.

Lemma wrap_int32_periodic x q : wrap_int32 (x + q * 2 ^ 32) = wrap_int32 x.
Proof. rewrite <- !ToInt32_wrap. apply ToInt32_periodic. Qed.

(** Starting the loop from [h] instead of 0 adds [h * 31 ^ n], up to a
    multiple of [2 ^ 32]. *)
Lemma fold_hash_from codes : forall h,
  exists q,
    fold_left (fun h c => wrap_int32 (h * 31 + c)) codes h
    = h * 31 ^ Z.of_nat (length codes) + rolling_hash codes + q * 2 ^ 32.
Proof.
  unfold rolling_hash.
  induction codes as [|c codes IH]; intros h.
  - exists 0. simpl. lia.
  - cbn [fold_left length].
    destruct (IH (wrap_int32 (h * 31 + c))) as [q1 ->].
    destruct (IH (wrap_int32 (0 * 31 + c))) as [q2 ->].
    destruct (wrap_int32_residue (h * 31 + c)) as [q3 ->].
    destruct (wrap_int32_residue (0 * 31 + c)) as [q4 ->].
    rewrite Nat2Z.inj_succ, Z.pow_succ_r by lia.
    set (p := 31 ^ Z.of_nat (length codes)).
    set (F := fold_left _ codes 0).
    exists (q3 * p + q1 - q4 * p - q2). ring.
Qed.

Lemma charCodes_app s1 s2 :
  charCodes (s1 +:+ s2) = (charCodes s1 ++ charCodes s2)%list.
Proof.
  unfold charCodes. induction s1 as [|c s1 IH]; [done|].
  change (String c s1 +:+ s2) with (String c (s1 +:+ s2)). simpl.
  by rewrite IH.
Qed.

Lemma charCodes_length s : Z.of_nat (length (charCodes s)) = str_length s.
Proof.
  unfold charCodes, str_length. rewrite length_map. f_equal.
  induction s as [|c s IH]; simpl; [done|]. by rewrite IH.
Qed.

(** X15.  The hash of a concatenation from the hashes of its parts: the hash
    of the first part is multiplied by 31 to the power of the length of the
    second, the hash of the second is added, and the sum is wrapped to a
    signed 32-bit integer.  The hash of the empty string is 0. *)
Theorem hashCode_append (s1 s2 prefix : string) :
  Vidazoo.hashCode (s1 +:+ s2) prefix
  = prefix +:+ decimal (wrap_int32
                          (Vidazoo.hash_loop 0 (charCodes s1)
                           * 31 ^ str_length s2
                           + Vidazoo.hash_loop 0 (charCodes s2)))
  /\ Vidazoo.hashCode "" prefix = prefix +:+ "0".
Proof.
  split; [|done]. unfold Vidazoo.hashCode. cbv zeta. do 2 f_equal.
  rewrite !hash_loop_fold, charCodes_app, fold_left_app.
  fold (rolling_hash (charCodes s1)). fold (rolling_hash (charCodes s2)).
  destruct (fold_hash_from (charCodes s2) (rolling_hash (charCodes s1)))
    as [q Hq].
  rewrite charCodes_length in Hq.
  rewrite <- (wrap_int32_periodic _ q), <- Hq. symmetry.
  apply wrap_int32_id.
  assert (forall codes h, - 2 ^ 31 <= h < 2 ^ 31 ->
            - 2 ^ 31 <= fold_left (fun h c => wrap_int32 (h * 31 + c)) codes h
            < 2 ^ 31) as Hfold.
  { induction codes as [|c codes IH]; intros h Hh; simpl; [done|].
    apply IH. rewrite <- ToInt32_wrap. apply ToInt32_range. }
  apply Hfold, rolling_hash_range.
Qed.

Lemma digits_of_uint d :
  all_digits (DecimalString.NilEmpty.string_of_uint d) = true.
Proof. unfold all_digits. induction d; simpl; done. Qed.

Lemma decimal_digits z :
  0 <= z -> decimal z <> "" /\ all_digits (decimal z) = true.
Proof.
  intros Hz. unfold decimal. destruct z as [|p|p]; [done| |lia].
  simpl. unfold NilZero.string_of_uint.
  destruct (Pos.to_uint p) eqn:E; try (split; [done|]);
    try (rewrite <- E; apply digits_of_uint); done.
Qed.

(** X16.  The shape of the token: the prefix, a minus sign when the hash is
    negative, and a non-empty run of decimal digits. *)
Theorem hashCode_format (s prefix : string) :
  exists sign digits,
    Vidazoo.hashCode s prefix = prefix +:+ sign +:+ digits
    /\ (sign = "" \/ sign = "-")
    /\ digits <> ""
    /\ all_digits digits = true.
Proof.
  unfold Vidazoo.hashCode. cbv zeta.
  set (h := Vidazoo.hash_loop 0 (charCodes s)).
  destruct (Z.ltb_spec h 0) as [Hneg|Hpos].
  - exists "-", (decimal (- h)). rewrite (decimal_negative h Hneg).
    split; [done|]. split; [by right|]. apply decimal_digits. lia.
  - exists "", (decimal h). split; [done|]. split; [by left|].
    by apply decimal_digits.
Qed.

Lemma fold_spellings_first params keys : forall v,
  fold_left (fun acc key => js_or acc (getOpt params key)) keys v
  = if truthy v then v
    else match find (fun k => truthy (getOpt params k)) keys with
         | Some k => getOpt params k
         | None =>
             match keys with
             | [] => v
             | _ => getOpt params (List.last keys "")
             end
         end.
Proof.
  induction keys as [|k keys IH]; intros v.
  - simpl. by destruct (truthy v).
  - cbn [fold_left find]. rewrite IH. unfold js_or.
    destruct (truthy v) eqn:Hv; [by rewrite Hv|].
    destruct (truthy (getOpt params k)) eqn:Hk; [done|].
    destruct (find _ keys); [done|]. by destruct keys.
Qed.

Lemma any_spelling_first params keys :
  nullish params = false ->
  Vidazoo.any_spelling params keys = Ok (firstTruthy params keys).
Proof.
  intros Hp. destruct keys as [|k keys]; [done|].
  unfold Vidazoo.any_spelling. rewrite (getProp_getOpt _ _ Hp).
  cbn [rbind]. rewrite fold_spellings_first. unfold firstTruthy.
  cbn [find]. destruct (truthy (getOpt params k)); [done|].
  destruct (find _ keys); [done|]. by destruct keys.
Qed.

(** X17.  The spellings of a parameter are tried in the order written: the
    extractors return the value under the first spelling whose value is
    truthy, and the value under the last spelling when none is; parameters
    that are [undefined] or [null] make them raise. *)
Theorem extractors_pick_first (params : JsVal) :
  (nullish params = true ->
   Vidazoo.extractCID params = Throw TypeError
   /\ Vidazoo.extractPID params = Throw TypeError
   /\ Vidazoo.extractSubDomain params = Throw TypeError)
  /\ (nullish params = false ->
      Vidazoo.extractCID params
      = Ok (firstTruthy params
              ["cId"; "CID"; "cID"; "CId"; "cid"; "ciD"; "Cid"; "CiD"])
      /\ Vidazoo.extractPID params
         = Ok (firstTruthy params
                 ["pId"; "PID"; "pID"; "PId"; "pid"; "piD"; "Pid"; "PiD"])
      /\ Vidazoo.extractSubDomain params
         = Ok (firstTruthy params
                 ["subDomain"; "SubDomain"; "Subdomain"; "subdomain";
                  "SUBDOMAIN"; "subDOMAIN"])).
Proof.
  split.
  - intros Hn. unfold Vidazoo.extractCID, Vidazoo.extractPID,
      Vidazoo.extractSubDomain, Vidazoo.any_spelling,
      Vidazoo.cidSpellings, Vidazoo.pidSpellings.
    by rewrite !getProp_nullish.
  - intros Hp. unfold Vidazoo.extractCID, Vidazoo.extractPID,
      Vidazoo.extractSubDomain.
    by rewrite !any_spelling_first.
Qed.

Lemma uid_key_inj a b : "uid." +:+ a = "uid." +:+ b -> a = b.
Proof. intros E. by injection E. Qed.

(** one visit of the callback of [appendUserIdsToRequestPayload] *)
Lemma appendUserId_step payload name userId :
  (name = "lipb" \/ name = "id5id" -> nullish userId = false) ->
  (if String.eqb name "lipb" then
     rbind (getProp userId "lipbid")
       (fun lipbid => Ok (obj_set ("uid." +:+ name) lipbid payload))
   else if String.eqb name "id5id" then
     rbind (getProp userId "uid")
       (fun uid => Ok (obj_set ("uid." +:+ name) uid payload))
   else Ok (obj_set ("uid." +:+ name) userId payload))
  = Ok (obj_set ("uid." +:+ name) (userIdOf name userId) payload).
Proof.
  intros Hn. unfold userIdOf.
  destruct (String.eqb name "lipb") eqn:E1.
  - apply String.eqb_eq in E1. by rewrite getProp_getOpt by auto.
  - destruct (String.eqb name "id5id") eqn:E2; [|done].
    apply String.eqb_eq in E2. by rewrite getProp_getOpt by auto.
Qed.

(** X18.  What [appendUserIdsToRequestPayload] does to the payload: for
    every id system of the bundle it sets the property [uid.] followed by
    the name of the system, to [lipbid] of the entry for [lipb], to [uid] of
    the entry for [id5id] and to the entry itself for any other system; it
    changes no other property. *)
Theorem appendUserIds_sets_uid_keys (ids : list (string * JsVal)) :
  forall payload : list (string * JsVal),
  NoDup (keysOf ids) ->
  (forall name userId,
     In (name, userId) ids -> name = "lipb" \/ name = "id5id" ->
     nullish userId = false) ->
  exists result,
    Vidazoo.appendUserIdsToRequestPayload payload (VObj ids) = Ok result
    /\ (forall name userId,
          In (name, userId) ids ->
          obj_get ("uid." +:+ name) result = Some (userIdOf name userId))
    /\ (forall k,
          (forall name, In name (keysOf ids) -> k <> "uid." +:+ name) ->
          obj_get k result = obj_get k payload).
Proof.
  unfold Vidazoo.appendUserIdsToRequestPayload. cbn [own_entries].
  induction ids as [|[name userId] ids IH]; intros payload Hnd Hok.
  - exists payload. by repeat split.
  - apply NoDup_cons in Hnd as [Hfresh Hnd]. cbn [Vidazoo.each_entry].
    rewrite appendUserId_step by (intros Hn; eapply Hok; [by left|done]).
    cbn [rbind].
    destruct (IH (obj_set ("uid." +:+ name) (userIdOf name userId) payload)
                Hnd) as (result & -> & Hset & Hother).
    { intros n u Hin. apply Hok. by right. }
    exists result. split; [done|]. split.
    + intros n u [[= <- <-]|Hin]; [|by apply Hset].
      rewrite Hother; [apply obj_get_set_eq|].
      intros n' Hn' E. apply uid_key_inj in E. subst n'.
      by apply Hfresh, list_elem_of_In.
    + intros k Hk. rewrite Hother.
      * apply obj_get_set_ne. intros E. by apply (Hk name); [left|].
      * intros n Hn. apply Hk. by right.
Qed.

(** X19.  The edges of [appendUserIdsToRequestPayload]: a bundle that is
    [undefined] or [null] leaves the payload as it is, and an entry for
    [lipb] or [id5id] that is [undefined] or [null] makes the call raise,
    whatever else the bundle holds. *)
Theorem appendUserIds_edges (payload : list (string * JsVal)) :
  (forall userIds,
     nullish userIds = true ->
     Vidazoo.appendUserIdsToRequestPayload payload userIds = Ok payload)
  /\ (forall ids name userId,
        In (name, userId) ids -> name = "lipb" \/ name = "id5id" ->
        nullish userId = true ->
        Vidazoo.appendUserIdsToRequestPayload payload (VObj ids)
        = Throw TypeError).
Proof.
  split; [by intros [| | | | | | |]|].
  intros ids name userId Hin Hname Hnull.
  unfold Vidazoo.appendUserIdsToRequestPayload. cbn [own_entries].
  revert payload. induction ids as [|[n u] ids IH]; intros payload; [done|].
  cbn [Vidazoo.each_entry].
  destruct Hin as [[= -> ->]|Hin].
  - destruct Hname as [-> | ->]; simpl; by rewrite getProp_nullish.
  - destruct (String.eqb n "lipb").
    + destruct (getProp u "lipbid") as [x|[]] eqn:E; cbn [rbind]; try done;
        try (by apply IH); by destruct u.
    + destruct (String.eqb n "id5id").
      * destruct (getProp u "uid") as [x|[]] eqn:E; cbn [rbind]; try done;
          try (by apply IH); by destruct u.
      * cbn [rbind]. by apply IH.
Qed.
End MoreUtils.

(** *** Vidazoo: the request payload *)

Section MorePayload.
Context `{Runtime} `{Prebid} `{Constants} `{Browser}.

Lemma prefix_append p s : String.prefix p (p +:+ s) = true.
Proof.
  induction p as [|c p IH]; simpl; [by destruct s|].
  destruct (Ascii.ascii_dec c c); [exact IH|done].
Qed.

Lemma not_prefixed p k key :
  String.prefix p k = false -> p +:+ key <> k.
Proof. intros Hk <-. by rewrite prefix_append in Hk. Qed.

Lemma each_ext entries : forall acc,
  Vidazoo.each_entry
    (fun data value key => Ok (obj_set ("ext." +:+ key) value data))
    entries acc
  = Ok (fold_left (fun data kv => obj_set ("ext." +:+ kv.1) kv.2 data)
          entries acc).
Proof.
  induction entries as [|[k v] entries IH]; intros acc; [done|].
  simpl. apply IH.
Qed.

Lemma fold_prefixed_keeps p k entries : forall acc,
  String.prefix p k = false ->
  obj_get k (fold_left (fun data kv => obj_set (p +:+ kv.1) kv.2 data)
               entries acc)
  = obj_get k acc.
Proof.
  induction entries as [|[k' v] entries IH]; intros acc Hk; [done|].
  simpl. rewrite IH by done. apply obj_get_set_ne. by apply not_prefixed.
Qed.

Lemma appendUserIds_returns userIds : forall payload,
  userIdsOk userIds ->
  exists result,
    Vidazoo.appendUserIdsToRequestPayload payload userIds = Ok result
    /\ (forall k, String.prefix "uid." k = false ->
                  obj_get k result = obj_get k payload).
Proof.
  unfold Vidazoo.appendUserIdsToRequestPayload, userIdsOk.
  induction (own_entries userIds) as [|[name userId] ids IH];
    intros payload Hok.
  - by exists payload.
  - cbn [Vidazoo.each_entry].
    rewrite appendUserId_step by (intros Hn; eapply Hok; [by left|done]).
    cbn [rbind].
    destruct (IH (obj_set ("uid." +:+ name) (userIdOf name userId) payload))
      as (result & -> & Hother).
    { intros n u Hin. apply Hok. by right. }
    exists result. split; [done|]. intros k Hk. rewrite Hother by done.
    apply obj_get_set_ne. by apply not_prefixed.
Qed.

Lemma getUniqueDealId_returns key expiry w :
  exists id w1,
    Vidazoo.getUniqueDealId key expiry w = (Ok id, w1)
    /\ sameBut ("u_" +:+ key) w w1.
Proof.
  rewrite getUniqueDealId_run. cbv zeta.
  match goal with |- context [if ?b then _ else _] => destruct b end.
  - eexists _, _. split; [done|].
    apply sameBut_set, sameBut_tick, sameBut_refl.
  - eexists _, _. split; [done|]. apply sameBut_tick, sameBut_refl.
Qed.

Lemma refererInfo_read bidderRequest :
  nullish (getOpt bidderRequest "refererInfo") = false ->
  getProp bidderRequest "refererInfo"
  = Ok (getOpt bidderRequest "refererInfo").
Proof.
  intros Hr. apply getProp_getOpt.
  destruct (nullish bidderRequest) eqn:Hn; [|done].
  by rewrite getOpt_nullish in Hr.
Qed.

(** The run of [buildRequestData] when the parameters and the referer
    information are there, no request data are supplied by the adapter,
    the floor block returns and the user ids can be read. *)
Lemma buildRequestData_run bid topWindowUrl sizes bidderRequest bidderTimeout
    webSessionId bidderVersion bidderCode getUniqueRequestData floor w :
  nullish bid = false ->
  nullish (getOpt bid "params") = false ->
  isFn getUniqueRequestData = false ->
  Vidazoo.floorBlock bid (getOpt (getOpt bid "params") "bidFloor")
  = Ok floor ->
  nullish (getOpt bidderRequest "refererInfo") = false ->
  userIdsOk (getOpt bid "userId") ->
  exists id w1 data,
    Vidazoo.getUniqueDealId (Vidazoo.hashCode topWindowUrl "_")
      UNIQUE_DEAL_ID_EXPIRY w = (Ok id, w1)
    /\ sameBut ("u_" +:+ Vidazoo.hashCode topWindowUrl "_") w w1
    /\ (forall k,
          String.prefix "uid." k = false ->
          obj_get k data
          = obj_get k
              (corePayload bid topWindowUrl sizes bidderRequest bidderTimeout
                 webSessionId bidderVersion bidderCode floor id (now w1)))
    /\ Vidazoo.buildRequestData bid topWindowUrl sizes bidderRequest
         bidderTimeout webSessionId bidderVersion bidderCode
         getUniqueRequestData w
       = (Ok (VObj (laterFields bidderRequest
                      (getOpt (getOpt bid "params") "ext") data)),
          tick w1).
Proof.
  intros Hbid Hparams Hfn Hfloor Href Hids.
  destruct (getUniqueDealId_returns (Vidazoo.hashCode topWindowUrl "_")
              UNIQUE_DEAL_ID_EXPIRY w) as (id & w1 & Hid & Hsame).
  destruct (appendUserIds_returns (getOpt bid "userId")
              (corePayload bid topWindowUrl sizes bidderRequest bidderTimeout
                 webSessionId bidderVersion bidderCode floor id (now w1))
              Hids) as (data & Hdata & Hkeep).
  exists id, w1, data. split; [done|]. split; [done|]. split; [done|].
  unfold Vidazoo.buildRequestData.
  rewrite (getProp_getOpt bid "params" Hbid). unfold bind at 1, lift at 1.
  rewrite (getProp_getOpt _ "ext" Hparams). unfold bind at 1, lift at 1.
  cbv zeta. rewrite Hfn. unfold bind at 1, lift at 1.
  unfold bind at 1. rewrite Hid.
  unfold Vidazoo.extractPID. rewrite any_spelling_first by done.
  unfold bind at 1, lift at 1.
  rewrite Hfloor. unfold bind at 1, lift at 1.
  unfold bind at 1, Date_now at 1. fold (now w1). fold (tick w1).
  rewrite (refererInfo_read _ Href). unfold bind at 1, lift at 1.
  rewrite (getProp_getOpt _ "ref" Href). unfold bind at 1, lift at 1.
  unfold spread_into. cbn [own_entries fold_left].
  unfold corePayload in Hdata. cbv zeta in Hdata. rewrite Hdata.
  unfold bind at 1, lift at 1. rewrite each_ext.
  unfold bind, lift, ret. done.
Qed.

Lemma consentFields_keeps bidderRequest data k :
  k ∉ ["gdprConsent"; "gdpr"; "usPrivacy"; "gppString"; "gppSid"] ->
  obj_get k (Vidazoo.consentFields bidderRequest data) = obj_get k data.
Proof.
  intros Hk. unfold Vidazoo.consentFields. cbv zeta.
  repeat match goal with |- context [if ?b then _ else _] => destruct b end;
    repeat (rewrite obj_get_set_ne; [|intros <-; apply Hk; set_solver]);
    done.
Qed.

Lemma laterFields_keeps bidderRequest ext data k :
  setLater k = false ->
  obj_get k (laterFields bidderRequest ext data) = obj_get k data.
Proof.
  unfold setLater. intros Hk.
  apply orb_false_iff in Hk as [Hk Hlist].
  apply orb_false_iff in Hk as [_ Hext].
  apply bool_decide_eq_false in Hlist.
  assert (k ∉ ["gdprConsent"; "gdpr"; "usPrivacy"; "gppString"; "gppSid"])
    as Hconsent.
  { intros Hin. apply Hlist. apply list_elem_of_In.
    apply list_elem_of_In in Hin. simpl in *. tauto. }
  unfold laterFields. cbv zeta. rewrite fold_prefixed_keeps by done.
  match goal with |- context [if ?b then _ else _] => destruct b end.
  - rewrite obj_get_set_ne by (intros <-; apply Hlist; set_solver).
    rewrite consentFields_keeps by done.
    match goal with |- context [if ?b then _ else _] => destruct b end;
      [|done].
    apply obj_get_set_ne. intros <-. apply Hlist. set_solver.
  - rewrite consentFields_keeps by done.
    match goal with |- context [if ?b then _ else _] => destruct b end;
      [|done].
    apply obj_get_set_ne. intros <-. apply Hlist. set_solver.
Qed.

(** X20.  The fields of the object literal of [buildRequestData] reach the
    payload as written: when the parameters and the referer information
    are there, the adapter supplies no request data of its own, the floor
    block returns and the user ids can be read, the call returns a payload
    in which every field of the literal has the value the literal gives it,
    whatever the user ids, the consents and the extension fields add; the
    world is changed in the cell of the unique deal id only. *)
Theorem buildRequestData_core (bid : JsVal) (topWindowUrl : string)
    (sizes bidderRequest bidderTimeout webSessionId bidderVersion : JsVal)
    (bidderCode : string) (getUniqueRequestData floor : JsVal) (w : World) :
  nullish bid = false ->
  nullish (getOpt bid "params") = false ->
  isFn getUniqueRequestData = false ->
  Vidazoo.floorBlock bid (getOpt (getOpt bid "params") "bidFloor")
  = Ok floor ->
  nullish (getOpt bidderRequest "refererInfo") = false ->
  userIdsOk (getOpt bid "userId") ->
  exists id w1 data,
    Vidazoo.getUniqueDealId (Vidazoo.hashCode topWindowUrl "_")
      UNIQUE_DEAL_ID_EXPIRY w = (Ok id, w1)
    /\ Vidazoo.buildRequestData bid topWindowUrl sizes bidderRequest
         bidderTimeout webSessionId bidderVersion bidderCode
         getUniqueRequestData w
       = (Ok (VObj data), tick w1)
    /\ sameBut ("u_" +:+ Vidazoo.hashCode topWindowUrl "_") w (tick w1)
    /\ (forall k,
          In k (keysOf (corePayload bid topWindowUrl sizes bidderRequest
                          bidderTimeout webSessionId bidderVersion bidderCode
                          floor id (now w1))) ->
          obj_get k data
          = obj_get k
              (corePayload bid topWindowUrl sizes bidderRequest bidderTimeout
                 webSessionId bidderVersion bidderCode floor id (now w1))).
Proof.
  intros Hbid Hparams Hfn Hfloor Href Hids.
  destruct (buildRequestData_run bid topWindowUrl sizes bidderRequest
              bidderTimeout webSessionId bidderVersion bidderCode
              getUniqueRequestData floor w Hbid Hparams Hfn Hfloor Href Hids)
    as (id & w1 & data & Hid & Hsame & Hkeep & Hrun).
  exists id, w1, (laterFields bidderRequest
                    (getOpt (getOpt bid "params") "ext") data).
  split; [done|]. split; [done|]. split; [by apply sameBut_tick|].
  intros k Hk.
  assert (setLater k = false) as Hcore.
  { assert (forallb (fun k => negb (setLater k))
              (keysOf (corePayload bid topWindowUrl sizes bidderRequest
                         bidderTimeout webSessionId bidderVersion bidderCode
                         floor id (now w1))) = true) as Hall
      by (by vm_compute).
    rewrite forallb_forall in Hall. by apply negb_true_iff, Hall. }
  rewrite laterFields_keeps by done. apply Hkeep.
  unfold setLater in Hcore. apply orb_false_iff in Hcore as [Hcore _].
  by apply orb_false_iff in Hcore as [Hcore _].
Qed.

Lemma consentFields_sets bidderRequest data :
  (forall k,
     k ∈ ["gdprConsent"; "gdpr"; "usPrivacy"; "gppString"; "gppSid"] ->
     obj_get k data = None) ->
  carriesConsents bidderRequest
    (VObj (Vidazoo.consentFields bidderRequest data)).
Proof.
  intros Hnone. unfold carriesConsents, Vidazoo.consentFields. cbv zeta.
  rewrite !getOpt_obj.
  destruct (truthy (getOpt bidderRequest "gdprConsent"));
    destruct (truthy (getOpt (getOpt bidderRequest "gdprConsent")
                        "consentString"));
    destruct (strict_eq (getOpt (getOpt bidderRequest "gdprConsent")
                           "gdprApplies") VUndef);
    destruct (truthy (getOpt bidderRequest "uspConsent"));
    destruct (truthy (getOpt bidderRequest "gppConsent"));
    destruct (truthy (getOpt (getOpt (getOpt bidderRequest "ortb2") "regs")
                        "gpp"));
    cbn [andb negb];
    repeat split;
    repeat (rewrite obj_get_set_eq
            || (rewrite obj_get_set_ne by discriminate));
    rewrite ?Hnone by set_solver; done.
Qed.

(** X21.  The consent fields of the payload: under the conditions of X20,
    the payload returned carries the consent string when there is one, the
    GDPR flag (1 or 0) when [gdprApplies] is not [undefined], the US
    privacy string when there is one, and the GPP string and sections of the
    GPP consent, which take precedence over those of the first-party data;
    a field for which there is nothing to report is absent. *)
Theorem buildRequestData_consents (bid : JsVal) (topWindowUrl : string)
    (sizes bidderRequest bidderTimeout webSessionId bidderVersion : JsVal)
    (bidderCode : string) (getUniqueRequestData floor : JsVal) (w : World) :
  nullish bid = false ->
  nullish (getOpt bid "params") = false ->
  isFn getUniqueRequestData = false ->
  Vidazoo.floorBlock bid (getOpt (getOpt bid "params") "bidFloor")
  = Ok floor ->
  nullish (getOpt bidderRequest "refererInfo") = false ->
  userIdsOk (getOpt bid "userId") ->
  exists data w',
    Vidazoo.buildRequestData bid topWindowUrl sizes bidderRequest
      bidderTimeout webSessionId bidderVersion bidderCode
      getUniqueRequestData w
    = (Ok data, w')
    /\ carriesConsents bidderRequest data.
Proof.
  intros Hbid Hparams Hfn Hfloor Href Hids.
  destruct (buildRequestData_run bid topWindowUrl sizes bidderRequest
              bidderTimeout webSessionId bidderVersion bidderCode
              getUniqueRequestData floor w Hbid Hparams Hfn Hfloor Href Hids)
    as (id & w1 & data & Hid & Hsame & Hkeep & Hrun).
  eexists _, _. split; [exact Hrun|].
  set (sua := deepAccess bidderRequest ["ortb2"; "device"; "sua"] VUndef).
  pose proof (consentFields_sets bidderRequest
                (if truthy sua then obj_set "sua" sua data else data))
    as Hsets.
  unfold carriesConsents in *. cbv zeta in *.
  unfold laterFields. cbv zeta. fold sua. rewrite !getOpt_obj in *.
  rewrite !fold_prefixed_keeps by done.
  assert (forall k (b : bool) v d,
            k <> "fledge" ->
            obj_get k (if b then obj_set "fledge" v d else d) = obj_get k d)
    as Hfledge.
  { intros k [] v d Hk; [|done]. apply obj_get_set_ne. congruence. }
  rewrite !Hfledge by discriminate. apply Hsets.
  intros k Hk.
  assert (obj_get k (if truthy sua then obj_set "sua" sua data else data)
          = obj_get k data) as ->.
  { destruct (truthy sua); [|done]. apply obj_get_set_ne. intros <-.
    apply list_elem_of_In in Hk. simpl in Hk.
    by repeat (destruct Hk as [Hk|Hk]; [discriminate|]). }
  apply list_elem_of_In in Hk. simpl in Hk.
  repeat (destruct Hk as [<-|Hk]; [by rewrite Hkeep|]). done.
Qed.

Lemma prefix_inj p a b : p +:+ a = p +:+ b -> a = b.
Proof.
  induction p as [|c p IH]; [done|].
  change (String c p +:+ ?x) with (String c (p +:+ x)).
  intros [= E]. by apply IH.
Qed.

Lemma fold_prefixed_fresh p k entries : forall acc,
  (forall key, In key (keysOf entries) -> p +:+ key <> k) ->
  obj_get k (fold_left (fun data kv => obj_set (p +:+ kv.1) kv.2 data)
               entries acc)
  = obj_get k acc.
Proof.
  induction entries as [|[k' v] entries IH]; intros acc Hk; [done|].
  simpl. rewrite IH by (intros key Hkey; apply Hk; by right).
  apply obj_get_set_ne. apply Hk. by left.
Qed.

Lemma fold_prefixed_sets p entries : forall acc key value,
  NoDup (keysOf entries) ->
  In (key, value) entries ->
  obj_get (p +:+ key)
    (fold_left (fun data kv => obj_set (p +:+ kv.1) kv.2 data) entries acc)
  = Some value.
Proof.
  induction entries as [|[k' v] entries IH]; intros acc key value Hnd Hin;
    [done|].
  apply NoDup_cons in Hnd as [Hfresh Hnd]. simpl.
  destruct Hin as [[= -> ->]|Hin]; [|by apply IH].
  rewrite fold_prefixed_fresh; [apply obj_get_set_eq|].
  intros k Hk E. apply prefix_inj in E. subst k.
  by apply Hfresh, list_elem_of_In.
Qed.

(** X22.  The extension fields of the parameters are passed through: under
    the conditions of X20, every property of [params.ext] is in the payload
    under its name prefixed with [ext.], with its value. *)
Theorem buildRequestData_ext (bid : JsVal) (topWindowUrl : string)
    (sizes bidderRequest bidderTimeout webSessionId bidderVersion : JsVal)
    (bidderCode : string) (getUniqueRequestData floor : JsVal) (w : World) :
  nullish bid = false ->
  nullish (getOpt bid "params") = false ->
  isFn getUniqueRequestData = false ->
  Vidazoo.floorBlock bid (getOpt (getOpt bid "params") "bidFloor")
  = Ok floor ->
  nullish (getOpt bidderRequest "refererInfo") = false ->
  userIdsOk (getOpt bid "userId") ->
  NoDup (keysOf (own_entries (getOpt (getOpt bid "params") "ext"))) ->
  exists data w',
    Vidazoo.buildRequestData bid topWindowUrl sizes bidderRequest
      bidderTimeout webSessionId bidderVersion bidderCode
      getUniqueRequestData w
    = (Ok data, w')
    /\ (forall key value,
          In (key, value) (own_entries (getOpt (getOpt bid "params") "ext")) ->
          getOpt data ("ext." +:+ key) = value).
Proof.
  intros Hbid Hparams Hfn Hfloor Href Hids Hnd.
  destruct (buildRequestData_run bid topWindowUrl sizes bidderRequest
              bidderTimeout webSessionId bidderVersion bidderCode
              getUniqueRequestData floor w Hbid Hparams Hfn Hfloor Href Hids)
    as (id & w1 & data & Hid & Hsame & Hkeep & Hrun).
  eexists _, _. split; [exact Hrun|]. intros key value Hin.
  rewrite getOpt_obj. unfold laterFields. cbv zeta.
  by rewrite (fold_prefixed_sets _ _ _ key value Hnd Hin).
Qed.

(** X23.  Where [buildRequestData] raises.  Without parameters it raises at
    once and the world is as it was.  Without referer information, and
    when the floor provider of the bid returns [undefined] or [null], it
    raises after the unique deal id has been made: the world is then the
    one [getUniqueDealId] leaves, with the clock read once more in the
    first case. *)
Theorem buildRequestData_raises (bid : JsVal) (topWindowUrl : string)
    (sizes bidderRequest bidderTimeout webSessionId bidderVersion : JsVal)
    (bidderCode : string) (getUniqueRequestData : JsVal) (w : World) :
  (nullish bid = false ->
   nullish (getOpt bid "params") = true ->
   Vidazoo.buildRequestData bid topWindowUrl sizes bidderRequest
     bidderTimeout webSessionId bidderVersion bidderCode
     getUniqueRequestData w
   = (Throw TypeError, w))
  /\ (nullish bid = false ->
      nullish (getOpt bid "params") = false ->
      isFn getUniqueRequestData = false ->
      exists id w1,
        Vidazoo.getUniqueDealId (Vidazoo.hashCode topWindowUrl "_")
          UNIQUE_DEAL_ID_EXPIRY w = (Ok id, w1)
        /\ (forall floor,
              Vidazoo.floorBlock bid
                (getOpt (getOpt bid "params") "bidFloor") = Ok floor ->
              nullish (getOpt bidderRequest "refererInfo") = true ->
              Vidazoo.buildRequestData bid topWindowUrl sizes bidderRequest
                bidderTimeout webSessionId bidderVersion bidderCode
                getUniqueRequestData w
              = (Throw TypeError, tick w1))
        /\ (forall provider floorInfo,
              getOpt bid "getFloor" = VFun provider ->
              callFn provider bid [floorQuery "USD"] = Ok floorInfo ->
              nullish floorInfo = true ->
              Vidazoo.buildRequestData bid topWindowUrl sizes bidderRequest
                bidderTimeout webSessionId bidderVersion bidderCode
                getUniqueRequestData w
              = (Throw TypeError, w1))).
Proof.
  split.
  - intros Hbid Hparams. unfold Vidazoo.buildRequestData.
    rewrite (getProp_getOpt bid "params" Hbid). unfold bind at 1, lift at 1.
    rewrite (getProp_nullish _ "ext" Hparams). by unfold bind, lift.
  - intros Hbid Hparams Hfn.
    destruct (getUniqueDealId_returns (Vidazoo.hashCode topWindowUrl "_")
                UNIQUE_DEAL_ID_EXPIRY w) as (id & w1 & Hid & _).
    exists id, w1. split; [done|].
    split.
    + intros floor Hfloor Href. unfold Vidazoo.buildRequestData.
      rewrite (getProp_getOpt bid "params" Hbid). unfold bind at 1, lift at 1.
      rewrite (getProp_getOpt _ "ext" Hparams). unfold bind at 1, lift at 1.
      cbv zeta. rewrite Hfn. unfold bind at 1, lift at 1.
      unfold bind at 1. rewrite Hid.
      unfold Vidazoo.extractPID. rewrite any_spelling_first by done.
      unfold bind at 1, lift at 1.
      rewrite Hfloor. unfold bind at 1, lift at 1.
      unfold bind at 1, Date_now at 1. fold (now w1). fold (tick w1).
      destruct (nullish bidderRequest) eqn:Hbr.
      * rewrite (getProp_nullish _ "refererInfo" Hbr).
        by unfold bind, lift.
      * rewrite (getProp_getOpt _ "refererInfo" Hbr).
        unfold bind at 1, lift at 1.
        rewrite (getProp_nullish _ "ref" Href). by unfold bind, lift.
    + intros provider floorInfo Hprov Hcall Hnull.
      unfold Vidazoo.buildRequestData.
      rewrite (getProp_getOpt bid "params" Hbid). unfold bind at 1, lift at 1.
      rewrite (getProp_getOpt _ "ext" Hparams). unfold bind at 1, lift at 1.
      cbv zeta. rewrite Hfn. unfold bind at 1, lift at 1.
      unfold bind at 1. rewrite Hid.
      unfold Vidazoo.extractPID. rewrite any_spelling_first by done.
      unfold bind at 1, lift at 1.
      unfold Vidazoo.floorBlock. rewrite (getProp_getOpt bid _ Hbid), Hprov.
      cbn [rbind isFn call]. rewrite Hcall. cbn [rbind].
      rewrite (getProp_nullish _ "currency" Hnull). by unfold bind, lift.
Qed.
End MorePayload.

(** *** Vidazoo: the user syncs, the win notification, the validity *)

Section MoreCalls.
Context `{Runtime} `{Prebid} `{Constants} `{Browser} `{QueryStrings}.

Lemma getProp_raises v k e : getProp v k = Throw e -> e = TypeError.
Proof.
  destruct v; simpl; try congruence;
    destruct (String.eqb k "length"); congruence.
Qed.

(** X24.  Absent and [null] arguments of [getUserSyncs]: consents that are
    [undefined] count as an empty consent object, an empty US privacy
    string and an empty GPP consent; a consent object or a GPP consent that
    is [null], sync options that are [undefined] or [null], and responses
    that are [undefined] or [null] make the call raise. *)
Theorem getUserSyncs_absent_arguments
    (options syncOptions responses gdprConsent uspConsent gppConsent
       : JsVal) :
  Vidazoo.createUserSyncGetter options syncOptions responses VUndef VUndef
    VUndef
  = Vidazoo.createUserSyncGetter options syncOptions responses (VObj [])
      (VStr "") (VObj [])
  /\ (nullish syncOptions = true
      \/ gdprConsent = VNull \/ gppConsent = VNull
      \/ nullish responses = true ->
      Vidazoo.createUserSyncGetter options syncOptions responses gdprConsent
        uspConsent gppConsent
      = Throw TypeError).
Proof.
  split; [done|]. unfold Vidazoo.createUserSyncGetter. cbv zeta.
  intros Hbad.
  destruct (getProp syncOptions "iframeEnabled") as [?|e] eqn:E1;
    [|by rewrite (getProp_raises _ _ _ E1)].
  destruct (getProp syncOptions "pixelEnabled") as [?|e] eqn:E2;
    [|by rewrite (getProp_raises _ _ _ E2)].
  cbn [rbind].
  destruct Hbad as [Hs|Hbad]; [by rewrite getProp_nullish in E1|].
  destruct (getProp (Vidazoo.or_default gdprConsent (VObj [])) "gdprApplies")
    as [?|e] eqn:E3; [|by rewrite (getProp_raises _ _ _ E3)].
  destruct (getProp (Vidazoo.or_default gdprConsent (VObj []))
              "consentString")
    as [?|e] eqn:E4; [|by rewrite (getProp_raises _ _ _ E4)].
  cbn [rbind].
  destruct Hbad as [-> |Hbad]; [done|].
  destruct (getProp (Vidazoo.or_default gppConsent (VObj [])) "gppString")
    as [?|e] eqn:E5; [|by rewrite (getProp_raises _ _ _ E5)].
  destruct (getProp (Vidazoo.or_default gppConsent (VObj []))
              "applicableSections")
    as [?|e] eqn:E6; [|by rewrite (getProp_raises _ _ _ E6)].
  cbn [rbind].
  destruct Hbad as [-> |Hr]; [done|].
  by destruct responses.
Qed.

Lemma won_fields_agree bid bid' :
  (forall k, In k Vidazoo.wonFields -> getOpt bid k = getOpt bid' k) ->
  map (fun k => (k, getOpt bid k)) Vidazoo.wonFields
  = map (fun k => (k, getOpt bid' k)) Vidazoo.wonFields.
Proof.
  intros Hsame. apply map_ext_in. intros k Hk. by rewrite Hsame.
Qed.

(** X25.  When [onBidWon] fires its pixel: never for a bid without a truthy
    [nurl]; for a [nurl] that is a non-empty string, at that URL followed by
    [?] when it holds no question mark and by [&] when it holds one, and
    then by the query string of the thirteen fields of the bid that are
    reported; a bid that is [undefined] or [null] and a [nurl] that is a
    non-zero number make it raise. *)
Theorem onBidWon_pixel (bid : JsVal) :
  (nullish bid = true -> Vidazoo.onBidWon bid = Throw TypeError)
  /\ (nullish bid = false -> truthy (getOpt bid "nurl") = false ->
      Vidazoo.onBidWon bid = Ok None)
  /\ (forall s,
        getOpt bid "nurl" = VStr s -> s <> "" ->
        Vidazoo.onBidWon bid
        = Ok (Some (VStr ((s +:+ (if bool_decide (String.index 0 "?" s = None)
                                  then "?" else "&"))
                          +:+ formatQS
                                (VObj (map (fun k => (k, getOpt bid k))
                                         Vidazoo.wonFields))))))
  /\ (forall z,
        getOpt bid "nurl" = VNum (Num z) -> z <> 0 ->
        Vidazoo.onBidWon bid = Throw TypeError).
Proof.
  unfold Vidazoo.onBidWon. split; [|split; [|split]].
  - intros Hn. by rewrite getProp_nullish.
  - intros Hn Hnurl. rewrite getProp_getOpt by done. cbn [rbind].
    by rewrite Hnurl.
  - intros s Hnurl Hs.
    assert (nullish bid = false) as Hn.
    { destruct (nullish bid) eqn:Hn; [|done].
      by rewrite getOpt_nullish in Hnurl. }
    rewrite getProp_getOpt by done. cbn [rbind]. rewrite Hnurl.
    apply String.eqb_neq in Hs. cbn [truthy]. rewrite Hs.
    cbn [negb Vidazoo.lacksQuestionMark rbind]. done.
  - intros z Hnurl Hz.
    assert (nullish bid = false) as Hn.
    { destruct (nullish bid) eqn:Hn; [|done].
      by rewrite getOpt_nullish in Hnurl. }
    rewrite getProp_getOpt by done. cbn [rbind]. rewrite Hnurl.
    apply Z.eqb_neq in Hz. cbn [truthy]. by rewrite Hz.
Qed.

(** X26.  [onBidWon] reads nothing of the bid but [nurl] and the thirteen
    fields it reports: two bids that agree on those are notified in the
    same way. *)
Theorem onBidWon_reads_listed_fields (bid bid' : JsVal) :
  nullish bid = false ->
  nullish bid' = false ->
  getOpt bid "nurl" = getOpt bid' "nurl" ->
  (forall k, In k Vidazoo.wonFields -> getOpt bid k = getOpt bid' k) ->
  Vidazoo.onBidWon bid = Vidazoo.onBidWon bid'.
Proof.
  intros Hn Hn' Hnurl Hsame. unfold Vidazoo.onBidWon.
  rewrite !getProp_getOpt by done. cbn [rbind]. rewrite Hnurl.
  by rewrite (won_fields_agree bid bid' Hsame).
Qed.

(** X27.  The validity checks of both adapters return a boolean for every
    bid request that is not [undefined] or [null], and raise for those. *)
Theorem isBidRequestValid_total (bid : JsVal) :
  (nullish bid = true ->
   Orbidder.isBidRequestValid bid = Throw TypeError
   /\ Vidazoo.isBidRequestValid bid = Throw TypeError)
  /\ (nullish bid = false ->
      exists valid valid',
        Orbidder.isBidRequestValid bid = Ok valid
        /\ Vidazoo.isBidRequestValid bid = Ok valid').
Proof.
  rewrite orbidder_valid_bool, vidazoo_valid_bool.
  destruct (nullish bid); split; try done. eauto.
Qed.
End MoreCalls.

(** X26 at work: a bid and the same bid with one more field. *)
Lemma onBidWon_reads_listed_fields_on_sample :
  Vidazoo.onBidWon (H := Sample.runtime) (H3 := sampleQueryStrings)
    (VObj [("nurl", VStr "https://won.example?a=1"); ("cpm", VNum (Num 2))])
  = Vidazoo.onBidWon (H := Sample.runtime) (H3 := sampleQueryStrings)
      (VObj [("nurl", VStr "https://won.example?a=1"); ("cpm", VNum (Num 2));
             ("dealId", VStr "d")]).
Proof.
  apply (onBidWon_reads_listed_fields (H := Sample.runtime)
           (H3 := sampleQueryStrings)); try reflexivity.
  intros k Hk. simpl in Hk.
  repeat (destruct Hk as [<-|Hk]; [reflexivity|]). destruct Hk.
Defined.

(** X20 at work on the sample bid request: the static floor and the
    publisher id reach the payload. *)
Lemma buildRequestData_core_on_sample :
  exists id w1 data,
    Vidazoo.getUniqueDealId (H := Sample.runtime)
      (Vidazoo.hashCode "https://page.example" "_") 3600000 emptyWorld
    = (Ok id, w1)
    /\ Vidazoo.buildRequestData (H := Sample.runtime) (H0 := Sample.prebid)
         (H1 := sampleConstants) (H2 := samplePage)
         vidazooBid "https://page.example" (VArr []) vidazooBidderRequest
         (VNum (Num 3000)) (VStr "s") (VStr "1.0.0") "vidazoo" VUndef
         emptyWorld
       = (Ok (VObj data), tick w1)
    /\ obj_get "bidFloor" data = Some (VNum (Num 1))
    /\ obj_get "publisherId" data = Some (VStr "p")
    /\ obj_get "uniqueDealId" data = Some id.
Proof.
  destruct (buildRequestData_core (H := Sample.runtime) (H0 := Sample.prebid)
              (H1 := sampleConstants) (H2 := samplePage)
              vidazooBid "https://page.example" (VArr []) vidazooBidderRequest
              (VNum (Num 3000)) (VStr "s") (VStr "1.0.0") "vidazoo" VUndef
              (VNum (Num 1)) emptyWorld eq_refl eq_refl eq_refl eq_refl
              eq_refl)
    as (id & w1 & data & Hid & Hrun & _ & Hcore).
  - intros name userId [].
  - exists id, w1, data. split; [exact Hid|]. split; [exact Hrun|].
    split; [|split].
    + apply (Hcore "bidFloor"). simpl. tauto.
    + apply (Hcore "publisherId"). simpl. tauto.
    + apply (Hcore "uniqueDealId"). simpl. tauto.
Defined.

(** X21 at work: the GPP string of the consent wins over the one of the
    first-party data. *)
Lemma buildRequestData_consents_on_sample :
  exists data w',
    Vidazoo.buildRequestData (H := Sample.runtime) (H0 := Sample.prebid)
      (H1 := sampleConstants) (H2 := samplePage)
      vidazooBid "https://page.example" (VArr []) vidazooBidderRequest
      (VNum (Num 3000)) (VStr "s") (VStr "1.0.0") "vidazoo" VUndef
      emptyWorld
    = (Ok data, w')
    /\ getOpt data "gppString" = VStr "consent"
    /\ getOpt data "gdpr" = VUndef.
Proof.
  destruct (buildRequestData_consents (H := Sample.runtime)
              (H0 := Sample.prebid) (H1 := sampleConstants)
              (H2 := samplePage)
              vidazooBid "https://page.example" (VArr []) vidazooBidderRequest
              (VNum (Num 3000)) (VStr "s") (VStr "1.0.0") "vidazoo" VUndef
              (VNum (Num 1)) emptyWorld eq_refl eq_refl eq_refl eq_refl
              eq_refl)
    as (data & w' & Hrun & _ & Hgdpr & _ & Hgpp & _).
  - intros name userId [].
  - exists data, w'. split; [exact Hrun|]. split; [exact Hgpp|exact Hgdpr].
Defined.

(** X22 at work: the extension field of the sample bid request. *)
Lemma buildRequestData_ext_on_sample :
  exists data w',
    Vidazoo.buildRequestData (H := Sample.runtime) (H0 := Sample.prebid)
      (H1 := sampleConstants) (H2 := samplePage)
      vidazooBid "https://page.example" (VArr []) vidazooBidderRequest
      (VNum (Num 3000)) (VStr "s") (VStr "1.0.0") "vidazoo" VUndef
      emptyWorld
    = (Ok data, w')
    /\ getOpt data "ext.param1" = VStr "x".
Proof.
  destruct (buildRequestData_ext (H := Sample.runtime)
              (H0 := Sample.prebid) (H1 := sampleConstants)
              (H2 := samplePage)
              vidazooBid "https://page.example" (VArr []) vidazooBidderRequest
              (VNum (Num 3000)) (VStr "s") (VStr "1.0.0") "vidazoo" VUndef
              (VNum (Num 1)) emptyWorld eq_refl eq_refl eq_refl eq_refl
              eq_refl)
    as (data & w' & Hrun & Hext).
  - intros name userId [].
  - repeat constructor. by intros ?%elem_of_nil.
  - exists data, w'. split; [exact Hrun|].
    exact (Hext "param1" (VStr "x") (or_introl eq_refl)).
Defined.

(** X18 at work: an id of two systems appended to an empty payload. *)
Lemma appendUserIds_sets_uid_keys_on_sample :
  exists result,
    Vidazoo.appendUserIdsToRequestPayload []
      (VObj [("lipb", VObj [("lipbid", VStr "l")]); ("tdid", VStr "t")])
    = Ok result
    /\ obj_get "uid.lipb" result = Some (VStr "l")
    /\ obj_get "uid.tdid" result = Some (VStr "t")
    /\ obj_get "uid.id5id" result = None.
Proof.
  destruct (appendUserIds_sets_uid_keys
              [("lipb", VObj [("lipbid", VStr "l")]); ("tdid", VStr "t")] [])
    as (result & Hrun & Hset & Hother).
  - repeat constructor; by apply (bool_decide_unpack _); vm_compute.
  - intros name userId [[= <- <-]|[[= <- <-]|[]]] _; reflexivity.
  - exists result. split; [exact Hrun|]. split; [|split].
    + exact (Hset "lipb" (VObj [("lipbid", VStr "l")]) (or_introl eq_refl)).
    + exact (Hset "tdid" (VStr "t") (or_intror (or_introl eq_refl))).
    + apply (Hother "uid.id5id"). intros name [<-|[<-|[]]]; discriminate.
Defined.

(** X10 at work: an identifier stored at time 1000 and read at time 1000. *)
Lemma getUniqueDealId_expiry_on_sample :
  Vidazoo.getUniqueDealId (H := Sample.runtime) "k" 0
    (Sample.world (Sample.storageOf {["u_k" := idCell "k_1000" 1000]}))
  = (Ok (VStr "k_1000"),
     tick (Sample.world (Sample.storageOf {["u_k" := idCell "k_1000" 1000]}))).
Proof.
  apply (getUniqueDealId_expiry (H := Sample.runtime) "k" 0
           (Sample.world (Sample.storageOf {["u_k" := idCell "k_1000" 1000]}))
           "k_1000" 1000); try reflexivity; done.
Defined.

(** X12 at work: the stored text ["5"] becomes ["51"]. *)
Lemma getNextDealId_appends_to_text_on_sample :
  Vidazoo.getNextDealId (H := Sample.runtime) "k" 10
    (Sample.world (Sample.storageOf {["k" := textCounter "5" 999]}))
  = (Ok (VStr "51"),
     store "k" (textCounter "51" 999)
       (tick (Sample.world (Sample.storageOf {["k" := textCounter "5" 999]})))).
Proof.
  apply (getNextDealId_appends_to_text (H := Sample.runtime) "k" 10
           (Sample.world (Sample.storageOf {["k" := textCounter "5" 999]}))
           "5" 999); try reflexivity; done.
Defined.

(** X14 at work on empty storage read at time 1000. *)
Lemma getCacheOpt_remembers_on_sample :
  exists v w1,
    Vidazoo.getCacheOpt (H := numberTexts) "k" emptyWorld = (Ok v, w1)
    /\ truthy v = true
    /\ v = VStr "1000"
    /\ Vidazoo.getCacheOpt (H := numberTexts) "k" w1 = (Ok v, w1).
Proof.
  destruct (getCacheOpt_remembers (H := numberTexts) "k" emptyWorld
              (fun z => eq_refl)) as [_ Hrun].
  destruct (Hrun eq_refl eq_refl) as (v & w1 & Hfirst & Hv & Hnew & Hagain).
  exists v, w1. split; [exact Hfirst|]. split; [exact Hv|].
  split; [exact (Hnew eq_refl)|exact Hagain].
Defined.

(** X2 at work: a bid request with a video media type, sent without it. *)
Lemma buildRequests_transmits_on_sample :
  exists hostname after requests,
    Orbidder.getHostname (H := Sample.runtime)
      (Sample.world (Sample.storageOf ∅))
    = (Ok hostname, Sample.world (Sample.storageOf ∅))
    /\ Orbidder.buildRequests (H := Sample.runtime) (H0 := Sample.prebid)
         [bidWithVideo; bidWithEuroFloor] VUndef
         (Sample.world (Sample.storageOf ∅))
       = (Ok (after, requests), Sample.world (Sample.storageOf ∅))
    /\ Forall2 (carries (H := Sample.runtime) (H0 := Sample.prebid)
                  hostname VUndef) after requests.
Proof.
  apply (buildRequests_transmits (H := Sample.runtime) (H0 := Sample.prebid)
           [bidWithVideo; bidWithEuroFloor] VUndef
           (Sample.world (Sample.storageOf ∅))).
  - reflexivity.
  - exact sample_providers_return.
  - repeat constructor.
  - repeat constructor; by apply (bool_decide_unpack _); vm_compute.
Defined.

(** X3 at work: a consent object whose [gdprApplies] is the number 1. *)
Lemma buildRequests_consent_on_sample :
  exists after requests,
    Orbidder.buildRequests (H := Sample.runtime) (H0 := Sample.prebid)
      [bidWithEuroFloor]
      (VObj [("gdprConsent",
              VObj [("consentString", VStr "c");
                    ("gdprApplies", VNum (Num 1))])])
      (Sample.world (Sample.storageOf ∅))
    = (Ok (after, requests), Sample.world (Sample.storageOf ∅))
    /\ Forall2
         (reportsConsent
            (VObj [("gdprConsent",
                    VObj [("consentString", VStr "c");
                          ("gdprApplies", VNum (Num 1))])]))
         after requests.
Proof.
  apply (buildRequests_consent (H := Sample.runtime) (H0 := Sample.prebid)
           [bidWithEuroFloor] _ (Sample.world (Sample.storageOf ∅))).
  - reflexivity.
  - exact sample_providers_return.
  - repeat constructor.
  - repeat constructor; by apply (bool_decide_unpack _); vm_compute.
Defined.
